(** * summarize_git_stats.py: a shallow embedding and its properties

    The script shells out to git, parses the text it prints, folds the
    per-author counts over an alias table and draws one pie chart per
    metric.  This file embeds the script's functions as Rocq functions:
    Python strings are [string]s of 8-bit characters (code points below
    256), Python integers are [Z], Python dictionaries are
    insertion-ordered association lists, and the calls to git, to the
    clock and to [print] go through a small state-and-exception monad
    over an explicit world (the answers of the external tools). *)

From Stdlib Require Import ZArith NArith QArith Lia Bool Ascii String.
From Stdlib Require Import DecimalString DecimalN DecimalZ.
From stdpp Require Import base list sorting strings.

Local Open Scope Z_scope.

(** ** Python built-ins used by the script *)

Module Py.

(** [str.isspace] on one character, for code points below 256:
    TAB..CR, FS..US, SPACE, NEL and NBSP. *)
Definition isspace (c : ascii) : bool :=
  let n := N_of_ascii c in
  (((9 <=? n) && (n <=? 13)) || ((28 <=? n) && (n <=? 32))
   || (n =? 133) || (n =? 160))%N.

(** [\d] / [str.isdigit] for decimal digits below code point 256. *)
Definition isdigit (c : ascii) : bool :=
  let n := N_of_ascii c in ((48 <=? n) && (n <=? 57))%N.

(** [all(p(c) for c in s)] *)
Fixpoint all_chars (p : ascii -> bool) (s : string) : bool :=
  match s with
  | EmptyString => true
  | String c s' => p c && all_chars p s'
  end.

(** [s.lstrip()] *)
Fixpoint lstrip (s : string) : string :=
  match s with
  | EmptyString => EmptyString
  | String c s' => if isspace c then lstrip s' else s
  end.

(** [s.rstrip()] *)
Fixpoint rstrip (s : string) : string :=
  match s with
  | EmptyString => EmptyString
  | String c s' =>
      match rstrip s' with
      | EmptyString => if isspace c then EmptyString else String c EmptyString
      | r => String c r
      end
  end.

(** [s.strip()] *)
Definition strip (s : string) : string := lstrip (rstrip s).

(** [bool(s)] for a string: non-empty. *)
Definition truthy (s : string) : bool :=
  match s with EmptyString => false | String _ _ => true end.

(** [s.startswith(p)] *)
Definition startswith (p s : string) : bool := String.prefix p s.

(** [s.endswith(p)] *)
Fixpoint endswith (p s : string) : bool :=
  if String.eqb s p then true
  else match s with
       | EmptyString => false
       | String _ s' => endswith p s'
       end.

(** [s.split(c)] for a one-character separator [c]. *)
Fixpoint split_char (c : ascii) (s : string) : list string :=
  match s with
  | EmptyString => [EmptyString]
  | String a s' =>
      let r := split_char c s' in
      if Ascii.eqb a c then EmptyString :: r
      else match r with
           | h :: t => String a h :: t
           | [] => [String a EmptyString]
           end
  end.

(** [s.split(sep)] for a non-empty separator string: left to right,
    non-overlapping.  [skip] counts the characters of a separator that
    was just recognised and are still to be dropped; [cur] is the piece
    being read, reversed. *)
Fixpoint split_go (sep : string) (s : string) (skip : nat) (cur : string)
  : list string :=
  match s with
  | EmptyString => [String.rev cur]
  | String a s' =>
      match skip with
      | S k => split_go sep s' k cur
      | O =>
          if String.prefix sep s
          then String.rev cur :: split_go sep s' (String.length sep - 1) EmptyString
          else split_go sep s' O (String a cur)
      end
  end.

Definition split (sep s : string) : list string := split_go sep s O EmptyString.

(** [sep.join(ls)] *)
Fixpoint join (sep : string) (ls : list string) : string :=
  match ls with
  | [] => EmptyString
  | [x] => x
  | x :: rest => x +:+ sep +:+ join sep rest
  end.

(** [str(n)] for an integer. *)
Definition str_of_Z (z : Z) : string := NilEmpty.string_of_int (Z.to_int z).

(** [str(n)] for a natural number. *)
Definition str_of_N (n : N) : string := NilEmpty.string_of_uint (N.to_uint n).

(** [int(s)] on a string of decimal digits (what [(\d+)] captures). *)
Definition int_of_digits (s : string) : Z :=
  match NilEmpty.uint_of_string s with
  | Some u => Z.of_N (N.of_uint u)
  | None => 0
  end.

(** One hexadecimal digit. *)
Definition hex_val (c : ascii) : option Z :=
  let n := Z.of_N (N_of_ascii c) in
  if (48 <=? n) && (n <=? 57) then Some (n - 48)
  else if (97 <=? n) && (n <=? 102) then Some (n - 87)
  else if (65 <=? n) && (n <=? 70) then Some (n - 55)
  else None.

(** [int(s, 16)] on a string of hexadecimal digits, most significant
    digit first. *)
Fixpoint int16_go (acc : Z) (s : string) : Z :=
  match s with
  | EmptyString => acc
  | String c s' =>
      match hex_val c with
      | Some d => int16_go (16 * acc + d) s'
      | None => acc
      end
  end.

Definition int16 (s : string) : Z := int16_go 0 s.

(** *** [re.search(r'(\d+)' + kw, s)]

    [match_here kw s] is a match of [\d+] followed by the literal [kw]
    anchored at the start of [s]: greedy on the digits, giving digits
    back one by one when the rest does not fit.  [search] tries every
    start position from the left and returns group 1. *)
Fixpoint match_here (kw : string) (s : string) : option string :=
  match s with
  | EmptyString => None
  | String c s' =>
      if isdigit c then
        match match_here kw s' with
        | Some ds => Some (String c ds)
        | None => if String.prefix kw s' then Some (String c EmptyString) else None
        end
      else None
  end.

Fixpoint search (kw : string) (s : string) : option string :=
  match match_here kw s with
  | Some ds => Some ds
  | None =>
      match s with
      | EmptyString => None
      | String _ s' => search kw s'
      end
  end.

(** The text [s] does not go on with a digit: a run of digits that ends
    where [s] begins is a whole match of [\d+]. *)
Definition no_digit_ahead (s : string) : bool :=
  match s with
  | EmptyString => true
  | String c _ => negb (isdigit c)
  end.

(** *** Dictionaries

    A [dict] keeps its keys in insertion order; assigning to a key that
    is present keeps its place. *)
Section Dict.
Context {K V : Type} `{EqDecision K}.

Definition dict := list (K * V).

Fixpoint get (k : K) (d : dict) : option V :=
  match d with
  | [] => None
  | (k', v) :: d' => if decide (k' = k) then Some v else get k d'
  end.

(** [d[k] = v] *)
Fixpoint set (k : K) (v : V) (d : dict) : dict :=
  match d with
  | [] => [(k, v)]
  | (k', v') :: d' =>
      if decide (k' = k) then (k', v) :: d' else (k', v') :: set k v d'
  end.

(** [d.keys()] *)
Definition keys (d : dict) : list K := map fst d.

(** [k in d] *)
Definition mem (k : K) (d : dict) : bool :=
  match get k d with Some _ => true | None => false end.
End Dict.

Arguments dict : clear implicits.

(** [d.get(k, 0)] *)
Definition get0 {K} `{EqDecision K} (k : K) (d : dict K Z) : Z :=
  default 0 (get k d).

(** [x in l] for a list. *)
Definition in_list {A} `{EqDecision A} (x : A) (l : list A) : bool :=
  bool_decide (x ∈ l).

End Py.

(** ** The standard-library calls: [datetime], [subprocess], [os.walk] *)

(** [datetime.strptime(s, "%Y-%m-%d")] as the triple (year, month, day),
    [None] where Python raises [ValueError].  The format's pattern is
    four digits, a month [1[0-2]|0[1-9]|[1-9]] and a day
    [3[0-1]|[1-2]\d|0[1-9]|[1-9]| [1-9]], separated by dashes, with
    nothing left over; the date must exist in the calendar. *)
Module Datetime.

Definition all_digits (s : string) : bool := Py.all_chars Py.isdigit s.

Definition parse_Y (s : string) : option Z :=
  if all_digits s && (String.length s =? 4)%nat
  then Some (Py.int_of_digits s) else None.

Definition parse_m (s : string) : option Z :=
  match s with
  | String a EmptyString =>
      if all_digits s && negb (Ascii.eqb a "0") then Some (Py.int_of_digits s) else None
  | String a (String b EmptyString) =>
      let n := Py.int_of_digits s in
      if all_digits s && (1 <=? n) && (n <=? 12) then Some n else None
  | _ => None
  end.

Definition parse_d (s : string) : option Z :=
  match s with
  | String a EmptyString =>
      if all_digits s && negb (Ascii.eqb a "0") then Some (Py.int_of_digits s) else None
  | String a (String b EmptyString) =>
      if Ascii.eqb a " " then
        (if Py.isdigit b && negb (Ascii.eqb b "0")
         then Some (Py.int_of_digits (String b EmptyString)) else None)
      else
        let n := Py.int_of_digits s in
        if all_digits s && (1 <=? n) && (n <=? 31) then Some n else None
  | _ => None
  end.

Definition is_leap (y : Z) : bool :=
  ((y mod 4 =? 0) && negb (y mod 100 =? 0)) || (y mod 400 =? 0).

Definition days_in_month (y m : Z) : Z :=
  if m =? 2 then (if is_leap y then 29 else 28)
  else if (m =? 4) || (m =? 6) || (m =? 9) || (m =? 11) then 30
  else 31.

Definition strptime (s : string) : option (Z * Z * Z) :=
  match Py.split_char "-" s with
  | [ys; ms; ds] =>
      match parse_Y ys, parse_m ms, parse_d ds with
      | Some y, Some m, Some d =>
          if (1 <=? y) && (d <=? days_in_month y m) then Some (y, m, d) else None
      | _, _, _ => None
      end
  | _ => None
  end.

(** [a < b] on two dates. *)
Definition before (a b : Z * Z * Z) : bool :=
  let '(y1, m1, d1) := a in
  let '(y2, m2, d2) := b in
  (y1 <? y2) || ((y1 =? y2) && ((m1 <? m2) || ((m1 =? m2) && (d1 <? d2)))).

(** Two digits, zero padded: [%m] and [%d] of [strftime]. *)
Definition pad2 (n : N) : string :=
  if (n <? 10)%N then String "0" (Py.str_of_N n) else Py.str_of_N n.

End Datetime.

(** The working-tree reference: where [HEAD] is, and where it was before
    the last checkout (what [git checkout -] goes back to). *)
Record GitRefs := { HEAD : string; previous : option string }.

(** What running a command gives: an exit status with the captured
    output, or the call itself raising (the program cannot be started,
    its output cannot be decoded). *)
Inductive Answer :=
| Exits (code : Z) (out err : string)
| Fails (msg : string).

(** The world outside the script: the clock, the answers of the
    commands, which may depend on every command issued before, and the
    directory listings of [os.walk]. *)
Record World := {
  today : N * N * N;
  respond : list (list string) -> list string -> Answer;
  os_walk : list (list string) -> string -> list (string * list string)
}.

(** What the script has done so far: the reference of the working tree,
    the commands issued (oldest first) and the lines printed. *)
Record State := {
  refs : GitRefs;
  trace : list (list string);
  printed : list string
}.

Inductive exn :=
| CalledProcessError (stderr : option string)
| RuntimeError (msg : string)
| Exception (msg : string)
| ValueError (msg : string)
| OSError (msg : string).

Inductive Result (A : Type) :=
| Ok (a : A)
| Raised (e : exn).
Arguments Ok {A} a.
Arguments Raised {A} e.

Definition M (A : Type) : Type := World -> State -> Result A * State.

Definition ret {A} (a : A) : M A := fun _ st => (Ok a, st).

Definition raise {A} (e : exn) : M A := fun _ st => (Raised e, st).

Definition bind {A B} (m : M A) (k : A -> M B) : M B :=
  fun w st =>
    match m w st with
    | (Ok a, st') => k a w st'
    | (Raised e, st') => (Raised e, st')
    end.

Notation "'let*' x ':=' m 'in' k" := (bind m (fun x => k))
  (at level 10, x pattern, m at level 100, k at level 200).

(** [try: body  except <those [handler] accepts> as e: handler e] *)
Definition try_except {A} (body : M A) (handler : exn -> option (M A)) : M A :=
  fun w st =>
    match body w st with
    | (Ok a, st') => (Ok a, st')
    | (Raised e, st') =>
        match handler e with
        | Some h => h w st'
        | None => (Raised e, st')
        end
    end.

Fixpoint foldM {A B} (f : B -> A -> M B) (l : list A) (b : B) : M B :=
  match l with
  | [] => ret b
  | x :: l' => let* b' := f b x in foldM f l' b'
  end.

Definition print (line : string) : M unit :=
  fun _ st =>
    (Ok tt, {| refs := refs st; trace := trace st; printed := printed st ++ [line] |}).

(** [datetime.now().strftime('%Y')] and [...strftime('%Y-%m-%d')] *)
Definition strftime_Y (w : World) : string :=
  let '(y, _, _) := today w in Py.str_of_N y.

Definition strftime_Ymd (w : World) : string :=
  let '(y, m, d) := today w in
  Py.str_of_N y +:+ "-" +:+ Datetime.pad2 m +:+ "-" +:+ Datetime.pad2 d.

Definition now_Y : M string := fun w st => (Ok (strftime_Y w), st).
Definition now_Ymd : M string := fun w st => (Ok (strftime_Ymd w), st).

(** What a git command that succeeded does to the working-tree
    reference.  [git checkout -] switches back to the previous one. *)
Definition git_effect (argv : list string) (r : GitRefs) : GitRefs :=
  match argv with
  | ["git"; "checkout"; target] =>
      if String.eqb target "-" then
        match previous r with
        | Some p => {| HEAD := p; previous := Some (HEAD r) |}
        | None => r
        end
      else {| HEAD := target; previous := Some (HEAD r) |}
  | _ => r
  end.

Record CompletedProcess := {
  returncode : Z;
  stdout : string;
  stderr : string
}.

(** [subprocess.run(argv, check=check, ...)]; [capture] says whether
    stderr is captured (it is what a [CalledProcessError] carries). *)
Definition run (argv : list string) (check capture : bool) : M CompletedProcess :=
  fun w st =>
    let issued := trace st ++ [argv] in
    match respond w (trace st) argv with
    | Fails msg =>
        (Raised (OSError msg),
         {| refs := refs st; trace := issued; printed := printed st |})
    | Exits code out err =>
        if code =? 0 then
          (Ok {| returncode := code; stdout := out; stderr := err |},
           {| refs := git_effect argv (refs st); trace := issued; printed := printed st |})
        else if check then
          (Raised (CalledProcessError (if capture then Some err else None)),
           {| refs := refs st; trace := issued; printed := printed st |})
        else
          (Ok {| returncode := code; stdout := out; stderr := err |},
           {| refs := refs st; trace := issued; printed := printed st |})
    end.

(** [for root, _, files in os.walk(directory)] *)
Definition walk (directory : string) : M (list (string * list string)) :=
  fun w st => (Ok (os_walk w (trace st) directory), st).

(** [os.path.join(root, file)] *)
Definition path_join (root file : string) : string :=
  if Py.startswith "/" file then file
  else if negb (Py.truthy root) || Py.endswith "/" root then root +:+ file
  else root +:+ "/" +:+ file.

(** [str(e)] and [f"{e.stderr}"] *)
Definition exn_str (e : exn) : string :=
  match e with
  | CalledProcessError _ => "Command returned non-zero exit status."
  | RuntimeError m | Exception m | ValueError m | OSError m => m
  end.

Definition opt_str (o : option string) : string :=
  match o with Some s => s | None => "None" end.

(** ** [get_code_lines_contributed] *)

Definition uncommitted_changes_msg : string :=
  "Uncommitted changes detected when the selected end_date requires a checkout to old commit. Due to risk of losing unsaved work, commit or stash your current changes before doing the git stats.".

(** The command lines handed to [subprocess.run]. *)
Definition blame_argv (file_path : string) : list string :=
  ["git"; "blame"; "--line-porcelain"; file_path].

Definition status_argv : list string := ["git"; "status"; "--porcelain"].

Definition rev_list_argv (date_to_check : string) : list string :=
  ["git"; "rev-list"; "--before=" +:+ date_to_check; "--max-count=1"; "HEAD"].

Definition checkout_argv (target : string) : list string :=
  ["git"; "checkout"; target].

(** The [try] block that checks the tree out at the last commit before
    [date_to_check]; only [CalledProcessError] is caught. *)
Definition checkout_before (date_to_check : string) : M unit :=
  try_except
    (let* status_result := run status_argv true true in
     let has_uncommitted_changes := Py.truthy (Py.strip (stdout status_result)) in
     let* _ := (if has_uncommitted_changes
                then raise (RuntimeError uncommitted_changes_msg) else ret tt) in
     let* _ := (if has_uncommitted_changes
                then print "Uncommitted changes detected. Stashing changes..."
                else ret tt) in
     let* result := run (rev_list_argv date_to_check) true true in
     let commit_hash := Py.strip (stdout result) in
     if Py.truthy commit_hash then
       let* _ := print ("Commit found: " +:+ commit_hash) in
       let* _ := run (checkout_argv commit_hash) true false in
       print ("Checked out commit: " +:+ commit_hash)
     else print "No commit found before the specified date.")
    (fun e =>
       match e with
       | CalledProcessError err => Some (print ("Error: " +:+ opt_str err))
       | _ => None
       end).

(** One line of [git blame --line-porcelain]:
    [user_line_counts[author] += 1] on an [author ] line. *)
Definition count_author (user_line_counts : Py.dict string Z) (line : string)
  : Py.dict string Z :=
  if Py.startswith "author " line then
    let author := Py.strip (nth 1 (Py.split "author " line) EmptyString) in
    Py.set author (Py.get0 author user_line_counts + 1) user_line_counts
  else user_line_counts.

(** The tally of one blame output. *)
Definition count_blame (out : string) (user_line_counts : Py.dict string Z)
  : Py.dict string Z :=
  fold_left count_author (Py.split_char "010" (Py.strip out)) user_line_counts.

(** The body of the innermost loop for one file that has a relevant
    extension: the [try] around the blame of [file_path].  Nothing after
    [subprocess.run] can raise, so the handler sees the counts as they
    were before the file. *)
Definition blame_file (file_path : string) (user_line_counts : Py.dict string Z)
  : M (Py.dict string Z) :=
  try_except
    (let* result := run (blame_argv file_path) false true in
     if negb (returncode result =? 0) then ret user_line_counts
     else ret (count_blame (stdout result) user_line_counts))
    (fun e =>
       Some (let* _ := print ("Error processing file " +:+ file_path +:+ ": " +:+ exn_str e) in
             ret user_line_counts)).

Definition relevant (file : string) : bool :=
  Py.endswith ".jl" file || Py.endswith ".m" file.

Definition blame_files (root : string) (files : list string)
  (user_line_counts : Py.dict string Z) : M (Py.dict string Z) :=
  foldM (fun counts file =>
           if relevant file then blame_file (path_join root file) counts
           else ret counts)
        files user_line_counts.

Definition blame_directory (directory : string) (user_line_counts : Py.dict string Z)
  : M (Py.dict string Z) :=
  let* entries := walk directory in
  foldM (fun counts '(root, files) => blame_files root files counts)
        entries user_line_counts.

Definition date_julia_begin : string := "2021-11-25".

(** The flag [check_out]: false exactly when the text of
    [date_to_check] before its first dash is [year_now]. *)
Definition check_out_needed (year_now date_to_check : string) : bool :=
  negb (String.eqb (hd EmptyString (Py.split_char "-" date_to_check)) year_now).

(** Lines 200-250: the choice of the directories, the blame of every
    relevant file, and the way back. *)
Definition blame_analysis (check_out : bool) (date_to_check : string)
  : M (string * Py.dict string Z) :=
  match Datetime.strptime date_julia_begin, Datetime.strptime date_to_check with
  | Some datetime_julia_begin, Some datetime_to_check =>
      let '(code_version, dirs_to_walk, shown) :=
        if Datetime.before datetime_to_check datetime_julia_begin
        then ("MATLAB", ["documentation"; "tools"; "model"; "optimization"],
              "('documentation', 'tools', 'model', 'optimization')")
        else ("Julia", ["src/"; "lib/"; "docs/"], "('src/', 'lib/', 'docs/')") in
      let* _ := print ("checking: " +:+ shown +:+ " on " +:+ date_to_check) in
      let* user_line_counts :=
        foldM (fun counts directory => blame_directory directory counts)
              dirs_to_walk [] in
      let* _ := (if check_out
                 then let* _ := run (checkout_argv "-") true false in ret tt
                 else ret tt) in
      ret (code_version +:+ "@" +:+ date_to_check, user_line_counts)
  | _, _ => raise (ValueError "time data does not match format '%Y-%m-%d'")
  end.

Definition get_code_lines_contributed (date_to_check : option string)
  : M (string * Py.dict string Z) :=
  let* year_now := now_Y in
  let* date_to_check :=
    match date_to_check with
    | None => now_Ymd
    | Some d => ret d
    end in
  let check_out := check_out_needed year_now date_to_check in
  let* _ := (if check_out then checkout_before date_to_check else ret tt) in
  blame_analysis check_out date_to_check.

(** A run from [st] to [st'] that only blamed files: the reference of
    the working tree is the same and the commands issued are blames. *)
Definition only_blames (st st' : State) : Prop :=
  refs st' = refs st /\
  exists ps lines,
    trace st' = trace st ++ map blame_argv ps /\
    printed st' = printed st ++ lines.

(** A blame that did not give an output to parse: a non-zero exit
    status, or the call raising. *)
Definition blame_failed (a : Answer) : Prop :=
  match a with
  | Exits code _ _ => code <> 0
  | Fails _ => True
  end.

(** What the script prints for a failed blame of [file_path]: a line for
    an exception, nothing for a non-zero exit status. *)
Definition failure_log (file_path : string) (a : Answer) : list string :=
  match a with
  | Exits _ _ _ => []
  | Fails msg => ["Error processing file " +:+ file_path +:+ ": " +:+ msg]
  end.

(** ** [get_git_user_commit_summary] *)

Record commit_summary := {
  git_commits : Py.dict string Z;
  lines_added : Py.dict (option string) Z;
  lines_deleted : Py.dict (option string) Z
}.

(** One turn of the parsing loop.  [current_author] is [None] before the
    first author line and a string afterwards. *)
Definition parse_line (st : commit_summary * option string) (line : string)
  : commit_summary * option string :=
  let '(cs, current_author) := st in
  if negb (Py.startswith " " line) then
    let author := Py.strip line in
    (if Py.truthy author
     then {| git_commits := Py.set author (Py.get0 author (git_commits cs) + 1) (git_commits cs);
             lines_added := lines_added cs;
             lines_deleted := lines_deleted cs |}
     else cs,
     Some author)
  else
    let added := Py.search " insertions" line in
    let deleted := Py.search " deletions" line in
    let cs1 :=
      match added with
      | Some g =>
          {| git_commits := git_commits cs;
             lines_added := Py.set current_author
                              (Py.get0 current_author (lines_added cs) + Py.int_of_digits g)
                              (lines_added cs);
             lines_deleted := lines_deleted cs |}
      | None => cs
      end in
    let cs2 :=
      match deleted with
      | Some g =>
          {| git_commits := git_commits cs1;
             lines_added := lines_added cs1;
             lines_deleted := Py.set current_author
                                (Py.get0 current_author (lines_deleted cs1) + Py.int_of_digits g)
                                (lines_deleted cs1) |}
      | None => cs1
      end in
    (cs2, current_author).

Definition empty_summary : commit_summary :=
  {| git_commits := []; lines_added := []; lines_deleted := [] |}.

(** The parser: [log_result.stdout.strip().split('\n')] and the loop
    over its lines. *)
Definition log_lines (log_stdout : string) : list string :=
  Py.split_char "010" (Py.strip log_stdout).

Definition parse_log (log_stdout : string) : commit_summary :=
  fst (fold_left parse_line (log_lines log_stdout) (empty_summary, None)).

(** What holds of the loop's state once it has read a line: there is a
    current author, and no count was filed under [None]. *)
Definition authored (st : commit_summary * option string) : Prop :=
  snd st <> None
  /\ (None ∉ Py.keys (lines_added (fst st)))
  /\ (None ∉ Py.keys (lines_deleted (fst st))).

(** [end_year] is an integer, or the string [year_now] when it was left
    out. *)
Inductive pyval :=
| PInt (z : Z)
| PStr (s : string).

Definition fstr (v : pyval) : string :=
  match v with PInt z => Py.str_of_Z z | PStr s => s end.

(** [v == z] for an integer [z]. *)
Definition eq_int (v : pyval) (z : Z) : bool :=
  match v with PInt x => x =? z | PStr _ => false end.

Definition git_log_argv (start_date end_date : string) : list string :=
  ["git"; "log"; "--since=" +:+ start_date; "--until=" +:+ end_date;
   "--shortstat"; "--pretty=format:%an"].

(** Lines 67-80: [end_year], [start_date] and [end_date] from the
    arguments and the two readings of the clock, [year_now] and
    [date_now] (today as [%Y-%m-%d]). *)
Definition date_range (year_now date_now : string) (start_year : Z)
  (end_year : option Z) : pyval * string * string :=
  let end_year := match end_year with None => PStr year_now | Some z => PInt z end in
  let end_date := fstr end_year +:+ "-12-31" in
  let end_date :=
    if eq_int end_year (Py.int_of_digits year_now) then date_now else end_date in
  let end_date :=
    if eq_int end_year 2021 && negb (start_year =? 2021)
    then fstr end_year +:+ "-11-24" else end_date in
  let start_date := Py.str_of_Z start_year +:+ "-01-01" in
  let start_date :=
    if start_year =? 2021 then Py.str_of_Z start_year +:+ "-11-25" else start_date in
  (end_year, start_date, end_date).

Definition get_git_user_commit_summary (start_year : Z) (end_year : option Z)
  : M (commit_summary * (string * Py.dict string Z)) :=
  let* year_now := now_Y in
  let* date_now := now_Ymd in
  let '(end_year, start_date, end_date) :=
    date_range year_now date_now start_year end_year in
  let* log_result := run (git_log_argv start_date end_date) false true in
  if negb (returncode log_result =? 0)
  then raise (Exception "Error running git log command.")
  else
    let summary := parse_log (stdout log_result) in
    let* _ := print (Py.str_of_Z start_year +:+ " " +:+ start_date +:+ " "
                     +:+ fstr end_year +:+ " " +:+ end_date) in
    let* code := get_code_lines_contributed (Some end_date) in
    ret (summary, code).

(** ** The script body: aliases, colours, ordering *)

Definition user_aliases : Py.dict string (list string) :=
  [("dr-ko", ["skoirala"]);
   ("Nuno", ["Nuno Carvalhais"; "NC"; "ncarval"]);
   ("Lazaro Alonso", ["Lazaro Alonso Silva"; "lazarusA"; "Lazaro"; "lalonso"]);
   ("Fabian Gans", ["meggart"]);
   ("Tina Trautmann", ["Tina"])].

(** [[alias for aliases in user_aliases.values() for alias in aliases]] *)
Definition alias_values : list string := concat (map snd user_aliases).

(** The inner loop: add the count of every alias that is a key of
    [metric_data]. *)
Definition add_aliases (metric_data : Py.dict string Z) (aliases : list string)
  (total_contribution : Z) : Z :=
  fold_left (fun total alias =>
               match Py.get alias metric_data with
               | Some n => total + n
               | None => total
               end)
            aliases total_contribution.

(** [total_contribution] when it is stored: [metric_data[user]], plus
    the counts of the aliases when [user] is in [user_aliases].  [user]
    is a key of [metric_data], so [metric_data[user]] is there. *)
Definition total_contribution (metric_data : Py.dict string Z) (user : string) : Z :=
  let total_contribution := Py.get0 user metric_data in
  match Py.get user user_aliases with
  | Some aliases => add_aliases metric_data aliases total_contribution
  | None => total_contribution
  end.

(** One turn of the merging loop over [metric_data.keys()]. *)
Definition merge_user (metric_data : Py.dict string Z)
  (unique_user_data : Py.dict string Z) (user : string) : Py.dict string Z :=
  if negb (Py.in_list user alias_values)
  then Py.set user (total_contribution metric_data user) unique_user_data
  else unique_user_data.

Definition unique_user_data (metric_data : Py.dict string Z) : Py.dict string Z :=
  fold_left (merge_user metric_data) (Py.keys metric_data) [].

(** [sorted(unique_user_data.keys())]: strings compare by code point. *)
Definition sorted_users (metric_data : Py.dict string Z) : list string :=
  merge_sort String.le (Py.keys (unique_user_data metric_data)).

(** [[unique_user_data[user] for user in sorted_users]] *)
Definition contributions (metric_data : Py.dict string Z) : list Z :=
  map (fun user => Py.get0 user (unique_user_data metric_data))
      (sorted_users metric_data).

(** A colour handed to the chart: an (R, G, B, alpha) tuple or a named
    colour.  The channels are the exact quotients; Python rounds them to
    floats. *)
Inductive color :=
| RGBA (r g b a : Q)
| Named (name : string).

(** [hashlib.md5] and the module [random], whose generator is one global
    state that [random.seed] replaces and [random.randint] advances. *)
Record PyLib := {
  md5_hexdigest : string -> string;
  rng : Type;
  random_seed : Z -> rng;
  random_randint : Z -> Z -> rng -> Z * rng
}.

Section Colors.
Variable L : PyLib.

(** [1 - random.randint(0, 255) / 255.0] *)
Definition channel (g : rng L) : Q * rng L :=
  let '(n, g') := random_randint L 0 255 g in
  ((1 - inject_Z n / 255)%Q, g').

(** Seeding with the digest and drawing the three channels. *)
Definition seeded_color (hex_digest : string) (alpha : Q) : color * rng L :=
  let g0 := random_seed L (Py.int16 hex_digest) in
  let '(r, g1) := channel g0 in
  let '(g, g2) := channel g1 in
  let '(b, g3) := channel g2 in
  (RGBA r g b alpha, g3).

(** The loop body of [generate_unique_colors] for one user; the
    generator it finds is replaced by the seeded one. *)
Definition assign_color (alpha : Q) (st : Py.dict string color * rng L)
  (user : string) : Py.dict string color * rng L :=
  let '(color_mapping, _) := st in
  let hex_digest := md5_hexdigest L user in
  let '(c, g') := seeded_color hex_digest alpha in
  (Py.set user c color_mapping, g').

Definition generate_unique_colors (users : list string) (alpha : Q)
  (g : rng L) : Py.dict string color * rng L :=
  fold_left (assign_color alpha) users ([], g).

(** [user_colors = generate_unique_colors(all_users, alpha=0.9)] with
    [all_users] the keys of the run's [git_commits]. *)
Definition user_colors (commits : Py.dict string Z) (g : rng L)
  : Py.dict string color :=
  fst (generate_unique_colors (Py.keys commits) (9 # 10)%Q g).

(** One entry of [sorted_colors]. *)
Definition chart_color (colors : Py.dict string color) (user : string) : color :=
  match Py.get user colors with
  | Some c => c
  | None => Named "#cccccc"
  end.

Definition sorted_colors (colors : Py.dict string color)
  (metric_data : Py.dict string Z) : list color :=
  map (chart_color colors) (sorted_users metric_data).
End Colors.

(** ** The log text as git prints it, and the totals it stands for

    [git log --shortstat --pretty=format:%an] prints, for every commit,
    the author's name on a line of its own and then, indented by one
    space, the summary of the commit.  An entry here is one author line
    with the summary lines below it; empty lines separate two entries,
    one after a commit with a summary and none after a commit without
    (a merge), so every entry comes with its own number of them. *)
Module LogFormat.

Record shortstat := {
  files_changed : N;
  insertions : option N;
  deletions : option N
}.

Record entry := {
  author : string;
  summary : list shortstat
}.

Definition nl : string := String "010" EmptyString.

(** The summary line in git's own wording, which puts [file],
    [insertion] and [deletion] in the singular for a count of one. *)
Definition plural (n : N) : string := if (n =? 1)%N then EmptyString else "s".

Definition git_count_part (noun sign : string) (n : option N) (rest : string)
  : string :=
  match n with
  | Some k =>
      String "," (String " "
        (Py.str_of_N k +:+ String " " (noun +:+ (plural k +:+ (sign +:+ rest)))))
  | None => rest
  end.

Definition git_shortstat (s : shortstat) : string :=
  String " "
    (Py.str_of_N (files_changed s) +:+
     String " " ("file" +:+ (plural (files_changed s) +:+
       (" changed" +:+
        git_count_part "insertion" "(+)" (insertions s)
          (git_count_part "deletion" "(-)" (deletions s) EmptyString))))).

Definition render_entry (e : entry) : list string :=
  author e :: map git_shortstat (summary e).

Definition render_log (gap : nat) (es : list entry) : list string :=
  match es with
  | [] => []
  | e :: es' =>
      render_entry e ++
      flat_map (fun e' => repeat EmptyString gap ++ render_entry e') es'
  end.

Definition text (gap : nat) (es : list entry) : string :=
  Py.join nl (render_log gap es).

(** A log in which every entry comes after its own number of empty
    lines. *)
Definition render_spaced (l : list (nat * entry)) : list string :=
  flat_map (fun ge => repeat EmptyString (fst ge) ++ render_entry (snd ge)) l.

Definition spaced_text (l : list (nat * entry)) : string :=
  Py.join nl (render_spaced l).

Definition entries (l : list (nat * entry)) : list entry := map snd l.

(** Only whitespace: what [strip] removes around the output. *)
Definition blank (s : string) : bool := Py.all_chars Py.isspace s.

(** A name as an author line carries it: not empty, no whitespace at
    either end, on one line. *)
Definition one_line (s : string) : bool :=
  Py.all_chars (fun c => negb (Ascii.eqb c "010")) s.

Definition plain_name (a : string) : bool :=
  Py.truthy a && String.eqb (Py.lstrip a) a && String.eqb (Py.rstrip a) a
  && one_line a.

(** The numbers attributed to author [a]: those [pick] finds in the
    entries whose author line is [a], in the order of the log. *)
Definition attributed (pick : entry -> list Z) (a : string) (es : list entry)
  : list Z :=
  flat_map (fun e => if decide (author e = a) then pick e else []) es.

Definition counts_of (field : shortstat -> option N) (e : entry) : list Z :=
  Z.of_N <$> omap field (summary e).

(** A count as the patterns read it: they ask for the plural, and a
    count of one is written in the singular. *)
Definition plural_count (n : option N) : option N :=
  match n with
  | Some k => if (k =? 1)%N then None else Some k
  | None => None
  end.

Definition plural_counts_of (field : shortstat -> option N) (e : entry) : list Z :=
  counts_of (fun s => plural_count (field s)) e.

Definition commits (a : string) (es : list entry) : list Z :=
  attributed (fun _ => [1]) a es.

Definition added (a : string) (es : list entry) : list Z :=
  attributed (counts_of insertions) a es.

Definition deleted (a : string) (es : list entry) : list Z :=
  attributed (counts_of deletions) a es.

(** The insertions (deletions) of an author that are written in the
    plural. *)
Definition added_plural (a : string) (es : list entry) : list Z :=
  attributed (plural_counts_of insertions) a es.

Definition deleted_plural (a : string) (es : list entry) : list Z :=
  attributed (plural_counts_of deletions) a es.

(** The entry of a dictionary that has accumulated the numbers [l]:
    absent when there are none, their sum otherwise. *)
Definition total (l : list Z) : option Z :=
  match l with
  | [] => None
  | _ => Some (foldr Z.add 0 l)
  end.

(** The numbers filed under a key of [lines_added] or [lines_deleted]:
    those of the author for a name, none for [None]. *)
Definition keyed (f : string -> list entry -> list Z) (k : option string)
  (es : list entry) : list Z :=
  match k with
  | Some a => f a es
  | None => []
  end.

(** The dictionary [d] has accumulated, under every key [k], the numbers
    [F k]. *)
Definition tallies {K} `{EqDecision K} (d : Py.dict K Z) (F : K -> list Z) : Prop :=
  forall k, Py.get k d = total (F k).

(** A text that [rstrip] leaves alone and that is not empty. *)
Definition ends_well (s : string) : Prop :=
  s <> EmptyString /\ Py.rstrip s = s.

End LogFormat.

(** ** Scenarios used as concrete inputs *)
Module Scenario.

(** 4 November 2026. *)
Definition clock : N * N * N := (2026, 11, 4)%N.

(** Every command succeeds and prints nothing; there are no files. *)
Definition quiet : World :=
  {| today := clock;
     respond := fun _ _ => Exits 0 EmptyString EmptyString;
     os_walk := fun _ _ => [] |}.

(** A clean tree on [main], whose previous reference is [dev]. *)
Definition on_main : State :=
  {| refs := {| HEAD := "main"; previous := Some "dev" |};
     trace := [];
     printed := [] |}.

(** The tree has one modified file. *)
Definition dirty : World :=
  {| today := clock;
     respond := fun _ argv =>
       if decide (argv = status_argv) then Exits 0 " M src/a.jl" EmptyString
       else Exits 0 EmptyString EmptyString;
     os_walk := fun _ _ => [] |}.

(** [git rev-list] finds the commit [abc123]; [src/] holds two Julia
    files, and the blame of the first one exits with status [code]. *)
Definition two_files (code : Z) : World :=
  {| today := clock;
     respond := fun _ argv =>
       if decide (argv = rev_list_argv "2022-12-31") then Exits 0 "abc123" EmptyString
       else if decide (argv = blame_argv "src/a.jl")
            then Exits code EmptyString "fatal: no such path"
       else if decide (argv = blame_argv "src/b.jl")
            then Exits 0 ("author Ann" +:+ LogFormat.nl +:+ "author Bob"
                          +:+ LogFormat.nl +:+ "author Ann") EmptyString
       else Exits 0 EmptyString EmptyString;
     os_walk := fun _ d =>
       if decide (d = "src/") then [("src/", ["a.jl"; "b.jl"; "README.md"])] else [] |}.

(** As [two_files], but the blame of the first file cannot be decoded:
    the call raises. *)
Definition undecodable : World :=
  {| today := clock;
     respond := fun _ argv =>
       if decide (argv = blame_argv "src/a.jl") then Fails "'utf-8' codec can't decode byte"
       else respond (two_files 0) [] argv;
     os_walk := os_walk (two_files 0) |}.

(** [git log] exits with status 128. *)
Definition log_fails : World :=
  {| today := clock;
     respond := fun _ argv =>
       match argv with
       | "git" :: "log" :: _ => Exits 128 EmptyString "fatal: not a git repository"
       | _ => Exits 0 EmptyString EmptyString
       end;
     os_walk := fun _ _ => [] |}.

(** A log of two authors. *)
Definition two_authors : list LogFormat.entry :=
  [ {| LogFormat.author := "Alice";
       LogFormat.summary := [ {| LogFormat.files_changed := 3;
                                 LogFormat.insertions := Some 10%N;
                                 LogFormat.deletions := Some 2%N |} ] |};
    {| LogFormat.author := "Bob";
       LogFormat.summary := [ {| LogFormat.files_changed := 2;
                                 LogFormat.insertions := Some 5%N;
                                 LogFormat.deletions := None |} ] |};
    {| LogFormat.author := "Alice";
       LogFormat.summary := [ {| LogFormat.files_changed := 4;
                                 LogFormat.insertions := None;
                                 LogFormat.deletions := Some 7%N |} ] |} ].

(** A log of two authors in which a commit adds a single line and
    another deletes a single line. *)
Definition single_lines : list LogFormat.entry :=
  [ {| LogFormat.author := "Alice";
       LogFormat.summary := [ {| LogFormat.files_changed := 1;
                                 LogFormat.insertions := Some 1%N;
                                 LogFormat.deletions := Some 2%N |} ] |};
    {| LogFormat.author := "Bob";
       LogFormat.summary := [ {| LogFormat.files_changed := 2;
                                 LogFormat.insertions := Some 5%N;
                                 LogFormat.deletions := None |} ] |};
    {| LogFormat.author := "Alice";
       LogFormat.summary := [ {| LogFormat.files_changed := 3;
                                 LogFormat.insertions := Some 10%N;
                                 LogFormat.deletions := Some 1%N |} ] |} ].

(** The same log with a merge by Bob, which has no summary and no empty
    line after it, between the two commits. *)
Definition with_merge : list (nat * LogFormat.entry) :=
  [ (0%nat, {| LogFormat.author := "Alice";
               LogFormat.summary := [ {| LogFormat.files_changed := 1;
                                         LogFormat.insertions := Some 1%N;
                                         LogFormat.deletions := Some 2%N |} ] |});
    (1%nat, {| LogFormat.author := "Bob"; LogFormat.summary := [] |});
    (0%nat, {| LogFormat.author := "Alice";
               LogFormat.summary := [ {| LogFormat.files_changed := 3;
                                         LogFormat.insertions := Some 10%N;
                                         LogFormat.deletions := Some 1%N |} ] |}) ].

(** A toy [hashlib]/[random]: the digest is the name, the generator a
    counter. *)
Definition toy_lib : PyLib :=
  {| md5_hexdigest := fun s => s;
     rng := Z;
     random_seed := fun z => z;
     random_randint := fun lo hi g => (lo + g mod (hi - lo + 1), g + 1) |}.

End Scenario.


(** ** Further notions used in the properties *)

(** [sum(d.values())] *)
Definition sum_values {K} (d : Py.dict K Z) : Z := foldr Z.add 0 (map snd d).

(** A line the parsing loop counts as a commit: not indented, and not
    blank once stripped. *)
Definition author_line (line : string) : bool :=
  negb (Py.startswith " " line) && Py.truthy (Py.strip line).

(** The number the pattern [(\d+)kw] contributes for a line: what it
    captures on an indented line, nothing otherwise. *)
Definition captured (kw line : string) : Z :=
  if Py.startswith " " line then
    match Py.search kw line with
    | Some g => Py.int_of_digits g
    | None => 0
    end
  else 0.

(** What the parsing loop keeps true of its state once it has read a
    line: the current author is the empty name or has a commit, and so
    has every key of [lines_added] and [lines_deleted]; the empty name
    has no commit. *)
Definition known (gc : Py.dict string Z) (k : option string) : Prop :=
  exists a, k = Some a /\ (a = EmptyString \/ a ∈ Py.keys gc).

Definition credited (st : commit_summary * option string) : Prop :=
  known (git_commits (fst st)) (snd st)
  /\ (forall k, k ∈ Py.keys (lines_added (fst st)) -> known (git_commits (fst st)) k)
  /\ (forall k, k ∈ Py.keys (lines_deleted (fst st)) -> known (git_commits (fst st)) k)
  /\ (EmptyString ∉ Py.keys (git_commits (fst st))).

(** The commands the checkout block may have issued when it is left:
    none, the status, the status and the search of the revision, or
    these two and the checkout of the revision that the search
    printed. *)
Definition checkout_prefix (w : World) (st : State) (date : string)
  (pre : list (list string)) : Prop :=
  pre = []
  \/ pre = [status_argv]
  \/ pre = [status_argv; rev_list_argv date]
  \/ exists out err,
       respond w (trace st ++ [status_argv]) (rev_list_argv date) = Exits 0 out err
       /\ pre = [status_argv; rev_list_argv date; checkout_argv (Py.strip out)].

(** The commands after the blames: none, or the way back. *)
Definition way_back (post : list (list string)) : Prop :=
  post = [] \/ post = [checkout_argv "-"].

(** A clock the calendar knows: a four-digit year, a month and a day of
    that month. *)
Definition valid_clock (t : N * N * N) : bool :=
  let '(y, m, d) := t in
  ((1000 <=? y) && (y <=? 9999) && (1 <=? m) && (m <=? 12) && (1 <=? d))%N
  && (Z.of_N d <=? Datetime.days_in_month (Z.of_N y) (Z.of_N m)).

(** The date of a clock as [strptime] returns it. *)
Definition clock_date (t : N * N * N) : Z * Z * Z :=
  let '(y, m, d) := t in (Z.of_N y, Z.of_N m, Z.of_N d).

(** The version label of an analysis on the date [ymd]. *)
Definition code_version_on (ymd : Z * Z * Z) : string :=
  if Datetime.before ymd (2021, 11, 25) then "MATLAB" else "Julia".

(** Worlds given by a table of answers. *)
Module Cases.

(** On 4 November 2026, the command lines of [table] get the answer
    listed for them, whatever was run before; every other command
    succeeds and prints nothing; there are no files. *)
Definition world (table : list (list string * Answer)) : World :=
  {| today := Scenario.clock;
     respond := fun _ argv =>
       match Py.get argv table with
       | Some a => a
       | None => Exits 0 EmptyString EmptyString
       end;
     os_walk := fun _ _ => [] |}.

Definition status_fails : World :=
  world [(status_argv, Exits 128 EmptyString "fatal: not a git repository")].

Definition rev_list_fails : World :=
  world [(rev_list_argv "2022-12-31", Exits 128 EmptyString "fatal: bad revision 'HEAD'")].

Definition checkout_fails : World :=
  world [(rev_list_argv "2022-12-31", Exits 0 "abc123" EmptyString);
         (checkout_argv "abc123",
          Exits 1 EmptyString "error: The following untracked working tree files would be overwritten by checkout")].

(** An end year of five digits: the revision is found and checked out,
    and the date is not one [strptime] reads. *)
Definition five_digit_year : World :=
  world [(rev_list_argv "12345-12-31", Exits 0 "abc123" EmptyString)].

End Cases.

(** The year of the clock. *)
Definition clock_year (w : World) : N := let '(y, _, _) := today w in y.

(** [sep in s] *)
Fixpoint contains (sep s : string) : bool :=
  String.prefix sep s
  || match s with
     | EmptyString => false
     | String _ s' => contains sep s'
     end.

(** The name the blame loop reads on a line:
    [line.split('author ')[1].strip()]. *)
Definition author_of (line : string) : string :=
  Py.strip (nth 1 (Py.split "author " line) EmptyString).

(** The line is an author line of the blame output and names [a]. *)
Definition blamed (a line : string) : bool :=
  Py.startswith "author " line && String.eqb (author_of line) a.

(** The number of lines of the blame output [out] that name [a]. *)
Definition blamed_lines (a out : string) : Z :=
  Z.of_nat (length (filter (fun l => blamed a l = true)
                           (Py.split_char "010" (Py.strip out)))).

(** What the blame of one file adds to the count of [a]: the lines that
    name [a] when the command succeeded, nothing otherwise. *)
Definition blame_share (a : string) (answer : Answer) : Z :=
  match answer with
  | Exits code out _ => if code =? 0 then blamed_lines a out else 0
  | Fails _ => 0
  end.

(** [sum(f(x) for x in l)] *)
Definition sum_over {A} (f : A -> Z) (l : list A) : Z := foldr Z.add 0 (map f l).

(** The canonical name of an alias: the key of [user_aliases] whose list
    holds it. *)
Definition canonical (alias : string) : option string :=
  fst <$> List.find (fun '(_, aliases) => bool_decide (alias ∈ aliases)) user_aliases.

(** The canonical name of [alias] is a key of [metric_data]. *)
Definition adopted (metric_data : Py.dict string Z) (alias : string) : bool :=
  match canonical alias with
  | Some c => Py.mem c metric_data
  | None => false
  end.

(** An alias whose canonical name is not a key of [metric_data]. *)
Definition orphan (metric_data : Py.dict string Z) (k : string) : bool :=
  bool_decide (k ∈ alias_values) && negb (adopted metric_data k).

(** The counts that [metric_data] holds under orphans. *)
Definition lost (metric_data : Py.dict string Z) : Z :=
  sum_over (fun '(k, v) => if orphan metric_data k then v else 0) metric_data.

(** A channel of a colour that a chart accepts: between 0 and 1. *)
Definition unit_channel (q : Q) : Prop := (0 <= q)%Q /\ (q <= 1)%Q.

(** [random.randint(lo, hi)] keeps within its bounds. *)
Definition randint_in_range (L : PyLib) : Prop :=
  forall (lo hi : Z) (g : rng L),
    lo <= hi -> lo <= fst (random_randint L lo hi g) <= hi.

(** What a pattern in the plural captures of a count. *)
Definition plural_only (n : option N) : option string :=
  match n with
  | Some k => if (k =? 1)%N then None else Some (Py.str_of_N k)
  | None => None
  end.
(** * Properties *)

(** ** Running commands *)

Lemma git_effect_blame (p : string) (r : GitRefs) : git_effect (blame_argv p) r = r.
Proof. reflexivity. Qed.

Lemma git_effect_status (r : GitRefs) : git_effect status_argv r = r.
Proof. reflexivity. Qed.

Lemma git_effect_rev_list (d : string) (r : GitRefs) :
  git_effect (rev_list_argv d) r = r.
Proof. reflexivity. Qed.

Lemma git_effect_log (a b : string) (r : GitRefs) :
  git_effect (git_log_argv a b) r = r.
Proof. reflexivity. Qed.

(** Whatever git answers, blaming one file returns the tally (never
    raises), issues exactly the blame command and leaves the working-tree
    reference alone. *)
Lemma blame_file_runs (p : string) (counts : Py.dict string Z) (w : World) (st : State) :
  exists counts' lines,
    blame_file p counts w st =
    (Ok counts',
     {| refs := refs st;
        trace := trace st ++ [blame_argv p];
        printed := printed st ++ lines |}).
Proof.
  unfold blame_file, try_except, bind, run.
  destruct (respond w (trace st) (blame_argv p)) as [code out err | msg].
  - destruct (code =? 0) eqn:Hc; simpl; rewrite Hc; simpl.
    + exists (count_blame out counts), []. rewrite app_nil_r. reflexivity.
    + exists counts, []. rewrite app_nil_r. reflexivity.
  - simpl. eexists counts, [_]. reflexivity.
Qed.

(** The loop over the files of one directory: every relevant file is
    blamed, in order, whatever happened to the files before it. *)
Lemma blame_files_runs (root : string) (files : list string)
  (counts : Py.dict string Z) (w : World) (st : State) :
  exists counts' lines,
    blame_files root files counts w st =
    (Ok counts',
     {| refs := refs st;
        trace := trace st ++ map (fun f => blame_argv (path_join root f))
                                 (filter (fun f => relevant f = true) files);
        printed := printed st ++ lines |}).
Proof.
  revert counts st. induction files as [|f files IH]; intros counts st.
  - exists counts, []. destruct st. simpl. rewrite !app_nil_r. reflexivity.
  - unfold blame_files in *. simpl foldM. unfold bind at 1.
    rewrite filter_cons. destruct (relevant f) eqn:Hf.
    + destruct (blame_file_runs (path_join root f) counts w st) as (c1 & l1 & ->).
      destruct (IH c1 {| refs := refs st;
                         trace := trace st ++ [blame_argv (path_join root f)];
                         printed := printed st ++ l1 |}) as (c2 & l2 & ->).
      exists c2, (l1 ++ l2). simpl. rewrite <- !app_assoc. reflexivity.
    + unfold ret at 1. simpl. apply IH.
Qed.

Lemma only_blames_refl (st : State) : only_blames st st.
Proof. split; [reflexivity|]. exists [], []. rewrite !app_nil_r. auto. Qed.

Lemma only_blames_trans (a b c : State) :
  only_blames a b -> only_blames b c -> only_blames a c.
Proof.
  intros [Hr1 (p1 & l1 & Ht1 & Hp1)] [Hr2 (p2 & l2 & Ht2 & Hp2)].
  split; [congruence|]. exists (p1 ++ p2), (l1 ++ l2).
  rewrite Ht2, Ht1, Hp2, Hp1, map_app, <- !app_assoc. auto.
Qed.

Lemma blame_directory_runs (directory : string) (counts : Py.dict string Z)
  (w : World) (st : State) :
  exists counts' st',
    blame_directory directory counts w st = (Ok counts', st') /\ only_blames st st'.
Proof.
  unfold blame_directory, bind, walk.
  generalize (os_walk w (trace st) directory) as entries.
  intros entries. revert counts st.
  induction entries as [|[root files] entries IH]; intros counts st.
  - exists counts, st. split; [reflexivity | apply only_blames_refl].
  - simpl foldM. unfold bind at 1.
    destruct (blame_files_runs root files counts w st) as (c1 & l1 & ->).
    match goal with |- context [foldM _ entries c1 w ?s] =>
      destruct (IH c1 s) as (c2 & st2 & -> & H2) end.
    exists c2, st2. split; [reflexivity|].
    eapply only_blames_trans; [|exact H2].
    split; [reflexivity|].
    exists (map (path_join root) (filter (fun f => relevant f = true) files)), l1.
    simpl. rewrite map_map. split; reflexivity.
Qed.

Lemma blame_directories_run (dirs : list string) (counts : Py.dict string Z)
  (w : World) (st : State) :
  exists counts' st',
    foldM (fun counts directory => blame_directory directory counts) dirs counts w st
    = (Ok counts', st') /\ only_blames st st'.
Proof.
  revert counts st. induction dirs as [|d dirs IH]; intros counts st.
  - exists counts, st. split; [reflexivity | apply only_blames_refl].
  - simpl foldM. unfold bind at 1.
    destruct (blame_directory_runs d counts w st) as (c1 & st1 & -> & H1).
    destruct (IH c1 st1) as (c2 & st2 & -> & H2).
    exists c2, st2. split; [reflexivity|]. eapply only_blames_trans; eauto.
Qed.

Ltac step_commands :=
  repeat match goal with
         | |- context [match respond ?w ?t ?a with _ => _ end] =>
             destruct (respond w t a); simpl
         | |- context [if ?b then _ else _] => destruct b eqn:?; simpl
         end.

(** The checkout block begins by asking for the status of the tree. *)
Lemma checkout_before_asks_status (date : string) (w : World) (st : State) :
  exists rest,
    trace (snd (checkout_before date w st)) = trace st ++ status_argv :: rest.
Proof.
  unfold checkout_before, try_except, bind, run, print, raise, ret; simpl.
  step_commands;
    repeat (rewrite <- app_assoc; simpl); eexists; reflexivity.
Qed.

Lemma blame_analysis_extends (check_out : bool) (date : string) (w : World) (st : State) :
  exists rest, trace (snd (blame_analysis check_out date w st)) = trace st ++ rest.
Proof.
  unfold blame_analysis.
  destruct (Datetime.strptime date_julia_begin) as [jb|];
    [|exists []; simpl; now rewrite app_nil_r].
  destruct (Datetime.strptime date) as [dc|];
    [|exists []; simpl; now rewrite app_nil_r].
  destruct (Datetime.before dc jb);
    unfold bind at 1; unfold print at 1; unfold bind at 1;
    match goal with |- context [foldM ?f ?dirs ?c w ?s] =>
      destruct (blame_directories_run dirs c w s) as (c1 & st1 & -> & _ & ps & ls & Ht & _)
    end;
    simpl in Ht; destruct check_out; unfold bind, run, ret; simpl;
    step_commands; rewrite ?Ht, <- ?app_assoc; eexists; reflexivity.
Qed.

(** Without the flag the analysis only blames files. *)
Lemma blame_analysis_in_place (date : string) (w : World) (st : State) :
  only_blames st (snd (blame_analysis false date w st)).
Proof.
  unfold blame_analysis.
  destruct (Datetime.strptime date_julia_begin) as [jb|];
    [|apply only_blames_refl].
  destruct (Datetime.strptime date) as [dc|];
    [|apply only_blames_refl].
  destruct (Datetime.before dc jb);
    unfold bind at 1; unfold print at 1; unfold bind at 1;
    match goal with |- context [foldM ?f ?dirs ?c w ?s] =>
      destruct (blame_directories_run dirs c w s) as (c1 & st1 & -> & Hr & ps & ls & Ht & Hp)
    end;
    simpl in *; (split; [exact Hr|]); exists ps; eexists;
    (split; [exact Ht|]); rewrite Hp, <- app_assoc; reflexivity.
Qed.

(** ** Strings *)

Lemma all_chars_app (p : ascii -> bool) (s1 s2 : string) :
  Py.all_chars p (s1 +:+ s2) = Py.all_chars p s1 && Py.all_chars p s2.
Proof.
  induction s1 as [|c s1 IH]; simpl; [reflexivity|].
  rewrite IH. apply andb_assoc.
Qed.

Lemma all_chars_impl (p q : ascii -> bool) (s : string) :
  (forall c, p c = true -> q c = true) ->
  Py.all_chars p s = true -> Py.all_chars q s = true.
Proof.
  intros Hpq. induction s as [|c s IH]; simpl; [reflexivity|].
  intros [Hc Hs]%andb_prop. rewrite (Hpq c Hc), (IH Hs). reflexivity.
Qed.

Lemma digits_string_of_uint (u : Decimal.uint) :
  Py.all_chars Py.isdigit (NilEmpty.string_of_uint u) = true.
Proof. induction u; simpl; auto. Qed.

Lemma digits_str_of_N (n : N) : Py.all_chars Py.isdigit (Py.str_of_N n) = true.
Proof. apply digits_string_of_uint. Qed.

Lemma isdigit_not (c d : ascii) :
  Py.isdigit d = false -> Py.isdigit c = true -> negb (Ascii.eqb c d) = true.
Proof.
  intros Hd Hc. destruct (Ascii.eqb_spec c d) as [->|]; [congruence | reflexivity].
Qed.

(** Splitting cuts at the first separator. *)
Lemma split_char_first (c : ascii) (s1 s2 : string) :
  Py.all_chars (fun a => negb (Ascii.eqb a c)) s1 = true ->
  Py.split_char c (s1 +:+ String c s2) = s1 :: Py.split_char c s2.
Proof.
  induction s1 as [|a s1 IH]; simpl.
  - intros _. rewrite Ascii.eqb_refl. reflexivity.
  - intros [Ha Hs]%andb_prop. rewrite (IH Hs).
    destruct (Ascii.eqb a c); [discriminate | reflexivity].
Qed.

(** Today's date never asks for a checkout. *)
Lemma today_needs_no_checkout (w : World) :
  check_out_needed (strftime_Y w) (strftime_Ymd w) = false.
Proof.
  unfold check_out_needed, strftime_Y, strftime_Ymd.
  destruct (today w) as [[y m] d].
  change (Py.str_of_N y +:+ "-" +:+ Datetime.pad2 m +:+ "-" +:+ Datetime.pad2 d)
    with (Py.str_of_N y +:+ String "-" (Datetime.pad2 m +:+ "-" +:+ Datetime.pad2 d)).
  rewrite split_char_first.
  - simpl. rewrite String.eqb_refl. reflexivity.
  - eapply all_chars_impl; [|apply digits_str_of_N].
    intros c. now apply isdigit_not.
Qed.

(** ** Claims about [get_code_lines_contributed] and the log command *)

(** C2.  When [date_to_check] asks for a checkout (its year is not the
    current one) and [git status --porcelain] reports changes, the
    function raises [RuntimeError]; the status command is the only
    command it has issued, so no checkout took place, and the
    working-tree reference is untouched. *)
Theorem uncommitted_changes_abort (w : World) (st : State) (date out err : string) :
  check_out_needed (strftime_Y w) date = true ->
  respond w (trace st) status_argv = Exits 0 out err ->
  Py.truthy (Py.strip out) = true ->
  get_code_lines_contributed (Some date) w st =
  (Raised (RuntimeError uncommitted_changes_msg),
   {| refs := refs st;
      trace := trace st ++ [status_argv];
      printed := printed st |}).
Proof.
  intros Hflag Hstatus Hdirty.
  unfold get_code_lines_contributed, bind, now_Y, ret. rewrite Hflag.
  unfold checkout_before, try_except, bind, run. rewrite Hstatus. simpl.
  rewrite Hdirty. reflexivity.
Qed.

Lemma uncommitted_changes_abort_witness :
  get_code_lines_contributed (Some "2022-12-31") Scenario.dirty Scenario.on_main =
  (Raised (RuntimeError uncommitted_changes_msg),
   {| refs := refs Scenario.on_main;
      trace := trace Scenario.on_main ++ [status_argv];
      printed := printed Scenario.on_main |}).
Proof.
  apply (uncommitted_changes_abort Scenario.dirty Scenario.on_main "2022-12-31"
           " M src/a.jl" EmptyString); reflexivity.
Defined.

(** C3, as the code has it.  The checkout block is entered exactly when
    the text of [date_to_check] before its first dash differs from the
    current year: then the first command issued asks for the status of
    the tree; otherwise the function only blames files and leaves the
    working-tree reference alone.  Today's date is of the second kind. *)
Theorem checkout_follows_year (w : World) (st : State) (d : option string) :
  let date := default (strftime_Ymd w) d in
  let st' := snd (get_code_lines_contributed d w st) in
  (check_out_needed (strftime_Y w) date = true ->
   exists rest, trace st' = trace st ++ status_argv :: rest)
  /\ (check_out_needed (strftime_Y w) date = false -> only_blames st st')
  /\ check_out_needed (strftime_Y w) (strftime_Ymd w) = false.
Proof.
  intros date st'. split; [|split].
  - intros Hflag. subst st'.
    unfold get_code_lines_contributed, bind at 1, now_Y.
    assert (Hd : (match d with Some d0 => ret d0 | None => now_Ymd end) w st
                 = (Ok date, st)) by (subst date; destruct d; reflexivity).
    unfold bind at 1. rewrite Hd, Hflag. unfold bind at 1.
    destruct (checkout_before_asks_status date w st) as [rest1 H1].
    destruct (checkout_before date w st) as [[[]|e] st1]; simpl in H1.
    + destruct (blame_analysis_extends true date w st1) as [rest2 H2].
      rewrite H2, H1, <- app_assoc. simpl. eauto.
    + simpl. eauto.
  - intros Hflag. subst st'.
    unfold get_code_lines_contributed, bind at 1, now_Y.
    assert (Hd : (match d with Some d0 => ret d0 | None => now_Ymd end) w st
                 = (Ok date, st)) by (subst date; destruct d; reflexivity).
    unfold bind at 1. rewrite Hd, Hflag. unfold bind at 1, ret at 1.
    apply blame_analysis_in_place.
  - apply today_needs_no_checkout.
Qed.

Lemma checkout_follows_year_witness :
  (exists rest,
      trace (snd (get_code_lines_contributed (Some "2022-12-31")
                    Scenario.quiet Scenario.on_main))
      = trace Scenario.on_main ++ status_argv :: rest)
  /\ only_blames Scenario.on_main
       (snd (get_code_lines_contributed (Some "2026-01-01")
               Scenario.quiet Scenario.on_main)).
Proof.
  split.
  - apply (proj1 (checkout_follows_year Scenario.quiet Scenario.on_main
                    (Some "2022-12-31"))).
    reflexivity.
  - apply (proj1 (proj2 (checkout_follows_year Scenario.quiet Scenario.on_main
                           (Some "2026-01-01")))).
    reflexivity.
Defined.

(** C3 as stated fails: on 4 November 2026 the date 2026-01-01 is not the
    current date, yet the function issues no command at all, neither the
    status check nor a checkout. *)
Lemma checkout_by_date_counterexample :
  strftime_Ymd Scenario.quiet <> "2026-01-01"
  /\ trace (snd (get_code_lines_contributed (Some "2026-01-01")
                   Scenario.quiet Scenario.on_main)) = [].
Proof. split; [discriminate | reflexivity]. Qed.

(** C8.  When the log command exits with a non-zero status,
    [get_git_user_commit_summary] raises; nothing else has been run. *)
Theorem git_log_failure_aborts (w : World) (st : State) (start_year : Z)
  (end_year : option Z) (end_year' : pyval) (start_date end_date : string)
  (code : Z) (out err : string) :
  date_range (strftime_Y w) (strftime_Ymd w) start_year end_year
  = (end_year', start_date, end_date) ->
  respond w (trace st) (git_log_argv start_date end_date) = Exits code out err ->
  code <> 0 ->
  get_git_user_commit_summary start_year end_year w st =
  (Raised (Exception "Error running git log command."),
   {| refs := refs st;
      trace := trace st ++ [git_log_argv start_date end_date];
      printed := printed st |}).
Proof.
  intros Hrange Hlog Hcode.
  unfold get_git_user_commit_summary, bind, now_Y, now_Ymd.
  rewrite Hrange. unfold run. rewrite Hlog.
  apply Z.eqb_neq in Hcode. rewrite Hcode. simpl. rewrite Hcode. reflexivity.
Qed.

Lemma git_log_failure_aborts_witness :
  get_git_user_commit_summary 2014 (Some 2021) Scenario.log_fails Scenario.on_main =
  (Raised (Exception "Error running git log command."),
   {| refs := refs Scenario.on_main;
      trace := trace Scenario.on_main ++ [git_log_argv "2014-01-01" "2021-11-24"];
      printed := printed Scenario.on_main |}).
Proof.
  apply (git_log_failure_aborts Scenario.log_fails Scenario.on_main 2014 (Some 2021)
           (PInt 2021) "2014-01-01" "2021-11-24" 128 EmptyString
           "fatal: not a git repository");
    [reflexivity | reflexivity | lia].
Defined.

(** ** Blame failures *)

Lemma foldM_app {A B} (f : B -> A -> M B) (l1 l2 : list A) (b : B)
  (w : World) (st : State) :
  foldM f (l1 ++ l2) b w st =
  match foldM f l1 b w st with
  | (Ok b1, st1) => foldM f l2 b1 w st1
  | (Raised e, st1) => (Raised e, st1)
  end.
Proof.
  revert b st. induction l1 as [|x l1 IH]; intros b st; simpl; [reflexivity|].
  unfold bind. destruct (f b x w st) as [[b1|e] st1]; [apply IH | reflexivity].
Qed.

(** A failed blame changes nothing but the list of commands issued and,
    for an exception, the lines printed. *)
Lemma blame_file_failed (p : string) (counts : Py.dict string Z) (w : World)
  (st : State) :
  blame_failed (respond w (trace st) (blame_argv p)) ->
  blame_file p counts w st =
  (Ok counts,
   {| refs := refs st;
      trace := trace st ++ [blame_argv p];
      printed := printed st ++ failure_log p (respond w (trace st) (blame_argv p)) |}).
Proof.
  unfold blame_file, try_except, bind, run.
  destruct (respond w (trace st) (blame_argv p)) as [code out err | msg]; simpl.
  - intros Hcode%Z.eqb_neq. rewrite Hcode. simpl. rewrite Hcode. simpl.
    rewrite app_nil_r. reflexivity.
  - intros _. reflexivity.
Qed.

(** C9, as the code has it.  When the blame of a file fails, the file
    adds nothing to the tally and the loop goes on with the files after
    it, from the tally of the files before it; the loop as a whole
    returns.  The failure is printed when the call raised an exception;
    a non-zero exit status is passed over without a line. *)
Theorem blame_failure_skipped (w : World) (st st1 : State) (root file : string)
  (files1 files2 : list string) (counts c1 : Py.dict string Z) :
  relevant file = true ->
  blame_files root files1 counts w st = (Ok c1, st1) ->
  blame_failed (respond w (trace st1) (blame_argv (path_join root file))) ->
  blame_files root (files1 ++ file :: files2) counts w st
  = blame_files root files2 c1 w
      {| refs := refs st1;
         trace := trace st1 ++ [blame_argv (path_join root file)];
         printed := printed st1 ++
                    failure_log (path_join root file)
                      (respond w (trace st1) (blame_argv (path_join root file))) |}
  /\ exists c' st',
       blame_files root (files1 ++ file :: files2) counts w st = (Ok c', st').
Proof.
  intros Hrel H1 Hfail. split.
  - unfold blame_files in *. rewrite foldM_app, H1. simpl foldM.
    unfold bind at 1. rewrite Hrel.
    rewrite (blame_file_failed _ c1 w st1 Hfail). reflexivity.
  - destruct (blame_files_runs root (files1 ++ file :: files2) counts w st)
      as (c' & lines & ->). eauto.
Qed.

Lemma blame_failure_skipped_witness :
  blame_files "src/" ([] ++ "a.jl" :: ["b.jl"; "README.md"]) []
    (Scenario.two_files 128) Scenario.on_main
  = blame_files "src/" ["b.jl"; "README.md"] [] (Scenario.two_files 128)
      {| refs := refs Scenario.on_main;
         trace := trace Scenario.on_main ++ [blame_argv (path_join "src/" "a.jl")];
         printed := printed Scenario.on_main ++
                    failure_log (path_join "src/" "a.jl")
                      (respond (Scenario.two_files 128) (trace Scenario.on_main)
                         (blame_argv (path_join "src/" "a.jl"))) |}
  /\ exists c' st',
       blame_files "src/" ([] ++ "a.jl" :: ["b.jl"; "README.md"]) []
         (Scenario.two_files 128) Scenario.on_main = (Ok c', st').
Proof.
  apply (blame_failure_skipped (Scenario.two_files 128) Scenario.on_main
           Scenario.on_main "src/" "a.jl" [] ["b.jl"; "README.md"] [] []).
  - reflexivity.
  - reflexivity.
  - simpl. lia.
Defined.

(** C9 as stated fails: the blame of [src/a.jl] exits with status 128,
    and the only line printed by the whole run is the announcement of
    the directories; the failure is not logged.  The second file is
    still tallied. *)
Lemma blame_failure_logged_counterexample :
  blame_failed (respond (Scenario.two_files 128) [] (blame_argv "src/a.jl"))
  /\ get_code_lines_contributed None (Scenario.two_files 128) Scenario.on_main
     = (Ok ("Julia@2026-11-04", [("Ann", 2); ("Bob", 1)]),
        {| refs := refs Scenario.on_main;
           trace := [blame_argv "src/a.jl"; blame_argv "src/b.jl"];
           printed := ["checking: ('src/', 'lib/', 'docs/') on 2026-11-04"] |}).
Proof. split; [simpl; lia | reflexivity]. Qed.

(** The other kind of failure is logged: when the call raises, the run
    prints the line and goes on. *)
Example blame_exception_logged :
  get_code_lines_contributed None Scenario.undecodable Scenario.on_main
  = (Ok ("Julia@2026-11-04", [("Ann", 2); ("Bob", 1)]),
     {| refs := refs Scenario.on_main;
        trace := [blame_argv "src/a.jl"; blame_argv "src/b.jl"];
        printed := ["checking: ('src/', 'lib/', 'docs/') on 2026-11-04";
                    "Error processing file src/a.jl: 'utf-8' codec can't decode byte"] |}).
Proof. reflexivity. Qed.

(** With a date that parses and no checkout to make, the analysis
    returns its tally whatever the blames of the single files do. *)
Lemma blame_analysis_returns (date : string) (ymd : Z * Z * Z) (w : World) (st : State) :
  Datetime.strptime date = Some ymd ->
  exists r st', blame_analysis false date w st = (Ok r, st').
Proof.
  intros Hdate. unfold blame_analysis. rewrite Hdate.
  destruct (Datetime.strptime date_julia_begin) as [jb|] eqn:Hjb;
    [|vm_compute in Hjb; discriminate Hjb].
  destruct (Datetime.before ymd jb);
    unfold bind at 1; unfold print at 1; unfold bind at 1;
    match goal with |- context [foldM ?f ?dirs ?c w ?s] =>
      destruct (blame_directories_run dirs c w s) as (c1 & st1 & -> & _)
    end; unfold bind, ret; eauto.
Qed.

(** ** The way back after a checkout *)

(** When the checkout of the commit found took place, [git checkout -]
    after the analysis brings the working tree back to where it was,
    whatever the blames did in between. *)
Lemma checkout_restored (w : World) (st : State) (date h : string)
  (ymd : Z * Z * Z) (out_s err_s out_r err_r out_c err_c : string) :
  check_out_needed (strftime_Y w) date = true ->
  Datetime.strptime date = Some ymd ->
  respond w (trace st) status_argv = Exits 0 out_s err_s ->
  Py.truthy (Py.strip out_s) = false ->
  respond w (trace st ++ [status_argv]) (rev_list_argv date) = Exits 0 out_r err_r ->
  Py.strip out_r = h ->
  Py.truthy h = true ->
  h <> "-" ->
  respond w ((trace st ++ [status_argv]) ++ [rev_list_argv date]) (checkout_argv h)
  = Exits 0 out_c err_c ->
  (forall hist, exists out err, respond w hist (checkout_argv "-") = Exits 0 out err) ->
  exists r st',
    get_code_lines_contributed (Some date) w st = (Ok r, st')
    /\ HEAD (refs st') = HEAD (refs st).
Proof.
  intros Hflag Hdate Hs Hclean Hr Hh Hfound Hdash Hc Hback.
  unfold get_code_lines_contributed, bind at 1, now_Y.
  unfold bind at 1, ret at 1. rewrite Hflag. unfold bind at 1.
  assert (Hco : checkout_before date w st =
                (Ok tt,
                 {| refs := {| HEAD := h; previous := Some (HEAD (refs st)) |};
                    trace := ((trace st ++ [status_argv]) ++ [rev_list_argv date])
                             ++ [checkout_argv h];
                    printed := (printed st ++ ["Commit found: " +:+ h])
                               ++ ["Checked out commit: " +:+ h] |})).
  { unfold checkout_before, try_except, bind, run. rewrite Hs. simpl.
    rewrite Hclean. simpl. rewrite Hr. simpl. rewrite Hh, Hfound. simpl.
    rewrite Hc. simpl. apply String.eqb_neq in Hdash. rewrite Hdash. reflexivity. }
  rewrite Hco. unfold blame_analysis. rewrite Hdate.
  destruct (Datetime.strptime date_julia_begin) as [jb|] eqn:Hjb;
    [|vm_compute in Hjb; discriminate Hjb].
  destruct (Datetime.before ymd jb);
    unfold bind at 1; unfold print at 1; unfold bind at 1;
    match goal with |- context [foldM ?f ?dirs ?c w ?s] =>
      destruct (blame_directories_run dirs c w s) as (c1 & st1 & -> & Href & _)
    end;
    simpl in Href; unfold bind, run, ret;
    destruct (Hback (trace st1)) as (out & err & ->); simpl;
    rewrite Href; simpl; eauto.
Qed.

Lemma checkout_restored_example :
  exists r st',
    get_code_lines_contributed (Some "2022-12-31") (Scenario.two_files 128)
      Scenario.on_main = (Ok r, st')
    /\ HEAD (refs st') = HEAD (refs Scenario.on_main).
Proof.
  apply (checkout_restored (Scenario.two_files 128) Scenario.on_main "2022-12-31"
           "abc123" (2022, 12, 31) EmptyString EmptyString "abc123" EmptyString
           EmptyString EmptyString); try reflexivity.
  - discriminate.
  - intros hist. exists EmptyString, EmptyString. reflexivity.
Defined.

(** C4 at the input where it fails.  The date asks for a checkout, the
    tree is clean, and [git rev-list] finds no commit before the date, so
    nothing is checked out; the analysis runs on the tree as it is, and
    [git checkout -] then moves the working tree from [main] to the
    previous reference [dev]. *)
Theorem checkout_back_without_checkout :
  check_out_needed (strftime_Y Scenario.quiet) "2010-12-31" = true
  /\ get_code_lines_contributed (Some "2010-12-31") Scenario.quiet Scenario.on_main
     = (Ok ("MATLAB@2010-12-31", []),
        {| refs := {| HEAD := "dev"; previous := Some "main" |};
           trace := [status_argv; rev_list_argv "2010-12-31"; checkout_argv "-"];
           printed :=
             ["No commit found before the specified date.";
              "checking: ('documentation', 'tools', 'model', 'optimization') on 2010-12-31"] |})
  /\ HEAD (refs Scenario.on_main) = "main".
Proof. repeat split. Qed.

(** ** Dictionaries *)

Section DictFacts.
Context {K V : Type} `{EqDecision K}.
Implicit Types (d : Py.dict K V) (k : K) (v : V).

Lemma get_set k k' v d :
  Py.get k' (Py.set k v d) = if decide (k = k') then Some v else Py.get k' d.
Proof.
  induction d as [|[k0 v0] d IH]; simpl.
  - destruct (decide (k = k')); reflexivity.
  - destruct (decide (k0 = k)) as [->|Hne]; simpl.
    + destruct (decide (k = k')); reflexivity.
    + rewrite IH. destruct (decide (k0 = k')) as [->|]; [|reflexivity].
      rewrite decide_False by congruence. reflexivity.
Qed.

Lemma get_None_keys k d : Py.get k d = None <-> k ∉ Py.keys d.
Proof.
  unfold Py.keys. induction d as [|[k0 v0] d IH]; simpl.
  - split; [intros _; apply not_elem_of_nil | reflexivity].
  - rewrite not_elem_of_cons. destruct (decide (k0 = k)) as [->|Hne].
    + split; [discriminate | intros [? _]; congruence].
    + rewrite IH. split; [intros ?; split; congruence | intros [_ ?]; assumption].
Qed.

Lemma get_Some_keys k v d : Py.get k d = Some v -> k ∈ Py.keys d.
Proof.
  intros Hget. destruct (decide (k ∈ Py.keys d)) as [|Hn]; [assumption|].
  apply get_None_keys in Hn. congruence.
Qed.

Lemma keys_set k k' v d : k' ∈ Py.keys (Py.set k v d) <-> k' = k \/ k' ∈ Py.keys d.
Proof.
  unfold Py.keys. induction d as [|[k0 v0] d IH]; simpl.
  - rewrite list_elem_of_singleton. split; [auto | intros [?|[]%elem_of_nil]; auto].
  - destruct (decide (k0 = k)) as [->|Hne]; simpl.
    + rewrite !elem_of_cons. tauto.
    + rewrite !elem_of_cons, IH. tauto.
Qed.

Lemma NoDup_keys_set k v d : NoDup (Py.keys d) -> NoDup (Py.keys (Py.set k v d)).
Proof.
  unfold Py.keys. induction d as [|[k0 v0] d IH]; simpl.
  - intros _. apply NoDup_singleton.
  - intros [Hk0 Hd]%NoDup_cons. destruct (decide (k0 = k)) as [->|Hne]; simpl.
    + apply NoDup_cons. auto.
    + apply NoDup_cons. split; [|auto].
      intros Hin. apply (keys_set k k0 v d) in Hin. destruct Hin; [congruence | contradiction].
Qed.
End DictFacts.

(** ** The parser never files a count under [None] *)

Lemma lstrip_head (s r : string) (c : ascii) :
  Py.lstrip s = String c r -> Py.isspace c = false.
Proof.
  induction s as [|a s IH]; simpl; [discriminate|].
  destruct (Py.isspace a) eqn:Ha; [exact IH|].
  intros [= <- <-]. exact Ha.
Qed.

Lemma split_char_head (c : ascii) (s : string) :
  exists first rest,
    Py.split_char c s = first :: rest
    /\ (forall a r, first = String a r -> exists r', s = String a r').
Proof.
  destruct s as [|a s]; simpl.
  - exists EmptyString, []. split; [reflexivity | discriminate].
  - destruct (Ascii.eqb a c).
    + eexists _, _. split; [reflexivity | discriminate].
    + destruct (Py.split_char c s) as [|h t]; eexists _, _;
        (split; [reflexivity | intros a' r' [= <- <-]; eauto]).
Qed.

Lemma startswith_other (c a : ascii) (p s : string) :
  c <> a -> Py.startswith (String c p) (String a s) = false.
Proof.
  intros Hne. unfold Py.startswith.
  change (String.prefix (String c p) (String a s))
    with (if ascii_dec c a then String.prefix p s else false).
  destruct (ascii_dec c a); [contradiction | reflexivity].
Qed.

Lemma startswith_same (c : ascii) (p s : string) :
  Py.startswith (String c p) (String c s) = Py.startswith p s.
Proof.
  unfold Py.startswith.
  change (String.prefix (String c p) (String c s))
    with (if ascii_dec c c then String.prefix p s else false).
  destruct (ascii_dec c c); [reflexivity | contradiction].
Qed.

(** The first line the loop reads does not start with a space: the
    output was stripped. *)
Lemma first_line_not_indented (out : string) :
  exists first rest,
    log_lines out = first :: rest /\ Py.startswith " " first = false.
Proof.
  unfold log_lines.
  destruct (split_char_head "010" (Py.strip out)) as (first & rest & Hsplit & Hhead).
  exists first, rest. split; [exact Hsplit|].
  destruct first as [|a r]; [reflexivity|].
  destruct (Hhead a r eq_refl) as [r' Hs].
  apply lstrip_head in Hs. apply startswith_other.
  intros <-. discriminate Hs.
Qed.

Lemma parse_line_authored (st : commit_summary * option string) (line : string) :
  authored st -> authored (parse_line st line).
Proof.
  destruct st as [cs cur]. intros (Hcur & Ha & Hd). simpl in *.
  unfold parse_line. destruct (negb (Py.startswith " " line)).
  - destruct (Py.truthy (Py.strip line)); repeat split; simpl; auto; discriminate.
  - destruct (Py.search " insertions" line), (Py.search " deletions" line);
      repeat split; simpl; auto;
      rewrite keys_set; intros [Heq | Hin]; auto.
Qed.

Lemma fold_authored (lines : list string) (st : commit_summary * option string) :
  authored st -> authored (fold_left parse_line lines st).
Proof.
  revert st. induction lines as [|l lines IH]; intros st Hst; simpl; [exact Hst|].
  apply IH, parse_line_authored, Hst.
Qed.

(** C10, as the code has it.  The output is stripped before it is split,
    so the first line the loop reads is never indented and is read as an
    author line; from then on there is a current author, and neither
    [lines_added] nor [lines_deleted] ever gets the key [None]. *)
Theorem no_count_under_None (out : string) :
  (exists first rest,
      log_lines out = first :: rest
      /\ Py.startswith " " first = false
      /\ snd (parse_line (empty_summary, None) first) = Some (Py.strip first))
  /\ (None ∉ Py.keys (lines_added (parse_log out)))
  /\ (None ∉ Py.keys (lines_deleted (parse_log out))).
Proof.
  destruct (first_line_not_indented out) as (first & rest & Hlines & Hfirst).
  split.
  { exists first, rest. repeat split; [exact Hlines | exact Hfirst |].
    unfold parse_line. rewrite Hfirst. reflexivity. }
  assert (H : authored (fold_left parse_line (log_lines out) (empty_summary, None))).
  { rewrite Hlines. simpl fold_left. apply fold_authored.
    unfold parse_line. rewrite Hfirst. simpl.
    destruct (Py.truthy (Py.strip first)); repeat split; simpl;
      try discriminate; apply not_elem_of_nil. }
  destruct H as (_ & Ha & Hd). split; assumption.
Qed.

(** C10 as stated fails: an output that begins with an indented summary
    line.  The summary is read as an author name and counted as a
    commit; its numbers are recorded nowhere, and no key is [None]. *)
Lemma leading_summary_counterexample :
  parse_log (" 3 files changed, 10 insertions(+), 2 deletions(-)"
             +:+ LogFormat.nl +:+ "Alice")
  = {| git_commits := [("3 files changed, 10 insertions(+), 2 deletions(-)", 1);
                       ("Alice", 1)];
       lines_added := [];
       lines_deleted := [] |}.
Proof. reflexivity. Qed.

(** ** Folding the aliases *)

Lemma add_aliases_sum (metric_data : Py.dict string Z) (aliases : list string) (t : Z) :
  add_aliases metric_data aliases t
  = t + foldr Z.add 0 (map (fun alias => Py.get0 alias metric_data) aliases).
Proof.
  unfold add_aliases. revert t.
  induction aliases as [|a aliases IH]; intros t; simpl; [lia|].
  rewrite IH. unfold Py.get0. destruct (Py.get a metric_data); simpl; lia.
Qed.

Lemma in_list_spec {A} `{EqDecision A} (x : A) (l : list A) :
  Py.in_list x l = true <-> x ∈ l.
Proof. unfold Py.in_list. apply bool_decide_eq_true. Qed.

(** The merging loop over any list of users. *)
Lemma merge_users_get (metric_data acc : Py.dict string Z) (users : list string)
  (u : string) :
  Py.get u (fold_left (merge_user metric_data) users acc)
  = if decide (u ∈ users /\ u ∉ alias_values)
    then Some (total_contribution metric_data u)
    else Py.get u acc.
Proof.
  revert acc. induction users as [|x users IH]; intros acc; simpl fold_left.
  - rewrite decide_False; [reflexivity|]. intros [[]%elem_of_nil _].
  - rewrite IH. unfold merge_user.
    destruct (Py.in_list x alias_values) eqn:Hx; simpl negb; cbv iota.
    + apply in_list_spec in Hx.
      destruct (decide (u ∈ users /\ u ∉ alias_values)) as [[Hu Hn]|Hno].
      * rewrite decide_True; [reflexivity|]. split; [now apply elem_of_cons; right | exact Hn].
      * rewrite decide_False; [reflexivity|].
        intros [[->|Hu]%elem_of_cons Hn]; [contradiction | apply Hno; auto].
    + assert (Hxn : x ∉ alias_values).
      { intros Hin%in_list_spec. congruence. }
      rewrite get_set.
      destruct (decide (u ∈ users /\ u ∉ alias_values)) as [[Hu Hn]|Hno].
      * rewrite decide_True; [reflexivity|]. split; [now apply elem_of_cons; right | exact Hn].
      * destruct (decide (x = u)) as [->|Hne].
        -- rewrite decide_True; [reflexivity|]. split; [now apply elem_of_cons; left | exact Hxn].
        -- rewrite decide_False; [reflexivity|].
           intros [[->|Hu]%elem_of_cons Hn]; [congruence | apply Hno; auto].
Qed.

Lemma merge_users_NoDup (metric_data acc : Py.dict string Z) (users : list string) :
  NoDup (Py.keys acc) ->
  NoDup (Py.keys (fold_left (merge_user metric_data) users acc)).
Proof.
  revert acc. induction users as [|x users IH]; intros acc Hacc; simpl; [exact Hacc|].
  apply IH. unfold merge_user. destruct (negb (Py.in_list x alias_values)); [|exact Hacc].
  now apply NoDup_keys_set.
Qed.

(** What the folded mapping holds: every name of the input that is not
    an alias, with its own count plus the counts of those of its aliases
    that are keys of the input; and nothing else, so no alias is a key
    of the output. *)
Lemma unique_user_data_get (metric_data : Py.dict string Z) (u : string) :
  Py.get u (unique_user_data metric_data)
  = if decide (u ∈ Py.keys metric_data /\ u ∉ alias_values)
    then Some (Py.get0 u metric_data
               + foldr Z.add 0
                   (map (fun alias => Py.get0 alias metric_data)
                        (default [] (Py.get u user_aliases))))
    else None.
Proof.
  unfold unique_user_data. rewrite merge_users_get.
  destruct (decide (u ∈ Py.keys metric_data /\ u ∉ alias_values)); [|reflexivity].
  f_equal. unfold total_contribution.
  destruct (Py.get u user_aliases) as [aliases|]; simpl.
  - apply add_aliases_sum.
  - lia.
Qed.

Lemma unique_user_data_keys (metric_data : Py.dict string Z) (u : string) :
  u ∈ Py.keys (unique_user_data metric_data)
  <-> u ∈ Py.keys metric_data /\ u ∉ alias_values.
Proof.
  pose proof (unique_user_data_get metric_data u) as Hget.
  destruct (decide (u ∈ Py.keys metric_data /\ u ∉ alias_values)) as [Hin|Hout].
  - split; [intros _; exact Hin | intros _; eapply get_Some_keys, Hget].
  - split; [|contradiction]. intros Hk. apply get_None_keys in Hget. contradiction.
Qed.

Lemma alias_not_a_key (metric_data : Py.dict string Z) (alias : string) :
  alias ∈ alias_values -> alias ∉ Py.keys (unique_user_data metric_data).
Proof. rewrite unique_user_data_keys. tauto. Qed.

(** C1 at the input where it fails.  The five commits recorded under the
    alias [skoirala] belong to the canonical author [dr-ko], whose folded
    total should be five; the canonical name is not itself a key of the
    input, the loop only visits keys of the input, and the output is
    empty: the commits are in no entry at all. *)
Theorem alias_without_canonical_name_lost :
  Py.get "dr-ko" user_aliases = Some ["skoirala"]
  /\ unique_user_data [("skoirala", 5)] = []
  /\ Py.get "dr-ko" (unique_user_data [("skoirala", 5)]) = None.
Proof. repeat split. Qed.

(** With the canonical name among the keys the alias is folded in. *)
Example alias_folded_into_canonical :
  unique_user_data [("skoirala", 5); ("dr-ko", 3); ("zed", 1); ("Bob", 2)]
  = [("dr-ko", 8); ("zed", 1); ("Bob", 2)].
Proof. reflexivity. Qed.

(** ** The order of the authors *)

Lemma StronglySorted_strict (l : list string) :
  StronglySorted String.le l -> NoDup l -> StronglySorted (strict String.le) l.
Proof.
  induction 1 as [|x l Hl IH Hx]; intros Hnd; constructor.
  - apply IH. now apply NoDup_cons in Hnd.
  - apply NoDup_cons in Hnd as [Hxl _].
    rewrite Forall_forall in *. intros y Hy. split; [now apply Hx|].
    intros Hyx. assert (x = y) by (apply (anti_symm String.le); auto).
    subst. contradiction.
Qed.

Lemma keys_Permutation (d d' : Py.dict string Z) :
  d' ≡ₚ d -> Py.keys d' ≡ₚ Py.keys d.
Proof. intros Hp. unfold Py.keys. now apply Permutation_map. Qed.

(** C6.  The authors handed to the chart are the names of the input
    mapping that are not aliases, all of them and no other name; they
    are in strictly increasing order of their names, compared as Python
    compares strings (character by character, by code point), so each
    is there once; and the list is the same for every order in which
    the input mapping holds its entries. *)
Theorem sorted_users_alphabetical (metric_data metric_data' : Py.dict string Z) :
  metric_data' ≡ₚ metric_data ->
  (forall u, u ∈ sorted_users metric_data
             <-> u ∈ Py.keys metric_data /\ u ∉ alias_values)
  /\ StronglySorted (strict String.le) (sorted_users metric_data)
  /\ sorted_users metric_data' = sorted_users metric_data.
Proof.
  intros Hperm. unfold sorted_users. split; [|split].
  - intros u. rewrite merge_sort_Permutation. apply unique_user_data_keys.
  - apply StronglySorted_strict.
    + apply StronglySorted_merge_sort; apply _.
    + rewrite merge_sort_Permutation.
      apply merge_users_NoDup, NoDup_nil_2.
  - apply (Sorted_unique String.le).
    + apply Sorted_merge_sort, _.
    + apply Sorted_merge_sort, _.
    + rewrite !merge_sort_Permutation.
      apply NoDup_Permutation.
      * apply merge_users_NoDup, NoDup_nil_2.
      * apply merge_users_NoDup, NoDup_nil_2.
      * intros u. rewrite !unique_user_data_keys.
        now rewrite (keys_Permutation _ _ Hperm).
Qed.

Lemma sorted_users_alphabetical_witness :
  (forall u,
      u ∈ sorted_users [("zed", 1); ("skoirala", 5); ("Bob", 2); ("dr-ko", 3)]
      <-> u ∈ Py.keys [("zed", 1); ("skoirala", 5); ("Bob", 2); ("dr-ko", 3)]
          /\ u ∉ alias_values)
  /\ StronglySorted (strict String.le)
       (sorted_users [("zed", 1); ("skoirala", 5); ("Bob", 2); ("dr-ko", 3)])
  /\ sorted_users [("dr-ko", 3); ("Bob", 2); ("zed", 1); ("skoirala", 5)]
     = sorted_users [("zed", 1); ("skoirala", 5); ("Bob", 2); ("dr-ko", 3)].
Proof.
  apply (sorted_users_alphabetical
           [("zed", 1); ("skoirala", 5); ("Bob", 2); ("dr-ko", 3)]
           [("dr-ko", 3); ("Bob", 2); ("zed", 1); ("skoirala", 5)]).
  apply (Permutation_trans (l' := [("zed", 1); ("dr-ko", 3); ("Bob", 2); ("skoirala", 5)])).
  - apply (Permutation_trans (l' := [("dr-ko", 3); ("zed", 1); ("Bob", 2); ("skoirala", 5)])).
    + apply perm_skip, perm_swap.
    + apply perm_swap.
  - apply perm_skip.
    apply (Permutation_trans (l' := [("dr-ko", 3); ("skoirala", 5); ("Bob", 2)])).
    + apply perm_skip, perm_swap.
    + apply (Permutation_trans (l' := [("skoirala", 5); ("dr-ko", 3); ("Bob", 2)])).
      * apply perm_swap.
      * apply perm_skip, perm_swap.
Defined.

Example sorted_users_example :
  sorted_users [("zed", 1); ("skoirala", 5); ("Bob", 2); ("dr-ko", 3)]
  = ["Bob"; "dr-ko"; "zed"].
Proof. reflexivity. Qed.

(** ** Colours *)

Section ColorFacts.
Variable L : PyLib.

Lemma seeded_color_rgba (hex_digest : string) (alpha : Q) :
  exists r g b, fst (seeded_color L hex_digest alpha) = RGBA r g b alpha.
Proof.
  unfold seeded_color, channel.
  destruct (random_randint L 0 255 (random_seed L (Py.int16 hex_digest))) as [n1 g1].
  destruct (random_randint L 0 255 g1) as [n2 g2].
  destruct (random_randint L 0 255 g2) as [n3 g3].
  simpl. eauto.
Qed.

(** The loop of [generate_unique_colors]: the generator that a turn
    finds plays no part in the colour it stores. *)
Lemma assign_colors_get (alpha : Q) (users : list string)
  (acc : Py.dict string color) (g : rng L) (u : string) :
  Py.get u (fst (fold_left (assign_color L alpha) users (acc, g)))
  = if decide (u ∈ users)
    then Some (fst (seeded_color L (md5_hexdigest L u) alpha))
    else Py.get u acc.
Proof.
  revert acc g. induction users as [|x users IH]; intros acc g; cbn [fold_left].
  - rewrite decide_False by apply not_elem_of_nil. reflexivity.
  - destruct (assign_color L alpha (acc, g) x) as [acc' g'] eqn:Ha.
    assert (Hacc : acc' = Py.set x (fst (seeded_color L (md5_hexdigest L x) alpha)) acc).
    { unfold assign_color in Ha.
      destruct (seeded_color L (md5_hexdigest L x) alpha) as [c g0].
      now inversion Ha. }
    rewrite IH, Hacc, get_set.
    destruct (decide (u ∈ users)) as [Hu|Hu].
    + rewrite decide_True by (apply elem_of_cons; auto). reflexivity.
    + destruct (decide (x = u)) as [->|Hne].
      * rewrite decide_True by (apply elem_of_cons; auto). reflexivity.
      * rewrite decide_False; [reflexivity|].
        intros [->|?]%elem_of_cons; [congruence | contradiction].
Qed.
End ColorFacts.

(** C7, as the code has it.  For a name among the users given to
    [generate_unique_colors], the colour in the chart is the one drawn
    after seeding the generator with the digest of the name: it depends
    on the digest and on [alpha] only, not on the other users, their
    order, or the state of the generator before the call.  A name that
    is not among them is drawn in the fixed colour [#cccccc]. *)
Theorem chart_color_by_hash (L : PyLib) (users : list string) (alpha : Q)
  (g : rng L) (u : string) :
  chart_color (fst (generate_unique_colors L users alpha g)) u
  = if decide (u ∈ users)
    then fst (seeded_color L (md5_hexdigest L u) alpha)
    else Named "#cccccc".
Proof.
  unfold chart_color, generate_unique_colors. rewrite assign_colors_get.
  destruct (decide (u ∈ users)); reflexivity.
Qed.

(** C7 as stated fails, whatever [hashlib] and [random] compute: a
    run in which Alice has commits and a run in which she has none (but
    still owns lines of the code) give her different colours. *)
Lemma same_color_counterexample :
  ~ (exists (L : PyLib) (g1 g2 : rng L),
        chart_color (user_colors L [("Alice", 3)] g1) "Alice"
        = chart_color (user_colors L [] g2) "Alice").
Proof.
  intros (L & g1 & g2 & H).
  unfold chart_color, user_colors, generate_unique_colors in H.
  rewrite !assign_colors_get in H.
  destruct (seeded_color_rgba L (md5_hexdigest L "Alice") (9 # 10)) as (r & g & b & Hc).
  rewrite Hc in H.
  destruct (decide ("Alice" ∈ Py.keys [("Alice", 3)])) as [_|Hn].
  - destruct (decide ("Alice" ∈ Py.keys (@nil (string * Z)))) as [[]%elem_of_nil|_].
    discriminate H.
  - apply Hn, list_elem_of_singleton. reflexivity.
Qed.

Example chart_color_toy :
  chart_color (user_colors Scenario.toy_lib [("Bob", 1); ("Alice", 3)] 7) "Alice"
  = chart_color (user_colors Scenario.toy_lib [("Alice", 2)] 0) "Alice".
Proof. reflexivity. Qed.

(** ** Stripping and splitting a rendered log *)

Import LogFormat.

#[local] Arguments String.append : simpl nomatch.

Lemma lstrip_blank_app (p s : string) :
  blank p = true -> Py.lstrip (p +:+ s) = Py.lstrip s.
Proof.
  unfold blank. induction p as [|c p IH]; simpl; [reflexivity|].
  intros [Hc Hp]%andb_prop. rewrite Hc. auto.
Qed.

Lemma rstrip_app (a b : string) :
  Py.rstrip (a +:+ b)
  = match Py.rstrip b with
    | EmptyString => Py.rstrip a
    | _ => a +:+ Py.rstrip b
    end.
Proof.
  induction a as [|c a IH]; simpl.
  - destruct (Py.rstrip b); reflexivity.
  - rewrite IH. destruct (Py.rstrip b) as [|x y]; [reflexivity|].
    destruct a; reflexivity.
Qed.

Lemma rstrip_blank (p : string) : blank p = true -> Py.rstrip p = EmptyString.
Proof.
  unfold blank. induction p as [|c p IH]; simpl; [reflexivity|].
  intros [Hc Hp]%andb_prop. rewrite (IH Hp), Hc. reflexivity.
Qed.

(** Whitespace around a text that has none at its ends is what [strip]
    removes. *)
Lemma strip_padded (pad1 s pad2 : string) :
  blank pad1 = true -> blank pad2 = true ->
  Py.lstrip s = s -> Py.rstrip s = s ->
  Py.strip (pad1 +:+ (s +:+ pad2)) = s.
Proof.
  intros H1 H2 Hl Hr. unfold Py.strip.
  rewrite rstrip_app, rstrip_app, (rstrip_blank pad2 H2), Hr.
  destruct s as [|c s].
  - rewrite (rstrip_blank pad1 H1). reflexivity.
  - rewrite lstrip_blank_app by assumption. exact Hl.
Qed.

Lemma ends_well_app (a b : string) : ends_well b -> ends_well (a +:+ b).
Proof.
  intros [Hne Hr]. split.
  - destruct a; [exact Hne | discriminate].
  - rewrite rstrip_app, Hr. destruct b; [contradiction | reflexivity].
Qed.

Lemma ends_well_cons (c : ascii) (b : string) : ends_well b -> ends_well (String c b).
Proof. apply (ends_well_app (String c EmptyString)). Qed.

Lemma ends_well_join (lines : list string) (l : string) :
  last lines = Some l -> ends_well l -> ends_well (Py.join nl lines).
Proof.
  induction lines as [|x [|y rest] IH]; intros Hlast Hl.
  - discriminate.
  - simpl in *. congruence.
  - change (Py.join nl (x :: y :: rest)) with (x +:+ (nl +:+ Py.join nl (y :: rest))).
    apply ends_well_app, ends_well_app, IH; assumption.
Qed.

Lemma one_line_app (a b : string) : one_line (a +:+ b) = one_line a && one_line b.
Proof. apply all_chars_app. Qed.

Lemma split_char_one_line (s : string) :
  one_line s = true -> Py.split_char "010" s = [s].
Proof.
  unfold one_line. induction s as [|c s IH]; simpl; [reflexivity|].
  intros [Hc Hs]%andb_prop. rewrite (IH Hs).
  destruct (Ascii.eqb c "010"); [discriminate | reflexivity].
Qed.

(** Splitting undoes joining. *)
Lemma split_join (lines : list string) :
  lines <> [] -> Forall (fun l => one_line l = true) lines ->
  Py.split_char "010" (Py.join nl lines) = lines.
Proof.
  induction lines as [|x [|y rest] IH]; intros Hne Hall.
  - contradiction.
  - simpl. apply split_char_one_line. now inversion Hall.
  - change (Py.join nl (x :: y :: rest))
      with (x +:+ String "010" (Py.join nl (y :: rest))).
    inversion Hall as [|? ? Hx Hrest]; subst.
    rewrite split_char_first by exact Hx.
    rewrite IH; [reflexivity | discriminate | exact Hrest].
Qed.

(** ** The two patterns on a summary line *)

Lemma search_cons (kw : string) (c : ascii) (r : string) :
  Py.search kw (String c r)
  = match Py.match_here kw (String c r) with
    | Some ds => Some ds
    | None => Py.search kw r
    end.
Proof. reflexivity. Qed.

Lemma match_here_boundary (kw r : string) :
  Py.no_digit_ahead r = true -> Py.match_here kw r = None.
Proof.
  destruct r as [|c r]; simpl; [reflexivity|].
  intros Hc%negb_true_iff. rewrite Hc. reflexivity.
Qed.

Lemma search_skip (kw : string) (c : ascii) (r : string) :
  Py.isdigit c = false -> Py.search kw (String c r) = Py.search kw r.
Proof.
  intros Hc. rewrite search_cons. simpl Py.match_here. rewrite Hc. reflexivity.
Qed.

Lemma search_skip_all (kw p r : string) :
  Py.all_chars (fun c => negb (Py.isdigit c)) p = true ->
  Py.search kw (p +:+ r) = Py.search kw r.
Proof.
  induction p as [|c p IH]; simpl; [reflexivity|].
  intros [Hc%negb_true_iff Hp]%andb_prop.
  rewrite <- (IH Hp). apply search_skip, Hc.
Qed.

Lemma prefix_cons (c a : ascii) (p s : string) :
  String.prefix (String c p) (String a s)
  = if Ascii.eqb c a then String.prefix p s else false.
Proof.
  change (String.prefix (String c p) (String a s))
    with (if ascii_dec c a then String.prefix p s else false).
  destruct (ascii_dec c a) as [->|Hne].
  - rewrite Ascii.eqb_refl. reflexivity.
  - apply Ascii.eqb_neq in Hne. rewrite Hne. reflexivity.
Qed.

(** A run of digits followed by something that is not a digit: the
    pattern matches at its start exactly when the keyword follows, and
    then captures the whole run. *)
Lemma match_here_digits (k0 : ascii) (kw ds r : string) :
  Py.isdigit k0 = false ->
  ds <> EmptyString ->
  Py.all_chars Py.isdigit ds = true ->
  Py.no_digit_ahead r = true ->
  Py.match_here (String k0 kw) (ds +:+ r)
  = if String.prefix (String k0 kw) r then Some ds else None.
Proof.
  intros Hk. induction ds as [|c ds IH]; intros Hne Hds Hr; [contradiction|].
  simpl in Hds. apply andb_prop in Hds as [Hc Hds].
  change (String c ds +:+ r) with (String c (ds +:+ r)).
  cbn [Py.match_here]. rewrite Hc. destruct ds as [|c' ds].
  - change (EmptyString +:+ r) with r. rewrite (match_here_boundary _ r Hr).
    reflexivity.
  - rewrite IH by (auto; discriminate).
    destruct (String.prefix (String k0 kw) r); [reflexivity|].
    simpl in Hds. apply andb_prop in Hds as [Hc' _].
    change (String c' ds +:+ r) with (String c' (ds +:+ r)).
    rewrite prefix_cons.
    destruct (Ascii.eqb_spec k0 c') as [->|]; [congruence | reflexivity].
Qed.

Lemma search_digits (k0 : ascii) (kw ds r : string) :
  Py.isdigit k0 = false ->
  ds <> EmptyString ->
  Py.all_chars Py.isdigit ds = true ->
  Py.no_digit_ahead r = true ->
  Py.search (String k0 kw) (ds +:+ r)
  = if String.prefix (String k0 kw) r then Some ds else Py.search (String k0 kw) r.
Proof.
  intros Hk. induction ds as [|c ds IH]; intros Hne Hds Hr; [contradiction|].
  change (String c ds +:+ r) with (String c (ds +:+ r)).
  rewrite search_cons.
  change (String c (ds +:+ r)) with (String c ds +:+ r).
  rewrite match_here_digits by assumption.
  destruct (String.prefix (String k0 kw) r) eqn:Hp; [reflexivity|].
  destruct ds as [|c' ds]; [reflexivity|].
  simpl in Hds. apply andb_prop in Hds as [_ Hds].
  rewrite IH by (auto; discriminate). rewrite ?Hp. reflexivity.
Qed.

Lemma str_of_N_nonempty (n : N) : Py.str_of_N n <> EmptyString.
Proof.
  unfold Py.str_of_N. destruct n as [|p]; simpl; [discriminate|].
  pose proof (DecimalPos.Unsigned.to_uint_nonnil p) as Hp.
  destruct (Pos.to_uint p); simpl; try discriminate. contradiction.
Qed.

Lemma int_of_str_of_N (n : N) : Py.int_of_digits (Py.str_of_N n) = Z.of_N n.
Proof.
  unfold Py.int_of_digits, Py.str_of_N.
  rewrite NilEmpty.usu, DecimalN.Unsigned.of_to. reflexivity.
Qed.

Lemma search_digits_other (k0 : ascii) (kw ds r : string) :
  Py.isdigit k0 = false ->
  ds <> EmptyString ->
  Py.all_chars Py.isdigit ds = true ->
  Py.no_digit_ahead r = true ->
  String.prefix (String k0 kw) r = false ->
  Py.search (String k0 kw) (ds +:+ r) = Py.search (String k0 kw) r.
Proof. intros ? ? ? ? Hp. rewrite search_digits by assumption. now rewrite Hp. Qed.

Lemma search_digits_found (k0 : ascii) (kw ds r : string) :
  Py.isdigit k0 = false ->
  ds <> EmptyString ->
  Py.all_chars Py.isdigit ds = true ->
  Py.no_digit_ahead r = true ->
  String.prefix (String k0 kw) r = true ->
  Py.search (String k0 kw) (ds +:+ r) = Some ds.
Proof. intros ? ? ? ? Hp. rewrite search_digits by assumption. now rewrite Hp. Qed.

Ltac scan :=
  repeat first
    [ rewrite search_skip by reflexivity
    | rewrite search_skip_all by reflexivity
    | rewrite search_digits_other;
      [ | reflexivity | apply str_of_N_nonempty | apply digits_str_of_N
        | reflexivity | reflexivity ]
    | rewrite search_digits_found;
      [ | reflexivity | apply str_of_N_nonempty | apply digits_str_of_N
        | reflexivity | reflexivity ] ].

(** [(\d+) insertions] finds the number of insertions of a summary line
    when git writes it in the plural, and nothing otherwise. *)
Lemma search_git_insertions (s : shortstat) :
  Py.search " insertions" (git_shortstat s) = plural_only (insertions s).
Proof.
  unfold git_shortstat, git_count_part, plural_only, plural.
  destruct (files_changed s =? 1)%N;
    destruct (insertions s) as [i|]; [destruct (i =? 1)%N| | destruct (i =? 1)%N|];
    (destruct (deletions s) as [d|]; [destruct (d =? 1)%N|]);
    scan; reflexivity.
Qed.

Lemma search_git_deletions (s : shortstat) :
  Py.search " deletions" (git_shortstat s) = plural_only (deletions s).
Proof.
  unfold git_shortstat, git_count_part, plural_only, plural.
  destruct (files_changed s =? 1)%N;
    destruct (insertions s) as [i|]; [destruct (i =? 1)%N| | destruct (i =? 1)%N|];
    (destruct (deletions s) as [d|]; [destruct (d =? 1)%N|]);
    scan; reflexivity.
Qed.

Lemma plural_only_count (n : option N) :
  plural_only n = Py.str_of_N <$> plural_count n.
Proof. destruct n as [k|]; [|reflexivity]. simpl. now destruct (k =? 1)%N. Qed.

(** The pattern asks for the plural: the summary of a commit with a
    single insertion, as git words it, is not matched. *)
Example singular_insertion_not_matched :
  Py.search " insertions" " 1 file changed, 1 insertion(+)" = None.
Proof. reflexivity. Qed.

(** ** One line at a time *)

Lemma prefix_nil (s : string) : String.prefix EmptyString s = true.
Proof. destruct s; reflexivity. Qed.

Lemma plain_name_spec (a : string) :
  plain_name a = true ->
  exists c r, a = String c r /\ Py.isspace c = false
              /\ Py.lstrip a = a /\ Py.rstrip a = a /\ one_line a = true.
Proof.
  unfold plain_name.
  intros [[[Ht Hl%String.eqb_eq]%andb_prop Hr%String.eqb_eq]%andb_prop H1]%andb_prop.
  destruct a as [|c r]; [discriminate|].
  exists c, r. repeat split; auto. eapply lstrip_head, Hl.
Qed.

(** An author line counts one commit and becomes the current author. *)
Lemma parse_line_author (cs : commit_summary) (cur : option string) (a : string) :
  plain_name a = true ->
  parse_line (cs, cur) a
  = ({| git_commits := Py.set a (Py.get0 a (git_commits cs) + 1) (git_commits cs);
        lines_added := lines_added cs;
        lines_deleted := lines_deleted cs |},
     Some a).
Proof.
  intros (c & r & -> & Hc & Hl & Hr & _)%plain_name_spec.
  unfold parse_line.
  rewrite startswith_other by (intros <-; discriminate Hc).
  unfold Py.strip. rewrite Hr, Hl. reflexivity.
Qed.

(** A summary line adds, under the current author, the numbers that are
    written in the plural. *)
Lemma parse_line_summary (cs : commit_summary) (cur : option string) (s : shortstat) :
  parse_line (cs, cur) (git_shortstat s)
  = ({| git_commits := git_commits cs;
        lines_added :=
          match plural_count (insertions s) with
          | Some i => Py.set cur (Py.get0 cur (lines_added cs) + Z.of_N i) (lines_added cs)
          | None => lines_added cs
          end;
        lines_deleted :=
          match plural_count (deletions s) with
          | Some d => Py.set cur (Py.get0 cur (lines_deleted cs) + Z.of_N d) (lines_deleted cs)
          | None => lines_deleted cs
          end |},
     cur).
Proof.
  unfold parse_line.
  rewrite search_git_insertions, search_git_deletions, !plural_only_count.
  unfold git_shortstat at 1. rewrite startswith_same.
  unfold Py.startswith. rewrite prefix_nil. cbn [negb]. cbv iota.
  destruct cs as [gc la ld].
  destruct (plural_count (insertions s)) as [i|],
           (plural_count (deletions s)) as [d|];
    cbn [fmap option_fmap option_map git_commits lines_added lines_deleted];
    rewrite ?int_of_str_of_N; reflexivity.
Qed.

(** Empty lines between two entries only reset the current author. *)
Lemma parse_blank_lines (n : nat) (cs : commit_summary) (cur : option string) :
  fold_left parse_line (repeat EmptyString n) (cs, cur)
  = (cs, match n with O => cur | S _ => Some EmptyString end).
Proof.
  revert cur. induction n as [|n IH]; intros cur; [reflexivity|].
  simpl repeat. simpl fold_left.
  change (parse_line (cs, cur) EmptyString) with (cs, Some EmptyString).
  rewrite IH. destruct n; reflexivity.
Qed.

(** ** Tallies *)

Lemma total_snoc (l : list Z) (x : Z) :
  total (l ++ [x]) = Some (foldr Z.add 0 l + x).
Proof.
  unfold total. destruct l as [|y l]; simpl; [f_equal; lia|].
  f_equal. rewrite foldr_app. simpl.
  assert (H : forall (l : list Z) (b : Z), foldr Z.add b l = foldr Z.add 0 l + b).
  { clear. induction l as [|z l IH]; intros b; simpl; [lia|]. rewrite IH. lia. }
  rewrite H. lia.
Qed.

Section Tallies.
Context {K : Type} `{EqDecision K}.
Implicit Types (d : Py.dict K Z) (F G : K -> list Z).

Lemma tallies_get0 d F k : tallies d F -> Py.get0 k d = foldr Z.add 0 (F k).
Proof.
  intros Hd. unfold Py.get0. rewrite (Hd k). destruct (F k); reflexivity.
Qed.

Lemma tallies_ext d F G : (forall k, F k = G k) -> tallies d F -> tallies d G.
Proof. intros HFG Hd k. rewrite <- HFG. apply Hd. Qed.

(** [d[k] = d.get(k, 0) + x] files [x] under [k]. *)
Lemma tallies_add d F k x :
  tallies d F ->
  tallies (Py.set k (Py.get0 k d + x) d)
          (fun k' => if decide (k' = k) then F k' ++ [x] else F k').
Proof.
  intros Hd k'. rewrite get_set.
  destruct (decide (k = k')) as [->|Hne].
  - rewrite decide_True by reflexivity.
    rewrite total_snoc, (tallies_get0 d F k' Hd). reflexivity.
  - rewrite decide_False by congruence. apply Hd.
Qed.
End Tallies.

(** ** The loop over a log *)

(** The summary lines below an author line. *)
Lemma summary_fold (stats : list shortstat) (a : string) :
  forall (cs : commit_summary) (Fa Fd : option string -> list Z),
    tallies (lines_added cs) Fa ->
    tallies (lines_deleted cs) Fd ->
    exists cs',
      fold_left parse_line (map git_shortstat stats) (cs, Some a) = (cs', Some a)
      /\ git_commits cs' = git_commits cs
      /\ tallies (lines_added cs')
           (fun k => Fa k ++ if decide (k = Some a)
                             then Z.of_N <$> omap (fun s => plural_count (insertions s)) stats
                             else [])
      /\ tallies (lines_deleted cs')
           (fun k => Fd k ++ if decide (k = Some a)
                             then Z.of_N <$> omap (fun s => plural_count (deletions s)) stats
                             else []).
Proof.
  induction stats as [|s stats IH]; intros cs Fa Fd Ha Hd.
  - exists cs. repeat split; auto.
    + eapply tallies_ext; [|exact Ha]. intros k. simpl.
      destruct (decide (k = Some a)); now rewrite app_nil_r.
    + eapply tallies_ext; [|exact Hd]. intros k. simpl.
      destruct (decide (k = Some a)); now rewrite app_nil_r.
  - cbn [map fold_left]. rewrite parse_line_summary.
    match goal with |- context [fold_left _ _ (?c, _)] =>
      destruct (IH c
        (fun k => Fa k ++ if decide (k = Some a)
                          then Z.of_N <$> option_list (plural_count (insertions s)) else [])
        (fun k => Fd k ++ if decide (k = Some a)
                          then Z.of_N <$> option_list (plural_count (deletions s)) else []))
        as (cs' & Hfold & Hgc & Ha' & Hd')
    end.
    + cbn [lines_added]. destruct (plural_count (insertions s)) as [i|]; simpl.
      * eapply tallies_ext; [|apply tallies_add, Ha]. intros k. simpl.
        destruct (decide (k = Some a)); [reflexivity | now rewrite app_nil_r].
      * eapply tallies_ext; [|exact Ha]. intros k.
        destruct (decide (k = Some a)); now rewrite app_nil_r.
    + cbn [lines_deleted]. destruct (plural_count (deletions s)) as [d|]; simpl.
      * eapply tallies_ext; [|apply tallies_add, Hd]. intros k. simpl.
        destruct (decide (k = Some a)); [reflexivity | now rewrite app_nil_r].
      * eapply tallies_ext; [|exact Hd]. intros k.
        destruct (decide (k = Some a)); now rewrite app_nil_r.
    + exists cs'. split; [exact Hfold|]. split; [exact Hgc|]. split.
      * eapply tallies_ext; [|exact Ha']. intros k. cbn [omap list_omap].
        rewrite <- app_assoc. f_equal.
        destruct (decide (k = Some a)); [|reflexivity].
        destruct (plural_count (insertions s)); reflexivity.
      * eapply tallies_ext; [|exact Hd']. intros k. cbn [omap list_omap].
        rewrite <- app_assoc. f_equal.
        destruct (decide (k = Some a)); [|reflexivity].
        destruct (plural_count (deletions s)); reflexivity.
Qed.

Lemma keyed_one (pick : entry -> list Z) (e : entry) (k : option string) :
  keyed (attributed pick) k [e]
  = if decide (k = Some (author e)) then pick e else [].
Proof.
  destruct k as [a|]; unfold keyed, attributed; cbn [flat_map]; rewrite ?app_nil_r.
  - destruct (decide (author e = a)), (decide (Some a = Some (author e)));
      congruence || reflexivity.
  - destruct (decide (None = Some (author e))); [discriminate | reflexivity].
Qed.

(** One entry, after [n] empty lines. *)
Lemma entry_fold (e : entry) (n : nat) (cs : commit_summary) (cur : option string)
  (Fc : string -> list Z) (Fa Fd : option string -> list Z) :
  plain_name (author e) = true ->
  tallies (git_commits cs) Fc ->
  tallies (lines_added cs) Fa ->
  tallies (lines_deleted cs) Fd ->
  exists cs',
    fold_left parse_line (repeat EmptyString n ++ render_entry e) (cs, cur)
    = (cs', Some (author e))
    /\ tallies (git_commits cs') (fun a => Fc a ++ commits a [e])
    /\ tallies (lines_added cs') (fun k => Fa k ++ keyed added_plural k [e])
    /\ tallies (lines_deleted cs') (fun k => Fd k ++ keyed deleted_plural k [e]).
Proof.
  intros Hplain Hc Ha Hd.
  rewrite fold_left_app, parse_blank_lines. unfold render_entry.
  cbn [fold_left]. rewrite parse_line_author by exact Hplain.
  match goal with |- context [fold_left _ _ (?c, _)] =>
    destruct (summary_fold (summary e) (author e) c Fa Fd Ha Hd)
      as (cs' & Hfold & Hgc & Ha' & Hd')
  end.
  exists cs'. split; [exact Hfold|]. split; [|split].
  - rewrite Hgc. simpl.
    eapply tallies_ext; [|apply tallies_add, Hc]. intros a. simpl.
    unfold commits, attributed. cbn [flat_map]. rewrite app_nil_r.
    destruct (decide (a = author e)), (decide (author e = a));
      rewrite ?app_nil_r; congruence || reflexivity.
  - eapply tallies_ext; [|exact Ha']. intros k. simpl.
    unfold added_plural. now rewrite keyed_one.
  - eapply tallies_ext; [|exact Hd']. intros k. simpl.
    unfold deleted_plural. now rewrite keyed_one.
Qed.

Lemma keyed_cons (pick : entry -> list Z) (e : entry) (es : list entry)
  (k : option string) :
  keyed (attributed pick) k (e :: es)
  = keyed (attributed pick) k [e] ++ keyed (attributed pick) k es.
Proof.
  destruct k; unfold keyed, attributed; cbn [flat_map];
    [now rewrite app_nil_r | reflexivity].
Qed.

(** Entries, each after its own number of empty lines. *)
Lemma entries_fold (l : list (nat * entry)) :
  forall (cs : commit_summary) (cur : option string)
         (Fc : string -> list Z) (Fa Fd : option string -> list Z),
    Forall (fun e => plain_name (author e) = true) (entries l) ->
    tallies (git_commits cs) Fc ->
    tallies (lines_added cs) Fa ->
    tallies (lines_deleted cs) Fd ->
    exists cs' cur',
      fold_left parse_line (render_spaced l) (cs, cur) = (cs', cur')
      /\ tallies (git_commits cs') (fun a => Fc a ++ commits a (entries l))
      /\ tallies (lines_added cs') (fun k => Fa k ++ keyed added_plural k (entries l))
      /\ tallies (lines_deleted cs') (fun k => Fd k ++ keyed deleted_plural k (entries l)).
Proof.
  induction l as [|[n e] l IH]; intros cs cur Fc Fa Fd Hall Hc Ha Hd.
  - exists cs, cur. split; [reflexivity|].
    repeat split; (eapply tallies_ext; [|eassumption]); intros k;
      try (destruct k); simpl; now rewrite app_nil_r.
  - unfold entries in Hall. cbn [map snd] in Hall.
    inversion Hall as [|? ? He Hes]; subst.
    unfold render_spaced. cbn [flat_map fst snd]. rewrite fold_left_app.
    destruct (entry_fold e n cs cur Fc Fa Fd He Hc Ha Hd)
      as (cs1 & -> & Hc1 & Ha1 & Hd1).
    destruct (IH cs1 (Some (author e)) _ _ _ Hes Hc1 Ha1 Hd1)
      as (cs2 & cur2 & Hfold & Hc2 & Ha2 & Hd2).
    exists cs2, cur2. split; [exact Hfold|].
    unfold entries. cbn [map snd]. split; [|split].
    + eapply tallies_ext; [|exact Hc2]. intros a. simpl.
      unfold commits, attributed. cbn [flat_map]. now rewrite app_nil_r, app_assoc.
    + eapply tallies_ext; [|exact Ha2]. intros k. simpl.
      unfold added_plural. now rewrite (keyed_cons _ e (map snd l)), app_assoc.
    + eapply tallies_ext; [|exact Hd2]. intros k. simpl.
      unfold deleted_plural. now rewrite (keyed_cons _ e (map snd l)), app_assoc.
Qed.

(** ** The lines of a log *)

Lemma one_line_str_of_N (n : N) : one_line (Py.str_of_N n) = true.
Proof.
  unfold one_line. eapply all_chars_impl; [|apply digits_str_of_N].
  intros c. now apply isdigit_not.
Qed.

Lemma one_line_cons (c : ascii) (r : string) :
  one_line (String c r) = negb (Ascii.eqb c "010") && one_line r.
Proof. reflexivity. Qed.

Lemma git_one_line (s : shortstat) : one_line (git_shortstat s) = true.
Proof.
  unfold git_shortstat, git_count_part, plural.
  destruct (files_changed s =? 1)%N;
    destruct (insertions s) as [i|]; [destruct (i =? 1)%N| | destruct (i =? 1)%N|];
    (destruct (deletions s) as [d|]; [destruct (d =? 1)%N|]);
    repeat (rewrite ?one_line_cons, ?one_line_app, ?one_line_str_of_N);
    reflexivity.
Qed.

Lemma ends_well_literal (s : string) :
  s <> EmptyString -> Py.rstrip s = s -> ends_well s.
Proof. split; assumption. Qed.

Lemma git_ends_well (s : shortstat) : ends_well (git_shortstat s).
Proof.
  unfold git_shortstat, git_count_part, plural.
  destruct (files_changed s =? 1)%N;
    destruct (insertions s) as [i|]; [destruct (i =? 1)%N| | destruct (i =? 1)%N|];
    (destruct (deletions s) as [d|]; [destruct (d =? 1)%N|]);
    repeat first
      [ apply ends_well_literal; [discriminate | reflexivity]
      | apply ends_well_cons
      | apply ends_well_app ].
Qed.

Lemma plain_ends_well (a : string) : plain_name a = true -> ends_well a.
Proof.
  intros (c & r & -> & _ & _ & Hr & _)%plain_name_spec.
  split; [discriminate | exact Hr].
Qed.

Lemma render_entry_lines (e : entry) :
  plain_name (author e) = true ->
  Forall (fun l => one_line l = true) (render_entry e)
  /\ exists l, last (render_entry e) = Some l /\ ends_well l.
Proof.
  intros Hplain. pose proof (plain_ends_well _ Hplain) as Hend.
  apply plain_name_spec in Hplain as (c & r & Ha & _ & _ & _ & H1).
  unfold render_entry. split.
  - constructor; [exact H1|]. apply Forall_map, Forall_forall.
    intros s _. apply git_one_line.
  - destruct (summary e) as [|s stats] using rev_ind.
    + exists (author e). split; [reflexivity | exact Hend].
    + exists (git_shortstat s). split; [|apply git_ends_well].
      rewrite map_app. simpl map.
      change (author e :: map git_shortstat stats ++ [git_shortstat s])
        with ((author e :: map git_shortstat stats) ++ [git_shortstat s]).
      apply last_snoc.
Qed.

Lemma render_spaced_lines (l : list (nat * entry)) :
  Forall (fun e => plain_name (author e) = true) (entries l) ->
  Forall (fun x => one_line x = true) (render_spaced l)
  /\ (l <> [] ->
      exists x, last (render_spaced l) = Some x /\ ends_well x).
Proof.
  induction l as [|[n e] l IH]; intros Hall; [split; [constructor | contradiction]|].
  unfold entries in Hall. cbn [map snd] in Hall.
  inversion Hall as [|? ? He Hes]; subst.
  destruct (IH Hes) as [IH1 IH2].
  destruct (render_entry_lines e He) as [H1 (x & Hx & Hend)].
  unfold render_spaced. cbn [flat_map fst snd]. split.
  - rewrite !Forall_app. split; [split|]; [|exact H1|exact IH1].
    apply Forall_forall. intros y Hy%list_elem_of_In%repeat_spec. now subst.
  - intros _. rewrite last_app. destruct l as [|ge l].
    + simpl. rewrite last_app, Hx. eauto.
    + destruct (IH2 ltac:(discriminate)) as (x' & Hx' & Hend').
      unfold render_spaced in Hx'. rewrite Hx'. eauto.
Qed.

Lemma lstrip_keep (c : ascii) (r : string) :
  Py.isspace c = false -> Py.lstrip (String c r) = String c r.
Proof. intros Hc. cbn [Py.lstrip]. now rewrite Hc. Qed.

Lemma join_head (c : ascii) (r : string) (rest : list string) :
  exists t, Py.join nl (String c r :: rest) = String c t.
Proof. destruct rest; eexists; reflexivity. Qed.

(** Empty lines at the head of a text are whitespace before it. *)
Lemma join_blank_lines (n : nat) (x : string) (rest : list string) :
  exists p, blank p = true
            /\ Py.join nl (repeat EmptyString n ++ x :: rest)
               = p +:+ Py.join nl (x :: rest).
Proof.
  induction n as [|n (p & Hp & IH)].
  - exists EmptyString. split; reflexivity.
  - exists (String "010" p). split; [exact Hp|].
    cbn [repeat app].
    destruct (repeat EmptyString n ++ x :: rest) as [|y ys] eqn:Hl.
    + destruct n; discriminate Hl.
    + change (Py.join nl (EmptyString :: y :: ys))
        with (String "010" (Py.join nl (y :: ys))).
      rewrite IH. reflexivity.
Qed.

Lemma blank_app (a b : string) : blank (a +:+ b) = blank a && blank b.
Proof. apply all_chars_app. Qed.

Lemma append_assoc (a b c : string) : (a +:+ b) +:+ c = a +:+ (b +:+ c).
Proof. induction a as [|x a IH]; simpl; [reflexivity | now rewrite IH]. Qed.

Lemma render_spaced_head (n : nat) (e : entry) (l : list (nat * entry)) :
  render_spaced ((n, e) :: l)
  = repeat EmptyString n ++ render_spaced ((0%nat, e) :: l).
Proof.
  unfold render_spaced. cbn [flat_map fst snd repeat app]. now rewrite app_assoc.
Qed.

(** What the loop reads of a log, with whitespace around it, is the
    lines of its entries; the empty lines before the first entry are
    part of that whitespace. *)
Lemma log_lines_spaced (n : nat) (e : entry) (l : list (nat * entry))
  (pad1 pad2 : string) :
  Forall (fun e => plain_name (author e) = true) (entries ((n, e) :: l)) ->
  blank pad1 = true -> blank pad2 = true ->
  log_lines (pad1 +:+ (spaced_text ((n, e) :: l) +:+ pad2))
  = render_spaced ((0%nat, e) :: l).
Proof.
  intros Hall Hp1 Hp2.
  assert (Hall0 : Forall (fun e => plain_name (author e) = true)
                    (entries ((0%nat, e) :: l))) by exact Hall.
  destruct (render_spaced_lines _ Hall0) as [Hlines Hlast].
  destruct (Hlast ltac:(discriminate)) as (x & Hx & Hend).
  pose proof (ends_well_join _ _ Hx Hend) as [_ Hr].
  unfold entries in Hall. cbn [map snd] in Hall.
  inversion Hall as [|? ? He _]; subst.
  apply plain_name_spec in He as (c & r & Ha & Hc & _).
  unfold spaced_text, log_lines.
  rewrite (render_spaced_head n).
  assert (Hhead : exists rest, render_spaced ((0%nat, e) :: l) = String c r :: rest).
  { unfold render_spaced, render_entry. cbn [flat_map fst snd repeat app].
    rewrite Ha. eauto. }
  destruct Hhead as (rest & Hrest). rewrite Hrest in *.
  destruct (join_blank_lines n (String c r) rest) as (p & Hp & ->).
  rewrite append_assoc, <- (append_assoc pad1 p).
  rewrite strip_padded.
  - apply split_join; [discriminate | exact Hlines].
  - rewrite blank_app, Hp1, Hp. reflexivity.
  - exact Hp2.
  - destruct (join_head c r rest) as [t ->]. apply lstrip_keep, Hc.
  - exact Hr.
Qed.

(** A log without a count of one: every count is in the plural. *)
Lemma plural_counts_all (field : shortstat -> option N) (a : string) (es : list entry) :
  Forall (fun e => Forall (fun s => field s <> Some 1%N) (summary e)) es ->
  attributed (plural_counts_of field) a es = attributed (counts_of field) a es.
Proof.
  induction 1 as [|e es He Hes IH]; [reflexivity|].
  unfold attributed in *. cbn [flat_map]. rewrite IH. f_equal.
  destruct (decide (author e = a)); [|reflexivity].
  unfold plural_counts_of, counts_of. f_equal.
  induction He as [|s stats Hs Hstats IHs]; [reflexivity|].
  cbn [omap list_omap]. rewrite IHs. unfold plural_count.
  destruct (field s) as [k|]; [|reflexivity].
  destruct (N.eqb_spec k 1) as [->|]; [contradiction | reflexivity].
Qed.

(** The totals of a log as git prints it -- an author's name on a line
    of its own, below it the indented summary lines of the commit in
    git's wording, any number of empty lines before each commit,
    whitespace around the whole: the parser's dictionaries hold, for
    every author, the number of the author's lines and the sums of the
    insertions and of the deletions that are written in the plural; an
    author without any has no entry in [lines_added]
    ([lines_deleted]). *)
Theorem git_log_totals (l : list (nat * entry)) (pad1 pad2 : string) (a : string) :
  Forall (fun e => plain_name (author e) = true) (entries l) ->
  blank pad1 = true -> blank pad2 = true ->
  let cs := parse_log (pad1 +:+ (spaced_text l +:+ pad2)) in
  Py.get a (git_commits cs) = total (commits a (entries l))
  /\ Py.get (Some a) (lines_added cs) = total (added_plural a (entries l))
  /\ Py.get (Some a) (lines_deleted cs) = total (deleted_plural a (entries l)).
Proof.
  intros Hall Hp1 Hp2 cs. subst cs. unfold parse_log.
  destruct l as [|[n e] l].
  - unfold log_lines, spaced_text. simpl Py.join.
    rewrite strip_padded by (assumption || reflexivity).
    repeat split.
  - rewrite log_lines_spaced by assumption.
    destruct (entries_fold ((0%nat, e) :: l) empty_summary None
                (fun _ => []) (fun _ => []) (fun _ => []) Hall)
      as (cs' & cur' & -> & Hc & Ha & Hd); try (intros k; reflexivity).
    cbn [fst]. rewrite (Hc a), (Ha (Some a)), (Hd (Some a)).
    repeat split.
Qed.

Lemma git_log_totals_witness :
  let cs := parse_log (nl +:+ (spaced_text Scenario.with_merge +:+ nl)) in
  Py.get "Alice" (git_commits cs)
  = total (commits "Alice" (entries Scenario.with_merge))
  /\ Py.get (Some "Alice") (lines_added cs)
     = total (added_plural "Alice" (entries Scenario.with_merge))
  /\ Py.get (Some "Alice") (lines_deleted cs)
     = total (deleted_plural "Alice" (entries Scenario.with_merge)).
Proof.
  apply (git_log_totals Scenario.with_merge nl nl "Alice").
  - repeat constructor.
  - reflexivity.
  - reflexivity.
Defined.

(** The log of two authors, as text and as the parser reads it. *)
Example two_authors_text :
  text 1 Scenario.two_authors
  = Py.join nl
      ["Alice"; " 3 files changed, 10 insertions(+), 2 deletions(-)"; "";
       "Bob"; " 2 files changed, 5 insertions(+)"; "";
       "Alice"; " 4 files changed, 7 deletions(-)"].
Proof. reflexivity. Qed.

Example two_authors_parsed :
  parse_log (text 1 Scenario.two_authors)
  = {| git_commits := [("Alice", 2); ("Bob", 1)];
       lines_added := [(Some "Alice", 10); (Some "Bob", 5)];
       lines_deleted := [(Some "Alice", 9)] |}.
Proof. reflexivity. Qed.

Example two_authors_totals :
  total (commits "Alice" Scenario.two_authors) = Some 2
  /\ total (added "Alice" Scenario.two_authors) = Some 10
  /\ total (deleted "Alice" Scenario.two_authors) = Some 9
  /\ total (deleted "Bob" Scenario.two_authors) = None.
Proof. repeat split. Qed.

(** C5 at an input where it fails.  The log is one of two authors as
    git prints it: Alice's first commit adds one line and her second
    deletes one line, and git writes [1 insertion(+)] and
    [1 deletion(-)].  The insertions attributed to Alice are 1 + 10 and
    her deletions 2 + 1; the patterns ask for [insertions] and
    [deletions], so the parser files 10 and 2 under her name. *)
Theorem single_line_changes_not_summed :
  text 1 Scenario.single_lines
  = Py.join nl
      ["Alice"; " 1 file changed, 1 insertion(+), 2 deletions(-)"; "";
       "Bob"; " 2 files changed, 5 insertions(+)"; "";
       "Alice"; " 3 files changed, 10 insertions(+), 1 deletion(-)"]
  /\ total (added "Alice" Scenario.single_lines) = Some 11
  /\ Py.get (Some "Alice") (lines_added (parse_log (text 1 Scenario.single_lines)))
     = Some 10
  /\ total (deleted "Alice" Scenario.single_lines) = Some 3
  /\ Py.get (Some "Alice") (lines_deleted (parse_log (text 1 Scenario.single_lines)))
     = Some 2.
Proof. repeat split. Qed.

(** ** The summary returned *)

(** When the log command succeeds and the blame analysis returns, the
    three dictionaries returned are those of the parser on the output of
    the log command. *)
Lemma summary_is_parsed (w : World) (st st' : State) (start_year : Z)
  (end_year : option Z) (end_year' : pyval) (start_date end_date out err : string)
  (code : string * Py.dict string Z) :
  date_range (strftime_Y w) (strftime_Ymd w) start_year end_year
  = (end_year', start_date, end_date) ->
  respond w (trace st) (git_log_argv start_date end_date) = Exits 0 out err ->
  get_code_lines_contributed (Some end_date) w
    {| refs := refs st;
       trace := trace st ++ [git_log_argv start_date end_date];
       printed := printed st ++
                  [Py.str_of_Z start_year +:+ " " +:+ start_date +:+ " "
                   +:+ fstr end_year' +:+ " " +:+ end_date] |}
  = (Ok code, st') ->
  get_git_user_commit_summary start_year end_year w st
  = (Ok (parse_log out, code), st').
Proof.
  intros Hrange Hlog Hcode.
  unfold get_git_user_commit_summary, bind, now_Y, now_Ymd.
  rewrite Hrange. unfold run. rewrite Hlog.
  cbn [Z.eqb returncode stdout negb]. unfold print at 1.
  rewrite (git_effect_log start_date end_date). cbn [refs trace printed].
  rewrite Hcode. reflexivity.
Qed.

(** * Further properties of the script *)

(** ** The parser on any output *)

Lemma known_grows (gc : Py.dict string Z) (a : string) (v : Z) (k : option string) :
  known gc k -> known (Py.set a v gc) k.
Proof.
  unfold known. intros [b [Hk Hb]]. exists b. split; [exact Hk|].
  destruct Hb as [Hb|Hb]; [now left|]. right. apply keys_set. now right.
Qed.

Lemma parse_line_credited (st : commit_summary * option string) (line : string) :
  credited st -> credited (parse_line st line).
Proof.
  destruct st as [cs cur]. intros (Hcur & Ha & Hd & He). cbn [fst snd] in *.
  unfold parse_line. destruct (negb (Py.startswith " " line)).
  - destruct (Py.strip line) as [|c r] eqn:Hs; cbn [Py.truthy fst snd git_commits
      lines_added lines_deleted].
    + repeat split; auto. exists EmptyString. auto.
    + repeat split.
      * exists (String c r). split; [reflexivity|]. right. apply keys_set. now left.
      * intros k Hk. apply known_grows, Ha, Hk.
      * intros k Hk. apply known_grows, Hd, Hk.
      * intros [Heq|Hin]%keys_set; [discriminate | contradiction].
  - destruct (Py.search " insertions" line), (Py.search " deletions" line);
      cbn [fst snd git_commits lines_added lines_deleted];
      repeat split; auto;
      intros k [->|Hk]%keys_set; auto.
Qed.

Lemma fold_credited (lines : list string) (st : commit_summary * option string) :
  credited st -> credited (fold_left parse_line lines st).
Proof.
  revert st. induction lines as [|l lines IH]; intros st Hst; cbn [fold_left];
    [exact Hst | apply IH, parse_line_credited, Hst].
Qed.

(** Whatever the log command printed: every name under which insertions
    or deletions are recorded is the empty name or a name that also has
    a commit count, and the empty name never has a commit count. *)
Theorem counts_only_for_committers (out : string) (k : option string) :
  (k ∈ Py.keys (lines_added (parse_log out))
   \/ k ∈ Py.keys (lines_deleted (parse_log out)) ->
   exists a, k = Some a
             /\ (a = EmptyString \/ a ∈ Py.keys (git_commits (parse_log out))))
  /\ (EmptyString ∉ Py.keys (git_commits (parse_log out))).
Proof.
  destruct (first_line_not_indented out) as (first & rest & Hlines & Hfirst).
  assert (H : credited (fold_left parse_line (log_lines out) (empty_summary, None))).
  { rewrite Hlines. cbn [fold_left]. apply fold_credited.
    unfold parse_line. rewrite Hfirst. cbn [negb].
    destruct (Py.strip first) as [|c r] eqn:Hs;
      cbn [Py.truthy fst snd git_commits lines_added lines_deleted empty_summary].
    - repeat split.
      + exists EmptyString. auto.
      + intros k' []%elem_of_nil.
      + intros k' []%elem_of_nil.
      + apply not_elem_of_nil.
    - repeat split.
      + exists (String c r). split; [reflexivity|]. right. apply keys_set. now left.
      + intros k' []%elem_of_nil.
      + intros k' []%elem_of_nil.
      + intros [Heq|[]%elem_of_nil]%keys_set. discriminate. }
  destruct H as (_ & Ha & Hd & He). unfold parse_log.
  split; [|exact He]. intros [Hk|Hk]; [apply Ha, Hk | apply Hd, Hk].
Qed.

Lemma counts_only_for_committers_witness :
  (exists a, Some "Bob" = Some a
             /\ (a = EmptyString
                 \/ a ∈ Py.keys (git_commits (parse_log (text 1 Scenario.two_authors)))))
  /\ (EmptyString ∉ Py.keys (git_commits (parse_log (text 1 Scenario.two_authors)))).
Proof.
  split.
  - apply (proj1 (counts_only_for_committers (text 1 Scenario.two_authors) (Some "Bob"))).
    left. vm_compute. repeat constructor.
  - apply (proj2 (counts_only_for_committers (text 1 Scenario.two_authors) (Some "Bob"))).
Defined.

Section Values.
Context {K : Type} `{EqDecision K}.
Implicit Types (d : Py.dict K Z) (k : K).

Lemma sum_values_set k x d :
  sum_values (Py.set k (Py.get0 k d + x) d) = sum_values d + x.
Proof.
  unfold sum_values, Py.get0. induction d as [|[k' v'] d IH]; cbn [Py.set Py.get].
  - simpl. lia.
  - destruct (decide (k' = k)); simpl in *; lia.
Qed.

Lemma values_set (P : Z -> Prop) k v d :
  Forall P (map snd d) -> P v -> Forall P (map snd (Py.set k v d)).
Proof.
  intros Hd Hv. induction d as [|[k' v'] d IH]; cbn [Py.set].
  - repeat constructor. exact Hv.
  - simpl in Hd. apply Forall_cons in Hd as [Hv' Hd].
    destruct (decide (k' = k)); simpl; constructor; auto.
Qed.

Lemma get0_bound (lo : Z) k d :
  lo <= 0 -> Forall (fun v => lo <= v) (map snd d) -> lo <= Py.get0 k d.
Proof.
  intros Hlo Hd. unfold Py.get0. induction d as [|[k' v'] d IH]; cbn [Py.get].
  - exact Hlo.
  - simpl in Hd. apply Forall_cons in Hd as [Hv' Hd].
    destruct (decide (k' = k)); simpl; auto.
Qed.
End Values.

Lemma int_of_digits_nonneg (s : string) : 0 <= Py.int_of_digits s.
Proof. unfold Py.int_of_digits. destruct (NilEmpty.uint_of_string s); lia. Qed.

Lemma parse_line_sums (cs : commit_summary) (cur : option string) (line : string) :
  let cs' := fst (parse_line (cs, cur) line) in
  sum_values (git_commits cs')
  = sum_values (git_commits cs) + (if author_line line then 1 else 0)
  /\ sum_values (lines_added cs')
     = sum_values (lines_added cs) + captured " insertions" line
  /\ sum_values (lines_deleted cs')
     = sum_values (lines_deleted cs) + captured " deletions" line.
Proof.
  unfold parse_line, author_line, captured.
  destruct (Py.startswith " " line); cbn [negb andb].
  - destruct (Py.search " insertions" line), (Py.search " deletions" line);
      cbn [fst git_commits lines_added lines_deleted];
      rewrite ?sum_values_set; repeat split; lia.
  - destruct (Py.truthy (Py.strip line));
      cbn [fst git_commits lines_added lines_deleted];
      rewrite ?sum_values_set; repeat split; lia.
Qed.

Lemma fold_sums (lines : list string) (cs : commit_summary) (cur : option string) :
  let cs' := fst (fold_left parse_line lines (cs, cur)) in
  sum_values (git_commits cs')
  = sum_values (git_commits cs)
    + Z.of_nat (length (filter (fun l => author_line l = true) lines))
  /\ sum_values (lines_added cs')
     = sum_values (lines_added cs) + foldr Z.add 0 (map (captured " insertions") lines)
  /\ sum_values (lines_deleted cs')
     = sum_values (lines_deleted cs) + foldr Z.add 0 (map (captured " deletions") lines).
Proof.
  revert cs cur. induction lines as [|l lines IH]; intros cs cur; cbn [fold_left].
  - cbn. repeat split; lia.
  - destruct (parse_line (cs, cur) l) as [cs1 cur1] eqn:Hl.
    pose proof (parse_line_sums cs cur l) as (H1 & H2 & H3).
    rewrite Hl in H1, H2, H3. cbn [fst] in H1, H2, H3.
    destruct (IH cs1 cur1) as (I1 & I2 & I3).
    rewrite I1, I2, I3, H1, H2, H3, filter_cons. cbn [map foldr].
    destruct (author_line l); [rewrite decide_True by reflexivity
                              | rewrite decide_False by discriminate];
      cbn [length]; repeat split; lia.
Qed.

(** Whatever the log command printed, nothing is lost or invented in
    the three dictionaries: the commit counts add up to the number of
    lines that are neither indented nor blank, and the insertions
    (deletions) add up to what the pattern captures on the indented
    lines. *)
Theorem parse_log_conserves (out : string) :
  sum_values (git_commits (parse_log out))
  = Z.of_nat (length (filter (fun l => author_line l = true) (log_lines out)))
  /\ sum_values (lines_added (parse_log out))
     = foldr Z.add 0 (map (captured " insertions") (log_lines out))
  /\ sum_values (lines_deleted (parse_log out))
     = foldr Z.add 0 (map (captured " deletions") (log_lines out)).
Proof.
  unfold parse_log.
  destruct (fold_sums (log_lines out) empty_summary None) as (H1 & H2 & H3).
  rewrite H1, H2, H3. cbn. repeat split; lia.
Qed.

Lemma parse_line_bounds (cs : commit_summary) (cur : option string) (line : string) :
  Forall (fun v => 1 <= v) (map snd (git_commits cs)) ->
  Forall (fun v => 0 <= v) (map snd (lines_added cs)) ->
  Forall (fun v => 0 <= v) (map snd (lines_deleted cs)) ->
  let cs' := fst (parse_line (cs, cur) line) in
  Forall (fun v => 1 <= v) (map snd (git_commits cs'))
  /\ Forall (fun v => 0 <= v) (map snd (lines_added cs'))
  /\ Forall (fun v => 0 <= v) (map snd (lines_deleted cs')).
Proof.
  intros Hc Ha Hd. unfold parse_line.
  destruct (negb (Py.startswith " " line)).
  - destruct (Py.truthy (Py.strip line));
      cbn [fst git_commits lines_added lines_deleted]; repeat split; auto.
    apply values_set; [exact Hc|].
    pose proof (get0_bound 0 (Py.strip line) (git_commits cs) ltac:(lia)) as H0.
    assert (0 <= Py.get0 (Py.strip line) (git_commits cs)); [|lia].
    apply H0. eapply Forall_impl; [exact Hc|]. simpl. intros; lia.
  - destruct (Py.search " insertions" line) as [g1|],
             (Py.search " deletions" line) as [g2|];
      cbn [fst git_commits lines_added lines_deleted]; repeat split; auto;
      apply values_set; auto;
      match goal with |- 0 <= Py.get0 ?k ?d + Py.int_of_digits ?g =>
        pose proof (get0_bound 0 k d ltac:(lia) ltac:(assumption));
        pose proof (int_of_digits_nonneg g); lia
      end.
Qed.

(** Whatever the log command printed, every commit count is at least
    one and every count of insertions or deletions is at least zero: a
    chart never gets a negative share. *)
Theorem parse_log_counts_bounded (out : string) :
  Forall (fun v => 1 <= v) (map snd (git_commits (parse_log out)))
  /\ Forall (fun v => 0 <= v) (map snd (lines_added (parse_log out)))
  /\ Forall (fun v => 0 <= v) (map snd (lines_deleted (parse_log out))).
Proof.
  unfold parse_log. generalize (log_lines out) as lines. intros lines.
  assert (H : forall (st : commit_summary * option string),
             Forall (fun v => 1 <= v) (map snd (git_commits (fst st))) ->
             Forall (fun v => 0 <= v) (map snd (lines_added (fst st))) ->
             Forall (fun v => 0 <= v) (map snd (lines_deleted (fst st))) ->
             let cs' := fst (fold_left parse_line lines st) in
             Forall (fun v => 1 <= v) (map snd (git_commits cs'))
             /\ Forall (fun v => 0 <= v) (map snd (lines_added cs'))
             /\ Forall (fun v => 0 <= v) (map snd (lines_deleted cs'))).
  { induction lines as [|l lines IH]; intros st Hc Ha Hd; cbn [fold_left].
    - auto.
    - destruct st as [cs cur].
      destruct (parse_line_bounds cs cur l Hc Ha Hd) as (Hc' & Ha' & Hd').
      apply IH; assumption. }
  apply H; constructor.
Qed.

(** ** Failures while the revision is resolved and checked out *)

(** A failure of the status command or of the search of the revision
    is not fatal: the block prints [Error:] with what the command wrote
    to stderr and is left; nothing is checked out and the working-tree
    reference is as it was. *)
Theorem resolution_failure_logged (w : World) (st : State) (date : string)
  (code : Z) (out err : string) :
  code <> 0 ->
  (respond w (trace st) status_argv = Exits code out err ->
   checkout_before date w st
   = (Ok tt,
      {| refs := refs st;
         trace := trace st ++ [status_argv];
         printed := printed st ++ ["Error: " +:+ err] |}))
  /\ (forall out_s err_s,
         respond w (trace st) status_argv = Exits 0 out_s err_s ->
         Py.truthy (Py.strip out_s) = false ->
         respond w (trace st ++ [status_argv]) (rev_list_argv date)
         = Exits code out err ->
         checkout_before date w st
         = (Ok tt,
            {| refs := refs st;
               trace := (trace st ++ [status_argv]) ++ [rev_list_argv date];
               printed := printed st ++ ["Error: " +:+ err] |})).
Proof.
  intros Hcode%Z.eqb_neq. split.
  - intros Hs. unfold checkout_before, try_except, bind, run.
    rewrite Hs, Hcode. reflexivity.
  - intros out_s err_s Hs Hclean Hr.
    unfold checkout_before, try_except, bind, run.
    rewrite Hs. cbn [Z.eqb stdout]. rewrite Hclean. cbn [ret raise trace refs printed].
    rewrite Hr, Hcode. reflexivity.
Qed.

Lemma resolution_failure_logged_witness :
  checkout_before "2022-12-31" Cases.status_fails Scenario.on_main
  = (Ok tt,
     {| refs := refs Scenario.on_main;
        trace := trace Scenario.on_main ++ [status_argv];
        printed := printed Scenario.on_main
                   ++ ["Error: " +:+ "fatal: not a git repository"] |})
  /\ checkout_before "2022-12-31" Cases.rev_list_fails Scenario.on_main
     = (Ok tt,
        {| refs := refs Scenario.on_main;
           trace := (trace Scenario.on_main ++ [status_argv])
                    ++ [rev_list_argv "2022-12-31"];
           printed := printed Scenario.on_main
                      ++ ["Error: " +:+ "fatal: bad revision 'HEAD'"] |}).
Proof.
  split.
  - apply (proj1 (resolution_failure_logged Cases.status_fails Scenario.on_main
                    "2022-12-31" 128 EmptyString "fatal: not a git repository"
                    ltac:(lia))).
    reflexivity.
  - apply (proj2 (resolution_failure_logged Cases.rev_list_fails Scenario.on_main
                    "2022-12-31" 128 EmptyString "fatal: bad revision 'HEAD'"
                    ltac:(lia)) EmptyString EmptyString); reflexivity.
Defined.

(** A checkout that fails is not fatal either, and its reason is lost:
    the command is run without capturing stderr, so the line printed is
    [Error: None].  The working tree stays where it was. *)
Theorem checkout_failure_unreported (w : World) (st : State) (date h : string)
  (code : Z) (out_s err_s out_r err_r out_c err_c : string) :
  respond w (trace st) status_argv = Exits 0 out_s err_s ->
  Py.truthy (Py.strip out_s) = false ->
  respond w (trace st ++ [status_argv]) (rev_list_argv date) = Exits 0 out_r err_r ->
  Py.strip out_r = h ->
  Py.truthy h = true ->
  respond w ((trace st ++ [status_argv]) ++ [rev_list_argv date]) (checkout_argv h)
  = Exits code out_c err_c ->
  code <> 0 ->
  checkout_before date w st
  = (Ok tt,
     {| refs := refs st;
        trace := ((trace st ++ [status_argv]) ++ [rev_list_argv date])
                 ++ [checkout_argv h];
        printed := (printed st ++ ["Commit found: " +:+ h]) ++ ["Error: None"] |}).
Proof.
  intros Hs Hclean Hr Hh Hfound Hc Hcode%Z.eqb_neq.
  unfold checkout_before, try_except, bind, run.
  rewrite Hs. cbn [Z.eqb stdout]. rewrite Hclean. cbn [ret raise trace refs printed].
  rewrite Hr. cbn [Z.eqb stdout]. rewrite Hh, Hfound.
  unfold print at 1. cbn [trace refs printed].
  rewrite Hc, Hcode. reflexivity.
Qed.

Lemma checkout_failure_unreported_witness :
  checkout_before "2022-12-31" Cases.checkout_fails Scenario.on_main
  = (Ok tt,
     {| refs := refs Scenario.on_main;
        trace := ((trace Scenario.on_main ++ [status_argv])
                  ++ [rev_list_argv "2022-12-31"]) ++ [checkout_argv "abc123"];
        printed := (printed Scenario.on_main ++ ["Commit found: " +:+ "abc123"])
                   ++ ["Error: None"] |}).
Proof.
  apply (checkout_failure_unreported Cases.checkout_fails Scenario.on_main
           "2022-12-31" "abc123" 1 EmptyString EmptyString "abc123" EmptyString
           EmptyString
           "error: The following untracked working tree files would be overwritten by checkout");
    try reflexivity. lia.
Defined.

(** ** A date that cannot be read *)

(** The checkout block when everything succeeds. *)
Lemma checkout_before_done (w : World) (st : State) (date h : string)
  (out_s err_s out_r err_r out_c err_c : string) :
  respond w (trace st) status_argv = Exits 0 out_s err_s ->
  Py.truthy (Py.strip out_s) = false ->
  respond w (trace st ++ [status_argv]) (rev_list_argv date) = Exits 0 out_r err_r ->
  Py.strip out_r = h ->
  Py.truthy h = true ->
  h <> "-" ->
  respond w ((trace st ++ [status_argv]) ++ [rev_list_argv date]) (checkout_argv h)
  = Exits 0 out_c err_c ->
  checkout_before date w st
  = (Ok tt,
     {| refs := {| HEAD := h; previous := Some (HEAD (refs st)) |};
        trace := ((trace st ++ [status_argv]) ++ [rev_list_argv date])
                 ++ [checkout_argv h];
        printed := (printed st ++ ["Commit found: " +:+ h])
                   ++ ["Checked out commit: " +:+ h] |}).
Proof.
  intros Hs Hclean Hr Hh Hfound Hdash%String.eqb_neq Hc.
  unfold checkout_before, try_except, bind, run.
  rewrite Hs. cbn [Z.eqb stdout]. rewrite Hclean. cbn [ret raise trace refs printed].
  rewrite Hr. cbn [Z.eqb stdout]. rewrite Hh, Hfound.
  unfold print at 1. cbn [trace refs printed].
  rewrite Hc. cbn [Z.eqb]. unfold print, git_effect, checkout_argv.
  rewrite Hdash. reflexivity.
Qed.

(** The date is parsed after the checkout and outside any handler: when
    [date_to_check] asks for a checkout and is not a date that
    [strptime] reads, the function raises [ValueError] with the working
    tree left on the commit it checked out; no file is blamed and the
    way back is not taken. *)
Theorem unreadable_date_leaves_checkout (w : World) (st : State) (date h : string)
  (out_s err_s out_r err_r out_c err_c : string) :
  check_out_needed (strftime_Y w) date = true ->
  Datetime.strptime date = None ->
  respond w (trace st) status_argv = Exits 0 out_s err_s ->
  Py.truthy (Py.strip out_s) = false ->
  respond w (trace st ++ [status_argv]) (rev_list_argv date) = Exits 0 out_r err_r ->
  Py.strip out_r = h ->
  Py.truthy h = true ->
  h <> "-" ->
  respond w ((trace st ++ [status_argv]) ++ [rev_list_argv date]) (checkout_argv h)
  = Exits 0 out_c err_c ->
  get_code_lines_contributed (Some date) w st
  = (Raised (ValueError "time data does not match format '%Y-%m-%d'"),
     {| refs := {| HEAD := h; previous := Some (HEAD (refs st)) |};
        trace := ((trace st ++ [status_argv]) ++ [rev_list_argv date])
                 ++ [checkout_argv h];
        printed := (printed st ++ ["Commit found: " +:+ h])
                   ++ ["Checked out commit: " +:+ h] |}).
Proof.
  intros Hflag Hdate Hs Hclean Hr Hh Hfound Hdash Hc.
  unfold get_code_lines_contributed, bind at 1, now_Y.
  unfold bind at 1, ret at 1. rewrite Hflag. unfold bind at 1.
  rewrite (checkout_before_done w st date h _ _ _ _ _ _ Hs Hclean Hr Hh Hfound Hdash Hc).
  unfold blame_analysis. rewrite Hdate.
  destruct (Datetime.strptime date_julia_begin); reflexivity.
Qed.

Lemma unreadable_date_leaves_checkout_witness :
  get_code_lines_contributed (Some "12345-12-31") Cases.five_digit_year Scenario.on_main
  = (Raised (ValueError "time data does not match format '%Y-%m-%d'"),
     {| refs := {| HEAD := "abc123"; previous := Some (HEAD (refs Scenario.on_main)) |};
        trace := ((trace Scenario.on_main ++ [status_argv])
                  ++ [rev_list_argv "12345-12-31"]) ++ [checkout_argv "abc123"];
        printed := (printed Scenario.on_main ++ ["Commit found: " +:+ "abc123"])
                   ++ ["Checked out commit: " +:+ "abc123"] |}).
Proof.
  apply (unreadable_date_leaves_checkout Cases.five_digit_year Scenario.on_main
           "12345-12-31" "abc123" EmptyString EmptyString "abc123" EmptyString
           EmptyString EmptyString); try reflexivity.
  discriminate.
Defined.

(** ** The commands the function issues *)

Lemma checkout_before_shape (date : string) (w : World) (st : State) :
  exists pre,
    trace (snd (checkout_before date w st)) = trace st ++ pre
    /\ checkout_prefix w st date pre.
Proof.
  unfold checkout_before, try_except, bind, run, checkout_prefix.
  destruct (respond w (trace st) status_argv) as [c1 o1 e1|m1].
  2:{ exists [status_argv]. cbn. auto. }
  destruct (c1 =? 0).
  2:{ exists [status_argv]. cbn. auto. }
  cbn [stdout fst snd]. destruct (Py.truthy (Py.strip o1)).
  { exists [status_argv]. cbn. auto. }
  cbn [ret raise trace refs printed].
  destruct (respond w (trace st ++ [status_argv]) (rev_list_argv date))
    as [c2 o2 e2|m2] eqn:Hr.
  2:{ exists [status_argv; rev_list_argv date]. cbn. rewrite <- app_assoc. auto. }
  destruct (c2 =? 0) eqn:Hc2.
  2:{ exists [status_argv; rev_list_argv date]. cbn. rewrite <- app_assoc. auto. }
  apply Z.eqb_eq in Hc2. subst c2.
  cbn [stdout]. destruct (Py.truthy (Py.strip o2)).
  2:{ exists [status_argv; rev_list_argv date]. cbn. rewrite <- app_assoc. auto. }
  exists [status_argv; rev_list_argv date; checkout_argv (Py.strip o2)].
  split; [|right; right; right; eauto].
  unfold print at 1. cbn [trace refs printed].
  destruct (respond w _ (checkout_argv (Py.strip o2))) as [c3 o3 e3|m3];
    [destruct (c3 =? 0)|]; cbn; rewrite <- !app_assoc; reflexivity.
Qed.

Lemma blame_analysis_shape (check_out : bool) (date : string) (w : World) (st : State) :
  exists ps post,
    trace (snd (blame_analysis check_out date w st))
    = trace st ++ map blame_argv ps ++ post
    /\ way_back post.
Proof.
  unfold blame_analysis, way_back.
  destruct (Datetime.strptime date_julia_begin) as [jb|];
    [|exists [], []; cbn; rewrite app_nil_r; auto].
  destruct (Datetime.strptime date) as [dc|];
    [|exists [], []; cbn; rewrite app_nil_r; auto].
  destruct (Datetime.before dc jb);
    unfold bind at 1; unfold print at 1; unfold bind at 1;
    match goal with |- context [foldM ?f ?dirs ?c w ?s] =>
      destruct (blame_directories_run dirs c w s) as (c1 & st1 & -> & _ & ps & ls & Ht & _)
    end;
    cbn [trace] in Ht; exists ps; destruct check_out; unfold bind, run, ret;
    try (exists []; cbn; rewrite Ht, app_nil_r; auto; fail);
    exists [checkout_argv "-"];
    (destruct (respond w (trace st1) (checkout_argv "-")) as [c o e|m];
     [destruct (c =? 0)|]); cbn; rewrite Ht, <- app_assoc; auto.
Qed.

(** Whatever git answers, the commands the function issues are, in this
    order: the status, the search of the revision before the date, the
    checkout of the revision that this search printed (each only after
    the one before it), then blames of files, then at most the way
    back.  It never stashes, resets, commits or checks out anything
    else. *)
Theorem commands_issued (w : World) (st : State) (d : option string) :
  let date := default (strftime_Ymd w) d in
  exists pre ps post,
    trace (snd (get_code_lines_contributed d w st))
    = trace st ++ pre ++ map blame_argv ps ++ post
    /\ checkout_prefix w st date pre
    /\ way_back post.
Proof.
  intros date.
  unfold get_code_lines_contributed, bind at 1, now_Y.
  assert (Hd : (match d with Some d0 => ret d0 | None => now_Ymd end) w st
               = (Ok date, st)) by (subst date; destruct d; reflexivity).
  unfold bind at 1. rewrite Hd.
  destruct (check_out_needed (strftime_Y w) date).
  - unfold bind at 1.
    destruct (checkout_before_shape date w st) as (pre & Hpre & Hshape).
    destruct (checkout_before date w st) as [[[]|e] st1]; cbn [snd] in Hpre.
    + destruct (blame_analysis_shape true date w st1) as (ps & post & Ht & Hpost).
      exists pre, ps, post. rewrite Ht, Hpre, <- app_assoc. auto.
    + exists pre, [], []. cbn. rewrite app_nil_r. unfold way_back. auto.
  - unfold bind at 1, ret at 1.
    destruct (blame_analysis_shape false date w st) as (ps & post & Ht & Hpost).
    exists [], ps, post. split; [exact Ht|]. split; [now left | exact Hpost].
Qed.

(** ** Summaries that end in the current year *)

Lemma str_of_Z_of_N (n : N) : Py.str_of_Z (Z.of_N n) = Py.str_of_N n.
Proof. destruct n; reflexivity. Qed.

Lemma strftime_Y_year (w : World) : strftime_Y w = Py.str_of_N (clock_year w).
Proof. unfold strftime_Y, clock_year. destruct (today w) as [[y m] d]. reflexivity. Qed.

Lemma no_dash_digits (s : string) :
  Py.all_chars Py.isdigit s = true ->
  Py.all_chars (fun a => negb (Ascii.eqb a "-")) s = true.
Proof. apply all_chars_impl. intros c. now apply isdigit_not. Qed.

Lemma check_out_same_year (y : N) (rest : string) :
  check_out_needed (Py.str_of_N y) (Py.str_of_N y +:+ String "-" rest) = false.
Proof.
  unfold check_out_needed.
  rewrite split_char_first by apply no_dash_digits, digits_str_of_N.
  cbn [hd]. rewrite String.eqb_refl. reflexivity.
Qed.

(** The end date of a summary whose end year is left out or is the
    current year lies in the current year. *)
Lemma end_date_in_current_year (w : World) (start_year : Z) (end_year : option Z) :
  end_year = None \/ end_year = Some (Z.of_N (clock_year w)) ->
  check_out_needed (strftime_Y w)
    (snd (date_range (strftime_Y w) (strftime_Ymd w) start_year end_year)) = false.
Proof.
  intros Hey. unfold date_range. rewrite strftime_Y_year.
  destruct Hey as [->| ->].
  - cbn [eq_int andb fstr snd]. apply (check_out_same_year _ "12-31").
  - cbn [eq_int fstr]. rewrite int_of_str_of_N, Z.eqb_refl.
    destruct (Z.of_N (clock_year w) =? 2021) eqn:Hy; cbn [andb].
    + apply Z.eqb_eq in Hy.
      assert (Hn : clock_year w = 2021%N) by lia. rewrite Hn.
      destruct (negb (start_year =? 2021)); cbn [snd].
      * reflexivity.
      * rewrite <- Hn, <- strftime_Y_year. apply today_needs_no_checkout.
    + cbn [snd]. rewrite <- strftime_Y_year. apply today_needs_no_checkout.
Qed.

(** A summary whose end year is left out, or is the current year, never
    touches the working tree: the only commands issued are the log and
    blames of files, and the working-tree reference is as it was. *)
Theorem current_year_summary_in_place (w : World) (st : State) (start_year : Z)
  (end_year : option Z) :
  end_year = None \/ end_year = Some (Z.of_N (clock_year w)) ->
  let st' := snd (get_git_user_commit_summary start_year end_year w st) in
  refs st' = refs st
  /\ exists since until ps,
       trace st' = trace st ++ git_log_argv since until :: map blame_argv ps.
Proof.
  intros Hey st'. subst st'.
  pose proof (end_date_in_current_year w start_year end_year Hey) as Hflag.
  assert (H : exists r st',
             get_git_user_commit_summary start_year end_year w st = (r, st')
             /\ refs st' = refs st
             /\ exists since until ps,
                  trace st' = trace st ++ git_log_argv since until :: map blame_argv ps).
  { unfold get_git_user_commit_summary, bind at 1, now_Y.
    unfold bind at 1, now_Ymd.
    destruct (date_range (strftime_Y w) (strftime_Ymd w) start_year end_year)
      as [[ey' sd] ed]. cbn [snd] in Hflag. cbv beta iota.
    unfold bind at 1, run.
    destruct (respond w (trace st) (git_log_argv sd ed)) as [code out err|msg].
    2:{ eexists _, _. split; [reflexivity|]. cbn [refs trace].
        split; [reflexivity|]. exists sd, ed, []. reflexivity. }
    destruct (code =? 0) eqn:Hc.
    2:{ cbn [returncode]. rewrite Hc. cbn [negb]. unfold raise.
        eexists _, _. split; [reflexivity|]. cbn [refs trace].
        split; [reflexivity|]. exists sd, ed, []. reflexivity. }
    cbn [returncode]. rewrite Hc. cbn [negb].
    unfold bind at 1, print at 1. rewrite (git_effect_log sd ed).
    cbn [refs trace printed]. unfold bind at 1.
    unfold get_code_lines_contributed, bind at 1, now_Y.
    unfold bind at 1, ret at 1. rewrite Hflag. unfold bind at 1, ret at 1.
    match goal with |- context [blame_analysis false ed w ?s] =>
      pose proof (blame_analysis_in_place ed w s) as (Hr & ps & ls & Ht & _);
      destruct (blame_analysis false ed w s) as [[r|e] st2]
    end; cbn [snd refs trace] in *;
      eexists _, _; (split; [reflexivity|]); (split; [exact Hr|]);
      exists sd, ed, ps; rewrite Ht, <- app_assoc; reflexivity. }
  destruct H as (r & st' & -> & Hr & Ht). split; assumption.
Qed.

Lemma current_year_summary_in_place_witness :
  refs (snd (get_git_user_commit_summary 2014 (Some 2026)
               (Scenario.two_files 128) Scenario.on_main))
  = refs Scenario.on_main
  /\ exists since until ps,
       trace (snd (get_git_user_commit_summary 2014 (Some 2026)
                     (Scenario.two_files 128) Scenario.on_main))
       = trace Scenario.on_main ++ git_log_argv since until :: map blame_argv ps.
Proof.
  apply (current_year_summary_in_place (Scenario.two_files 128) Scenario.on_main
           2014 (Some 2026)).
  right. reflexivity.
Defined.

(** A summary that ends in another year needs the checkout, and with
    uncommitted changes in the tree the whole summary is lost: the log
    was run and parsed, but the function raises the [RuntimeError] of
    the line count and returns nothing. *)
Theorem dirty_tree_aborts_summary (w : World) (st : State) (start_year : Z)
  (end_year : option Z) (end_year' : pyval)
  (start_date end_date out err out_s err_s : string) :
  date_range (strftime_Y w) (strftime_Ymd w) start_year end_year
  = (end_year', start_date, end_date) ->
  check_out_needed (strftime_Y w) end_date = true ->
  respond w (trace st) (git_log_argv start_date end_date) = Exits 0 out err ->
  respond w (trace st ++ [git_log_argv start_date end_date]) status_argv
  = Exits 0 out_s err_s ->
  Py.truthy (Py.strip out_s) = true ->
  get_git_user_commit_summary start_year end_year w st
  = (Raised (RuntimeError uncommitted_changes_msg),
     {| refs := refs st;
        trace := (trace st ++ [git_log_argv start_date end_date]) ++ [status_argv];
        printed := printed st ++
                   [Py.str_of_Z start_year +:+ " " +:+ start_date +:+ " "
                    +:+ fstr end_year' +:+ " " +:+ end_date] |}).
Proof.
  intros Hrange Hflag Hlog Hs Hdirty.
  unfold get_git_user_commit_summary, bind at 1, now_Y.
  unfold bind at 1, now_Ymd. rewrite Hrange. cbv beta iota.
  unfold bind at 1, run. rewrite Hlog.
  cbn [Z.eqb returncode negb]. unfold bind at 1, print at 1.
  rewrite (git_effect_log start_date end_date). cbn [refs trace printed].
  unfold bind at 1.
  unfold get_code_lines_contributed, bind at 1, now_Y.
  unfold bind at 1, ret at 1. rewrite Hflag. unfold bind at 1.
  unfold checkout_before, try_except, bind, run. cbn [trace refs printed].
  rewrite Hs. cbn [Z.eqb stdout]. rewrite Hdirty. reflexivity.
Qed.

Lemma dirty_tree_aborts_summary_witness :
  get_git_user_commit_summary 2014 (Some 2021) Scenario.dirty Scenario.on_main
  = (Raised (RuntimeError uncommitted_changes_msg),
     {| refs := refs Scenario.on_main;
        trace := (trace Scenario.on_main ++ [git_log_argv "2014-01-01" "2021-11-24"])
                 ++ [status_argv];
        printed := printed Scenario.on_main ++
                   [Py.str_of_Z 2014 +:+ " " +:+ "2014-01-01" +:+ " "
                    +:+ fstr (PInt 2021) +:+ " " +:+ "2021-11-24"] |}).
Proof.
  apply (dirty_tree_aborts_summary Scenario.dirty Scenario.on_main 2014 (Some 2021)
           (PInt 2021) "2014-01-01" "2021-11-24" EmptyString EmptyString
           " M src/a.jl" EmptyString); reflexivity.
Defined.

(** ** Called without a date *)

Lemma range_forall (P : N -> bool) (lo len : N) :
  forallb (fun k => P (N.of_nat k)) (seq (N.to_nat lo) (N.to_nat len)) = true ->
  forall n : N, (lo <= n < lo + len)%N -> P n = true.
Proof.
  intros Hall n Hn. rewrite forallb_forall in Hall.
  rewrite <- (N2Nat.id n). apply Hall, in_seq. lia.
Qed.

Lemma year_four_digits (y : N) :
  (1000 <= y <= 9999)%N -> String.length (Py.str_of_N y) = 4%nat.
Proof.
  intros Hy. apply Nat.eqb_eq.
  apply (range_forall (fun y => String.length (Py.str_of_N y) =? 4)%nat
           1000%N 9000%N); [vm_compute; reflexivity | lia].
Qed.

Lemma parse_Y_year (y : N) :
  (1000 <= y <= 9999)%N -> Datetime.parse_Y (Py.str_of_N y) = Some (Z.of_N y).
Proof.
  intros Hy. unfold Datetime.parse_Y, Datetime.all_digits.
  rewrite digits_str_of_N, (year_four_digits y Hy), int_of_str_of_N. reflexivity.
Qed.

Lemma parse_m_pad2 (m : N) :
  (1 <= m <= 12)%N -> Datetime.parse_m (Datetime.pad2 m) = Some (Z.of_N m).
Proof.
  intros Hm.
  pose proof (range_forall
    (fun m => match Datetime.parse_m (Datetime.pad2 m) with
              | Some z => z =? Z.of_N m
              | None => false
              end) 1 12 ltac:(vm_compute; reflexivity) m ltac:(lia)) as H.
  cbv beta in H. destruct (Datetime.parse_m (Datetime.pad2 m)); [|discriminate].
  apply Z.eqb_eq in H. now subst.
Qed.

Lemma parse_d_pad2 (d : N) :
  (1 <= d <= 31)%N -> Datetime.parse_d (Datetime.pad2 d) = Some (Z.of_N d).
Proof.
  intros Hd.
  pose proof (range_forall
    (fun d => match Datetime.parse_d (Datetime.pad2 d) with
              | Some z => z =? Z.of_N d
              | None => false
              end) 1 31 ltac:(vm_compute; reflexivity) d ltac:(lia)) as H.
  cbv beta in H. destruct (Datetime.parse_d (Datetime.pad2 d)); [|discriminate].
  apply Z.eqb_eq in H. now subst.
Qed.

Lemma digits_pad2 (n : N) : Py.all_chars Py.isdigit (Datetime.pad2 n) = true.
Proof.
  unfold Datetime.pad2. destruct (n <? 10)%N; cbn [Py.all_chars];
    rewrite digits_str_of_N; reflexivity.
Qed.

Lemma split_char_absent (c : ascii) (s : string) :
  Py.all_chars (fun a => negb (Ascii.eqb a c)) s = true -> Py.split_char c s = [s].
Proof.
  induction s as [|a s IH]; cbn [Py.all_chars Py.split_char]; [reflexivity|].
  intros [Ha Hs]%andb_prop. rewrite (IH Hs).
  destruct (Ascii.eqb a c); [discriminate | reflexivity].
Qed.

Lemma days_in_month_le (y m : Z) : Datetime.days_in_month y m <= 31.
Proof.
  unfold Datetime.days_in_month.
  destruct (m =? 2); [destruct (Datetime.is_leap y); lia|].
  destruct ((m =? 4) || (m =? 6) || (m =? 9) || (m =? 11)); lia.
Qed.

(** What [strftime] writes for a day of the calendar, [strptime] reads
    back as that day. *)
Lemma strptime_strftime (w : World) :
  valid_clock (today w) = true ->
  Datetime.strptime (strftime_Ymd w) = Some (clock_date (today w)).
Proof.
  unfold valid_clock, strftime_Ymd, clock_date.
  destruct (today w) as [[y m] d].
  intros [[[[[Hy1 Hy2]%andb_prop Hm1]%andb_prop Hm2]%andb_prop Hd1]%andb_prop Hd2]%andb_prop.
  apply N.leb_le in Hy1, Hy2, Hm1, Hm2, Hd1. apply Z.leb_le in Hd2.
  pose proof (days_in_month_le (Z.of_N y) (Z.of_N m)) as H31.
  unfold Datetime.strptime.
  change (Py.str_of_N y +:+ "-" +:+ Datetime.pad2 m +:+ "-" +:+ Datetime.pad2 d)
    with (Py.str_of_N y +:+ String "-" (Datetime.pad2 m +:+ String "-" (Datetime.pad2 d))).
  rewrite split_char_first by apply no_dash_digits, digits_str_of_N.
  rewrite split_char_first by apply no_dash_digits, digits_pad2.
  rewrite split_char_absent by apply no_dash_digits, digits_pad2.
  rewrite parse_Y_year by lia. rewrite parse_m_pad2 by lia. rewrite parse_d_pad2 by lia.
  assert (H1 : (1 <=? Z.of_N y) = true) by (apply Z.leb_le; lia).
  rewrite H1. apply Z.leb_le in Hd2. rewrite Hd2. reflexivity.
Qed.

(** Called without a date on a day of the calendar (years 1000 to
    9999), the function returns: it labels the tally with the version of
    the day and the day itself, issues nothing but blames and leaves the
    working-tree reference alone. *)
Theorem analysis_of_today (w : World) (st : State) :
  valid_clock (today w) = true ->
  exists counts st',
    get_code_lines_contributed None w st
    = (Ok (code_version_on (clock_date (today w)) +:+ "@" +:+ strftime_Ymd w, counts),
       st')
    /\ only_blames st st'.
Proof.
  intros Hclock.
  unfold get_code_lines_contributed, bind at 1, now_Y.
  unfold bind at 1, now_Ymd. rewrite today_needs_no_checkout.
  unfold bind at 1, ret at 1.
  pose proof (blame_analysis_in_place (strftime_Ymd w) w st) as Hin.
  unfold blame_analysis in *. rewrite (strptime_strftime w Hclock) in *.
  change (Datetime.strptime date_julia_begin) with (Some (2021, 11, 25)) in *.
  cbv beta iota in *. unfold code_version_on.
  destruct (Datetime.before (clock_date (today w)) (2021, 11, 25));
    cbv beta iota in *;
    unfold bind at 1 in Hin; unfold print at 1 in Hin; unfold bind at 1 in Hin;
    unfold bind at 1; unfold print at 1; unfold bind at 1;
    match goal with |- context [foldM ?f ?dirs ?c w ?s] =>
      destruct (blame_directories_run dirs c w s) as (c1 & st1 & Hrun & _);
      rewrite Hrun in *
    end;
    unfold bind, ret in *; cbn [snd] in Hin; eauto.
Qed.

Lemma analysis_of_today_witness :
  exists counts st',
    get_code_lines_contributed None (Scenario.two_files 128) Scenario.on_main
    = (Ok (code_version_on (clock_date (today (Scenario.two_files 128)))
           +:+ "@" +:+ strftime_Ymd (Scenario.two_files 128), counts),
       st')
    /\ only_blames Scenario.on_main st'.
Proof.
  apply (analysis_of_today (Scenario.two_files 128) Scenario.on_main).
  reflexivity.
Defined.

(** ** The tally of the blames *)

Lemma get0_set {K} `{EqDecision K} (k k' : K) (v : Z) (d : Py.dict K Z) :
  Py.get0 k' (Py.set k v d) = if decide (k = k') then v else Py.get0 k' d.
Proof. unfold Py.get0. rewrite get_set. destruct (decide (k = k')); reflexivity. Qed.

Lemma count_author_get0 (a : string) (d : Py.dict string Z) (line : string) :
  Py.get0 a (count_author d line)
  = Py.get0 a d + (if blamed a line then 1 else 0).
Proof.
  unfold count_author, blamed. fold (author_of line).
  destruct (Py.startswith "author " line); cbn [andb]; [|lia].
  rewrite get0_set.
  destruct (decide (author_of line = a)) as [->|Hne].
  - rewrite String.eqb_refl. reflexivity.
  - apply String.eqb_neq in Hne. rewrite Hne. lia.
Qed.

Lemma count_authors_get0 (a : string) (lines : list string) (d : Py.dict string Z) :
  Py.get0 a (fold_left count_author lines d)
  = Py.get0 a d + Z.of_nat (length (filter (fun l => blamed a l = true) lines)).
Proof.
  revert d. induction lines as [|l lines IH]; intros d; cbn [fold_left].
  - cbn. lia.
  - rewrite IH, count_author_get0, filter_cons.
    destruct (blamed a l); [rewrite decide_True by reflexivity
                           | rewrite decide_False by discriminate];
      cbn [length]; lia.
Qed.

Lemma count_blame_get0 (out : string) (d : Py.dict string Z) (a : string) :
  Py.get0 a (count_blame out d) = Py.get0 a d + blamed_lines a out.
Proof. unfold count_blame, blamed_lines. apply count_authors_get0. Qed.

(** Whatever a blame printed, the tally of every author grows by the
    number of lines of the output that start with [author ] and name
    that author; all other lines (mail, time, summary, the code itself)
    count for nothing. *)
Theorem count_blame_tally (out : string) (d : Py.dict string Z) (a : string) :
  Py.get0 a (count_blame out d) = Py.get0 a d + blamed_lines a out.
Proof. apply count_blame_get0. Qed.

Lemma split_go_absent (sep s cur : string) :
  contains sep s = false -> Py.split_go sep s O cur = [String.rev_app cur s].
Proof.
  revert cur. induction s as [|c s IH]; intros cur; cbn [contains Py.split_go].
  - intros _. reflexivity.
  - intros [Hp Hs]%orb_false_elim. rewrite Hp. rewrite (IH _ Hs). reflexivity.
Qed.

Lemma split_go_skip (sep t s cur : string) :
  Py.split_go sep (t +:+ s) (String.length t) cur = Py.split_go sep s O cur.
Proof.
  induction t as [|c t IH]; [reflexivity|].
  change (String c t +:+ s) with (String c (t +:+ s)).
  cbn [String.length Py.split_go]. exact IH.
Qed.

Lemma prefix_app (p s : string) : String.prefix p (p +:+ s) = true.
Proof.
  induction p as [|c p IH]; [apply prefix_nil|].
  change (String c p +:+ s) with (String c (p +:+ s)).
  rewrite prefix_cons, Ascii.eqb_refl. exact IH.
Qed.

Lemma author_of_plain (name : string) :
  contains "author " name = false -> author_of ("author " +:+ name) = Py.strip name.
Proof.
  intros Hname. unfold author_of, Py.split.
  change ("author " +:+ name) with (String "a" ("uthor " +:+ name)).
  cbn [Py.split_go].
  change (String "a" ("uthor " +:+ name)) with ("author " +:+ name).
  rewrite prefix_app.
  change (String.length "author " - 1)%nat with (String.length "uthor ").
  rewrite split_go_skip, (split_go_absent _ _ _ Hname). reflexivity.
Qed.

(** The name of an author line is what follows [author ], stripped, as
    long as the name does not itself contain [author ]: the line then
    adds one to the count of that name and changes nothing else. *)
Theorem author_line_counted (name : string) (d : Py.dict string Z) :
  contains "author " name = false ->
  count_author d ("author " +:+ name)
  = Py.set (Py.strip name) (Py.get0 (Py.strip name) d + 1) d.
Proof.
  intros Hname. unfold count_author. fold (author_of ("author " +:+ name)).
  unfold Py.startswith. rewrite prefix_app, (author_of_plain name Hname).
  reflexivity.
Qed.

Lemma author_line_counted_witness :
  count_author [("Bob", 4)] ("author " +:+ "Ann Lee ")
  = Py.set (Py.strip "Ann Lee ") (Py.get0 (Py.strip "Ann Lee ") [("Bob", 4)] + 1)
           [("Bob", 4)].
Proof. apply (author_line_counted "Ann Lee " [("Bob", 4)]). reflexivity. Defined.

(** A name that contains [author ] is cut there: the line is split at
    every [author ] and only the second piece is kept. *)
Example author_name_cut :
  count_author [] "author Coauthor Bob" = [("Co", 1)].
Proof. reflexivity. Qed.

Lemma blame_file_share (a p : string) (counts : Py.dict string Z) (w : World)
  (st : State) :
  exists counts' lines,
    blame_file p counts w st
    = (Ok counts',
       {| refs := refs st;
          trace := trace st ++ [blame_argv p];
          printed := printed st ++ lines |})
    /\ Py.get0 a counts'
       = Py.get0 a counts + blame_share a (respond w (trace st) (blame_argv p)).
Proof.
  unfold blame_file, try_except, bind, run, blame_share.
  destruct (respond w (trace st) (blame_argv p)) as [code out err | msg].
  - destruct (code =? 0) eqn:Hc; cbn [returncode stdout]; rewrite Hc; cbn [negb].
    + eexists _, []. rewrite app_nil_r. split; [reflexivity|]. apply count_blame_get0.
    + eexists _, []. rewrite app_nil_r. split; [reflexivity|]. lia.
  - eexists _, [_]. split; [reflexivity|]. lia.
Qed.

(** The tally of a directory listing, when the answer of a blame does
    not depend on what was run before: the count of every author grows
    by the lines that name the author in the outputs of the blames that
    succeeded, over the files with a relevant extension; failed blames
    and other files add nothing. *)
Theorem blame_files_tally (w : World) (answer : string -> Answer) (root : string)
  (files : list string) (counts : Py.dict string Z) (st : State) (a : string) :
  (forall hist p, respond w hist (blame_argv p) = answer p) ->
  exists counts' st',
    blame_files root files counts w st = (Ok counts', st')
    /\ Py.get0 a counts'
       = Py.get0 a counts
         + foldr Z.add 0
             (map (fun f => blame_share a (answer (path_join root f)))
                  (filter (fun f => relevant f = true) files)).
Proof.
  intros Hw. revert counts st.
  induction files as [|f files IH]; intros counts st.
  - exists counts, st. split; [reflexivity|]. cbn. lia.
  - unfold blame_files in *. cbn [foldM]. unfold bind at 1.
    rewrite filter_cons. destruct (relevant f) eqn:Hf.
    + rewrite decide_True by reflexivity.
      destruct (blame_file_share a (path_join root f) counts w st)
        as (c1 & l1 & -> & H1).
      match goal with |- context [foldM _ files c1 w ?s] =>
        destruct (IH c1 s) as (c2 & st2 & -> & H2) end.
      exists c2, st2. split; [reflexivity|].
      rewrite H2, H1, Hw. cbn [map foldr]. lia.
    + rewrite decide_False by discriminate. unfold ret at 1. apply IH.
Qed.

Lemma blame_files_tally_witness :
  exists counts' st',
    blame_files "src/" ["a.jl"; "b.jl"; "README.md"] [] (Scenario.two_files 128)
      Scenario.on_main = (Ok counts', st')
    /\ Py.get0 "Ann" counts'
       = Py.get0 "Ann" []
         + foldr Z.add 0
             (map (fun f => blame_share "Ann"
                              (respond (Scenario.two_files 128) []
                                 (blame_argv (path_join "src/" f))))
                  (filter (fun f => relevant f = true) ["a.jl"; "b.jl"; "README.md"])).
Proof.
  apply (blame_files_tally (Scenario.two_files 128)
           (fun p => respond (Scenario.two_files 128) [] (blame_argv p))).
  intros hist p. reflexivity.
Defined.

(** ** More on folding the aliases *)

Lemma set_fresh {K V} `{EqDecision K} (k : K) (v : V) (d : Py.dict K V) :
  k ∉ Py.keys d -> Py.set k v d = d ++ [(k, v)].
Proof.
  unfold Py.keys. induction d as [|[k' v'] d IH]; cbn [Py.set map app]; [reflexivity|].
  intros [Hne Hk]%not_elem_of_cons. cbn [fst] in Hne.
  rewrite decide_False by congruence. now rewrite (IH Hk).
Qed.

Lemma keys_app {K V} (d1 d2 : Py.dict K V) :
  Py.keys (d1 ++ d2) = Py.keys d1 ++ Py.keys d2.
Proof. unfold Py.keys. apply map_app. Qed.

Lemma merge_users_append (metric_data : Py.dict string Z) (users : list string) :
  forall acc : Py.dict string Z,
    NoDup users ->
    (forall u, u ∈ users -> u ∉ Py.keys acc) ->
    fold_left (merge_user metric_data) users acc
    = acc ++ map (fun u => (u, total_contribution metric_data u))
                 (filter (fun u => u ∉ alias_values) users).
Proof.
  induction users as [|x users IH]; intros acc Hnd Hfresh; cbn [fold_left].
  - cbn. now rewrite app_nil_r.
  - apply NoDup_cons in Hnd as [Hx Hnd]. rewrite filter_cons.
    unfold merge_user at 2. unfold Py.in_list.
    destruct (decide (x ∈ alias_values)) as [Hal|Hal].
    + rewrite bool_decide_eq_true_2 by exact Hal. cbn [negb].
      rewrite decide_False by tauto.
      apply IH; [exact Hnd|]. intros u Hu. apply Hfresh. now apply elem_of_cons; right.
    + rewrite bool_decide_eq_false_2 by exact Hal. cbn [negb].
      rewrite decide_True by exact Hal.
      rewrite set_fresh by (apply Hfresh; now apply elem_of_cons; left).
      rewrite IH.
      * cbn [map]. now rewrite <- app_assoc.
      * exact Hnd.
      * intros u Hu. rewrite keys_app. cbn. rewrite elem_of_app, list_elem_of_singleton.
        intros [Hin| ->]; [|contradiction].
        revert Hin. apply Hfresh. now apply elem_of_cons; right.
Qed.

Lemma unique_user_data_closed (metric_data : Py.dict string Z) :
  NoDup (Py.keys metric_data) ->
  unique_user_data metric_data
  = map (fun u => (u, total_contribution metric_data u))
        (filter (fun u => u ∉ alias_values) (Py.keys metric_data)).
Proof.
  intros Hnd. unfold unique_user_data.
  rewrite merge_users_append; [reflexivity | exact Hnd |].
  intros u _. apply not_elem_of_nil.
Qed.

(** The folded mapping, entry by entry: the names of the input that are
    not aliases, in the order in which the input holds them, each with
    its folded total.  This is the order of the summary printed on the
    console. *)
Theorem unique_user_data_in_order (metric_data : Py.dict string Z) :
  NoDup (Py.keys metric_data) ->
  unique_user_data metric_data
  = map (fun u => (u, total_contribution metric_data u))
        (filter (fun u => u ∉ alias_values) (Py.keys metric_data)).
Proof. apply unique_user_data_closed. Qed.

Lemma unique_user_data_in_order_witness :
  unique_user_data [("zed", 1); ("skoirala", 5); ("dr-ko", 3)]
  = map (fun u => (u, total_contribution [("zed", 1); ("skoirala", 5); ("dr-ko", 3)] u))
        (filter (fun u => u ∉ alias_values)
                (Py.keys [("zed", 1); ("skoirala", 5); ("dr-ko", 3)])).
Proof.
  apply (unique_user_data_in_order [("zed", 1); ("skoirala", 5); ("dr-ko", 3)]).
  apply (bool_decide_unpack _). vm_compute. reflexivity.
Defined.

Lemma get0_absent {K} `{EqDecision K} (k : K) (d : Py.dict K Z) :
  k ∉ Py.keys d -> Py.get0 k d = 0.
Proof. intros Hk%get_None_keys. unfold Py.get0. now rewrite Hk. Qed.

Lemma aliases_in_alias_values (u : string) (aliases : list string) :
  Py.get u user_aliases = Some aliases -> forall a, a ∈ aliases -> a ∈ alias_values.
Proof.
  unfold alias_values. generalize user_aliases as table.
  induction table as [|[c al] table IH]; cbn [Py.get map concat]; [discriminate|].
  destruct (decide (c = u)); intros Hget a Ha; apply elem_of_app.
  - left. injection Hget as ->. exact Ha.
  - right. eauto.
Qed.

Lemma total_without_aliases (d : Py.dict string Z) (u : string) :
  (forall k, k ∈ Py.keys d -> k ∉ alias_values) ->
  total_contribution d u = Py.get0 u d.
Proof.
  intros Hd. unfold total_contribution.
  destruct (Py.get u user_aliases) as [aliases|] eqn:Hu; [|reflexivity].
  rewrite add_aliases_sum.
  assert (H : forall l : list string,
             (forall a, a ∈ l -> a ∈ alias_values) ->
             foldr Z.add 0 (map (fun alias => Py.get0 alias d) l) = 0).
  { induction l as [|a l IH]; intros Hl; cbn [map foldr]; [reflexivity|].
    rewrite IH by (intros b Hb; apply Hl; now apply elem_of_cons; right).
    rewrite get0_absent; [reflexivity|].
    intros Hk. apply (Hd a Hk), Hl. now apply elem_of_cons; left. }
  rewrite H; [lia | apply (aliases_in_alias_values u aliases Hu)].
Qed.

Lemma entries_of_keys (d : Py.dict string Z) :
  NoDup (Py.keys d) -> map (fun u => (u, Py.get0 u d)) (Py.keys d) = d.
Proof.
  unfold Py.keys, Py.get0. induction d as [|[k v] d IH]; cbn [map fst]; [reflexivity|].
  intros [Hk Hd]%NoDup_cons. cbn [Py.get]. rewrite decide_True by reflexivity.
  cbn [default]. f_equal. rewrite <- (IH Hd) at 2.
  apply map_ext_in. intros u Hu%list_elem_of_In.
  rewrite decide_False; [reflexivity|]. intros ->. contradiction.
Qed.

Lemma filter_all {A} (P : A -> Prop) `{forall x, Decision (P x)} (l : list A) :
  Forall P l -> filter P l = l.
Proof.
  induction 1 as [|x l Hx Hl IH]; [reflexivity|].
  rewrite filter_cons_True by exact Hx. now rewrite IH.
Qed.

Lemma unique_user_data_fixed (d : Py.dict string Z) :
  NoDup (Py.keys d) ->
  (forall k, k ∈ Py.keys d -> k ∉ alias_values) ->
  unique_user_data d = d.
Proof.
  intros Hnd Hd. rewrite unique_user_data_closed by exact Hnd.
  rewrite filter_all by (apply Forall_forall; exact Hd).
  transitivity (map (fun u => (u, Py.get0 u d)) (Py.keys d));
    [|apply entries_of_keys, Hnd].
  apply map_ext. intros u. now rewrite total_without_aliases.
Qed.

(** Folding the aliases a second time changes nothing: the folded
    mapping holds no alias, so every total is already its own count. *)
Theorem unique_user_data_idempotent (metric_data : Py.dict string Z) :
  unique_user_data (unique_user_data metric_data) = unique_user_data metric_data.
Proof.
  apply unique_user_data_fixed.
  - apply merge_users_NoDup, NoDup_nil_2.
  - intros k Hk%unique_user_data_keys. tauto.
Qed.

(** ** The total of a chart *)

Section Sums.
Context {A : Type}.
Implicit Types (f g : A -> Z) (l : list A).

Lemma sum_over_ext f g l :
  (forall x, x ∈ l -> f x = g x) -> sum_over f l = sum_over g l.
Proof.
  unfold sum_over. induction l as [|x l IH]; intros H; cbn [map foldr]; [reflexivity|].
  rewrite (H x) by (apply elem_of_cons; auto).
  rewrite IH; [reflexivity|]. intros y Hy. apply H, elem_of_cons; auto.
Qed.

Lemma sum_over_app f l1 l2 : sum_over f (l1 ++ l2) = sum_over f l1 + sum_over f l2.
Proof.
  unfold sum_over. induction l1 as [|x l1 IH]; cbn [app map foldr]; [lia|].
  rewrite IH. lia.
Qed.

Lemma sum_over_map {B} (h : B -> A) f (l : list B) :
  sum_over f (map h l) = sum_over (fun x => f (h x)) l.
Proof. unfold sum_over. now rewrite map_map. Qed.

Lemma sum_over_zero l : sum_over (fun _ : A => 0) l = 0.
Proof. unfold sum_over. induction l as [|x l IH]; cbn [map foldr]; lia. Qed.

Lemma sum_over_combine f a b c d l :
  (forall x, x ∈ l -> f x = a x - b x - c x + d x) ->
  sum_over f l = sum_over a l - sum_over b l - sum_over c l + sum_over d l.
Proof.
  unfold sum_over. induction l as [|x l IH]; intros H; cbn [map foldr]; [lia|].
  rewrite (H x) by (apply elem_of_cons; auto).
  rewrite IH; [lia|]. intros y Hy. apply H, elem_of_cons; auto.
Qed.

Lemma sum_over_filter (P : A -> Prop) `{forall x, Decision (P x)} f l :
  sum_over f (filter P l) = sum_over (fun x => if decide (P x) then f x else 0) l.
Proof.
  unfold sum_over. induction l as [|x l IH]; [reflexivity|].
  rewrite filter_cons. cbn [map foldr].
  destruct (decide (P x)); cbn [map foldr]; rewrite IH; lia.
Qed.

Lemma sum_over_Permutation f l1 l2 : l1 ≡ₚ l2 -> sum_over f l1 = sum_over f l2.
Proof.
  unfold sum_over. induction 1; cbn [map foldr]; lia.
Qed.

Context `{EqDecision A}.

Lemma sum_over_single (x : A) (c : Z) l :
  NoDup l ->
  sum_over (fun y => if decide (y = x) then c else 0) l
  = if decide (x ∈ l) then c else 0.
Proof.
  unfold sum_over. induction 1 as [|y l Hy Hl IH]; cbn [map foldr].
  - rewrite decide_False by apply not_elem_of_nil. reflexivity.
  - rewrite IH. destruct (decide (y = x)) as [->|Hne].
    + rewrite (decide_True (P := x ∈ x :: l)) by (apply elem_of_cons; auto).
      rewrite (decide_False (P := x ∈ l)) by exact Hy. lia.
    + destruct (decide (x ∈ l)) as [Hin|Hout].
      * rewrite (decide_True (P := x ∈ y :: l)) by (apply elem_of_cons; auto). lia.
      * rewrite (decide_False (P := x ∈ y :: l)); [lia|].
        intros [->|?]%elem_of_cons; [congruence | contradiction].
Qed.

(** A sum over what two duplicate-free lists share can run over
    either. *)
Lemma sum_over_swap f l1 l2 :
  NoDup l1 -> NoDup l2 ->
  sum_over (fun x => if decide (x ∈ l2) then f x else 0) l1
  = sum_over (fun y => if decide (y ∈ l1) then f y else 0) l2.
Proof.
  intros H1 H2. induction H1 as [|x l1 Hx Hl1 IH].
  - change (sum_over _ []) with 0. symmetry.
    transitivity (sum_over (fun _ : A => 0) l2); [|apply sum_over_zero].
    apply sum_over_ext.
    intros y _. rewrite decide_False by apply not_elem_of_nil. reflexivity.
  - unfold sum_over at 1. cbn [map foldr]. fold (sum_over (fun x => if decide (x ∈ l2) then f x else 0) l1).
    rewrite IH.
    rewrite <- (sum_over_single x (f x) l2 H2).
    unfold sum_over. clear IH H2. induction l2 as [|y l2 IH2]; cbn [map foldr]; [lia|].
    rewrite <- IH2.
    destruct (decide (y = x)) as [->|Hne].
    + rewrite (decide_True (P := x ∈ x :: l1)) by (apply elem_of_cons; auto).
      rewrite (decide_False (P := x ∈ l1)) by exact Hx. lia.
    + destruct (decide (y ∈ l1)) as [Hin|Hout].
      * rewrite (decide_True (P := y ∈ x :: l1)) by (apply elem_of_cons; auto). lia.
      * rewrite (decide_False (P := y ∈ x :: l1)); [lia|].
        intros [->|?]%elem_of_cons; [congruence | contradiction].
Qed.
End Sums.

Lemma sum_over_concat {A} (f : A -> Z) (ls : list (list A)) :
  sum_over f (concat ls) = sum_over (sum_over f) ls.
Proof.
  induction ls as [|l ls IH]; [reflexivity|].
  cbn [concat]. rewrite sum_over_app, IH. reflexivity.
Qed.

Lemma sum_values_keys (d : Py.dict string Z) :
  NoDup (Py.keys d) -> sum_values d = sum_over (fun u => Py.get0 u d) (Py.keys d).
Proof.
  intros Hnd. rewrite <- (entries_of_keys d Hnd) at 1.
  unfold sum_values, sum_over. now rewrite map_map.
Qed.

Lemma sum_over_entries (phi : string -> Z -> Z) (d : Py.dict string Z) :
  NoDup (Py.keys d) ->
  sum_over (fun '(k, v) => phi k v) d
  = sum_over (fun u => phi u (Py.get0 u d)) (Py.keys d).
Proof.
  intros Hnd. rewrite <- (entries_of_keys d Hnd) at 1.
  rewrite sum_over_map. reflexivity.
Qed.

Lemma alias_values_NoDup : NoDup alias_values.
Proof. apply (bool_decide_unpack _). vm_compute. reflexivity. Qed.

Lemma canonical_names_NoDup : NoDup (Py.keys user_aliases).
Proof. apply (bool_decide_unpack _). vm_compute. reflexivity. Qed.

Lemma alias_not_canonical (a : string) :
  a ∈ alias_values -> a ∉ Py.keys user_aliases.
Proof.
  revert a. apply Forall_forall. apply (bool_decide_unpack _). vm_compute. reflexivity.
Qed.

Lemma user_aliases_consistent :
  Forall (fun e => Py.get (fst e) user_aliases = Some (snd e)
                   /\ Forall (fun a => canonical a = Some (fst e)) (snd e))
         user_aliases.
Proof. repeat constructor. Qed.

Lemma mem_keys {K V} `{EqDecision K} (k : K) (d : Py.dict K V) :
  Py.mem k d = true <-> k ∈ Py.keys d.
Proof.
  unfold Py.mem. destruct (Py.get k d) as [v|] eqn:Hk.
  - split; [intros _; eapply get_Some_keys, Hk | reflexivity].
  - apply get_None_keys in Hk. split; [discriminate | contradiction].
Qed.

Lemma total_contribution_split (metric_data : Py.dict string Z) (u : string) :
  total_contribution metric_data u
  = Py.get0 u metric_data
    + sum_over (fun a => Py.get0 a metric_data) (default [] (Py.get u user_aliases)).
Proof.
  unfold total_contribution, sum_over.
  destruct (Py.get u user_aliases) as [aliases|]; cbn [default map foldr];
    [apply add_aliases_sum | lia].
Qed.

(** The counts under the adopted aliases are what the canonical names
    receive on top of their own. *)
Lemma adopted_counts (metric_data : Py.dict string Z) :
  NoDup (Py.keys metric_data) ->
  sum_over (fun u => if bool_decide (u ∈ alias_values) && adopted metric_data u
                     then Py.get0 u metric_data else 0)
           (Py.keys metric_data)
  = sum_over (fun u => sum_over (fun a => Py.get0 a metric_data)
                                (default [] (Py.get u user_aliases)))
             (Py.keys metric_data).
Proof.
  intros Hnd.
  set (g := fun a => Py.get0 a metric_data).
  set (K := Py.keys metric_data) in *.
  set (A' := filter (fun a => adopted metric_data a = true) alias_values).
  assert (HA' : NoDup A') by apply NoDup_filter, alias_values_NoDup.
  transitivity (sum_over (fun e : string * list string =>
                            if decide (fst e ∈ K)
                            then sum_over g (default [] (Py.get (fst e) user_aliases))
                            else 0) user_aliases).
  - transitivity (sum_over (fun u => if decide (u ∈ A') then g u else 0) K).
    { apply sum_over_ext. intros u _. subst A'.
      destruct (decide (u ∈ filter (fun a => adopted metric_data a = true) alias_values))
        as [Hin|Hout].
      - apply list_elem_of_filter in Hin as [Had Hal].
        rewrite Had, bool_decide_eq_true_2 by exact Hal. reflexivity.
      - destruct (bool_decide (u ∈ alias_values)) eqn:Hal; [|reflexivity].
        apply bool_decide_eq_true in Hal.
        destruct (adopted metric_data u) eqn:Had; [|reflexivity].
        exfalso. apply Hout, list_elem_of_filter. auto. }
    rewrite (sum_over_swap g K A' Hnd HA').
    transitivity (sum_over g A').
    { apply sum_over_ext. intros a _.
      destruct (decide (a ∈ K)); [reflexivity|]. symmetry. now apply get0_absent. }
    subst A'. rewrite sum_over_filter.
    unfold alias_values. rewrite sum_over_concat, sum_over_map.
    apply sum_over_ext. intros [c al] He.
    pose proof user_aliases_consistent as Hok. rewrite Forall_forall in Hok.
    destruct (Hok (c, al) He) as [Hget Hcan]. cbn [fst snd] in *.
    rewrite Hget. cbn [default]. rewrite Forall_forall in Hcan.
    destruct (decide (c ∈ K)) as [Hc|Hc].
    + apply sum_over_ext. intros a Ha.
      rewrite decide_True; [reflexivity|].
      unfold adopted. rewrite (Hcan a Ha). now apply mem_keys.
    + transitivity (sum_over (fun _ : string => 0) al); [|apply sum_over_zero].
      apply sum_over_ext. intros a Ha.
      rewrite decide_False; [reflexivity|].
      unfold adopted. rewrite (Hcan a Ha). intros Hm%mem_keys. contradiction.
  - symmetry.
    transitivity (sum_over (fun u => if decide (u ∈ Py.keys user_aliases)
                                     then sum_over g (default [] (Py.get u user_aliases))
                                     else 0) K).
    { apply sum_over_ext. intros u _.
      destruct (decide (u ∈ Py.keys user_aliases)) as [|Hout]; [reflexivity|].
      apply get_None_keys in Hout. rewrite Hout. reflexivity. }
    rewrite (sum_over_swap _ K (Py.keys user_aliases) Hnd canonical_names_NoDup).
    unfold Py.keys at 1. rewrite sum_over_map. reflexivity.
Qed.

Lemma sum_contributions (metric_data : Py.dict string Z) :
  foldr Z.add 0 (contributions metric_data)
  = sum_values (unique_user_data metric_data).
Proof.
  unfold contributions, sorted_users.
  change (foldr Z.add 0 (map ?f ?l)) with (sum_over f l).
  rewrite (sum_over_Permutation _ _ _ (merge_sort_Permutation _ _)).
  symmetry. apply sum_values_keys, merge_users_NoDup, NoDup_nil_2.
Qed.

(** The total of a chart is the total of the input less the counts of
    the orphans, the aliases whose canonical name is not in the input:
    nothing else is lost, and nothing is counted twice. *)
Theorem chart_total (metric_data : Py.dict string Z) :
  NoDup (Py.keys metric_data) ->
  foldr Z.add 0 (contributions metric_data)
  = sum_values metric_data - lost metric_data.
Proof.
  intros Hnd. rewrite sum_contributions, (unique_user_data_closed _ Hnd).
  unfold sum_values at 1. rewrite map_map. cbn [snd].
  change (foldr Z.add 0 (map ?f ?l)) with (sum_over f l).
  rewrite sum_over_filter.
  rewrite (sum_over_combine _
             (fun u => Py.get0 u metric_data)
             (fun u => if orphan metric_data u then Py.get0 u metric_data else 0)
             (fun u => if bool_decide (u ∈ alias_values) && adopted metric_data u
                       then Py.get0 u metric_data else 0)
             (fun u => sum_over (fun a => Py.get0 a metric_data)
                                (default [] (Py.get u user_aliases)))).
  - rewrite (adopted_counts _ Hnd), <- (sum_values_keys _ Hnd).
    unfold lost. rewrite (sum_over_entries
      (fun k v => if orphan metric_data k then v else 0) _ Hnd). lia.
  - intros u _. rewrite total_contribution_split. unfold orphan.
    destruct (decide (u ∉ alias_values)) as [Hout|Hin].
    + rewrite bool_decide_eq_false_2 by exact Hout. cbn [andb]. lia.
    + apply dec_stable in Hin. rewrite bool_decide_eq_true_2 by exact Hin.
      pose proof (alias_not_canonical u Hin) as Hc%get_None_keys. rewrite Hc.
      cbn [andb default]. change (sum_over _ []) with 0.
      destruct (adopted metric_data u); cbn [negb]; lia.
Qed.

Lemma chart_total_witness :
  foldr Z.add 0 (contributions [("skoirala", 5); ("Nuno", 2); ("NC", 4)])
  = sum_values [("skoirala", 5); ("Nuno", 2); ("NC", 4)]
    - lost [("skoirala", 5); ("Nuno", 2); ("NC", 4)].
Proof.
  apply (chart_total [("skoirala", 5); ("Nuno", 2); ("NC", 4)]).
  apply (bool_decide_unpack _). vm_compute. reflexivity.
Defined.

Example chart_total_example :
  contributions [("skoirala", 5); ("Nuno", 2); ("NC", 4)] = [6]
  /\ sum_values [("skoirala", 5); ("Nuno", 2); ("NC", 4)] = 11
  /\ lost [("skoirala", 5); ("Nuno", 2); ("NC", 4)] = 5.
Proof. repeat split. Qed.

(** ** More on the colours *)

Lemma channel_in_unit (L : PyLib) (g : rng L) :
  randint_in_range L -> unit_channel (fst (channel L g)).
Proof.
  intros Hr. unfold channel.
  pose proof (Hr 0 255 g ltac:(lia)) as Hn.
  destruct (random_randint L 0 255 g) as [n g']. cbn [fst] in *.
  unfold unit_channel, Qle, Qminus, Qplus, Qopp, Qdiv, Qmult, Qinv, inject_Z.
  cbn. lia.
Qed.

Lemma seeded_color_valid (L : PyLib) (hex_digest : string) (alpha : Q) :
  randint_in_range L ->
  exists r g b,
    fst (seeded_color L hex_digest alpha) = RGBA r g b alpha
    /\ unit_channel r /\ unit_channel g /\ unit_channel b.
Proof.
  intros Hr. unfold seeded_color.
  pose proof (channel_in_unit L (random_seed L (Py.int16 hex_digest)) Hr) as H1.
  destruct (channel L (random_seed L (Py.int16 hex_digest))) as [r g1].
  pose proof (channel_in_unit L g1 Hr) as H2.
  destruct (channel L g1) as [g g2].
  pose proof (channel_in_unit L g2 Hr) as H3.
  destruct (channel L g2) as [b g3].
  cbn [fst] in *. eauto 10.
Qed.

(** Every colour that [generate_unique_colors] stores is a tuple of
    three channels between 0 and 1 and the opacity it was given, as long
    as [random.randint] keeps within its bounds. *)
Theorem colors_valid (L : PyLib) (users : list string) (alpha : Q) (g : rng L)
  (u : string) (c : color) :
  randint_in_range L ->
  Py.get u (fst (generate_unique_colors L users alpha g)) = Some c ->
  exists r gr b,
    c = RGBA r gr b alpha
    /\ unit_channel r /\ unit_channel gr /\ unit_channel b.
Proof.
  intros Hr. unfold generate_unique_colors. rewrite assign_colors_get.
  destruct (decide (u ∈ users)); [|discriminate].
  intros [= <-]. apply seeded_color_valid, Hr.
Qed.

Lemma toy_lib_in_range : randint_in_range Scenario.toy_lib.
Proof.
  intros lo hi g Hle. cbn.
  pose proof (Z.mod_pos_bound g (hi - lo + 1) ltac:(lia)). lia.
Qed.

Lemma colors_valid_witness :
  exists r gr b,
    RGBA (1 - inject_Z 10 / 255) (1 - inject_Z 11 / 255) (1 - inject_Z 12 / 255) (9 # 10)
    = RGBA r gr b (9 # 10)
    /\ unit_channel r /\ unit_channel gr /\ unit_channel b.
Proof.
  apply (colors_valid Scenario.toy_lib ["a"] (9 # 10) 0 "a").
  - exact toy_lib_in_range.
  - reflexivity.
Defined.

(** The call leaves the generator of the module [random] seeded by the
    last user: its state afterwards is the one after that user's three
    draws and owes nothing to the state before the call; with no user
    the generator is untouched. *)
Theorem generator_left_seeded (L : PyLib) (users : list string) (alpha : Q) (g : rng L) :
  snd (generate_unique_colors L users alpha g)
  = match last users with
    | Some u => snd (seeded_color L (md5_hexdigest L u) alpha)
    | None => g
    end.
Proof.
  unfold generate_unique_colors.
  destruct users as [|x users] using rev_ind; [reflexivity|].
  rewrite fold_left_app, last_snoc. cbn [fold_left].
  destruct (fold_left (assign_color L alpha) users ([], g)) as [acc g'].
  unfold assign_color.
  destruct (seeded_color L (md5_hexdigest L x) alpha) as [c g'']. reflexivity.
Qed.

(** ** Counts of one *)

(** On a summary line as git words it, the count of insertions
    (deletions) is added under the current author unless it is one:
    [1 insertion(+)] and [1 deletion(-)] are in the singular, the
    patterns ask for the plural, and a single changed line is not
    counted at all. *)
Theorem count_of_one_missed (cs : commit_summary) (cur : option string) (s : shortstat) :
  parse_line (cs, cur) (git_shortstat s)
  = ({| git_commits := git_commits cs;
        lines_added :=
          match insertions s with
          | Some i =>
              if (i =? 1)%N then lines_added cs
              else Py.set cur (Py.get0 cur (lines_added cs) + Z.of_N i) (lines_added cs)
          | None => lines_added cs
          end;
        lines_deleted :=
          match deletions s with
          | Some d =>
              if (d =? 1)%N then lines_deleted cs
              else Py.set cur (Py.get0 cur (lines_deleted cs) + Z.of_N d) (lines_deleted cs)
          | None => lines_deleted cs
          end |},
     cur).
Proof.
  unfold parse_line.
  rewrite search_git_insertions, search_git_deletions.
  unfold git_shortstat at 1. rewrite startswith_same.
  unfold Py.startswith. rewrite prefix_nil. cbn [negb]. cbv iota.
  destruct cs as [gc la ld]. unfold plural_only.
  destruct (insertions s) as [i|]; [destruct (i =? 1)%N|];
    (destruct (deletions s) as [d|]; [destruct (d =? 1)%N|]);
    cbn [git_commits lines_added lines_deleted];
    rewrite ?int_of_str_of_N; reflexivity.
Qed.

Example count_of_one_example :
  git_shortstat {| files_changed := 1; insertions := Some 1%N; deletions := Some 3%N |}
  = " 1 file changed, 1 insertion(+), 3 deletions(-)"
  /\ parse_log ("Ann" +:+ nl +:+ " 1 file changed, 1 insertion(+), 3 deletions(-)")
     = {| git_commits := [("Ann", 1)];
          lines_added := [];
          lines_deleted := [(Some "Ann", 3)] |}.
Proof. repeat split. Qed.

(** ** Labels, slices and files *)

(** Each slice of a chart is the folded total of its label, and the
    labels are exactly the names of the input that are not aliases. *)
Theorem slices_match_labels (metric_data : Py.dict string Z) :
  contributions metric_data
  = map (total_contribution metric_data) (sorted_users metric_data)
  /\ forall u, u ∈ sorted_users metric_data
               <-> u ∈ Py.keys metric_data /\ u ∉ alias_values.
Proof.
  assert (Hin : forall u, u ∈ sorted_users metric_data
                          <-> u ∈ Py.keys metric_data /\ u ∉ alias_values).
  { intros u. unfold sorted_users.
    rewrite merge_sort_Permutation. apply unique_user_data_keys. }
  split; [|exact Hin].
  unfold contributions. apply map_ext_in. intros u Hu%list_elem_of_In%Hin.
  unfold Py.get0, unique_user_data. rewrite merge_users_get.
  rewrite decide_True by exact Hu. reflexivity.
Qed.

(** The loop over the files of a directory runs one blame for every
    file whose name ends in [.jl] or [.m], in the order of the listing,
    and for no other file, whatever the blames before it did; it always
    returns and never moves the working tree. *)
Theorem only_relevant_files_blamed (root : string) (files : list string)
  (counts : Py.dict string Z) (w : World) (st : State) :
  exists counts' lines,
    blame_files root files counts w st =
    (Ok counts',
     {| refs := refs st;
        trace := trace st ++ map (fun f => blame_argv (path_join root f))
                                 (filter (fun f => relevant f = true) files);
        printed := printed st ++ lines |}).
Proof. apply blame_files_runs. Qed.

Lemma blame_analysis_label (check_out : bool) (date : string) (w : World)
  (st st' : State) (v : string) (counts : Py.dict string Z) :
  blame_analysis check_out date w st = (Ok (v, counts), st') ->
  exists ymd,
    Datetime.strptime date = Some ymd
    /\ v = code_version_on ymd +:+ "@" +:+ date.
Proof.
  unfold blame_analysis, code_version_on.
  change (Datetime.strptime date_julia_begin) with (Some (2021, 11, 25)).
  cbv beta iota.
  destruct (Datetime.strptime date) as [ymd|]; [|discriminate].
  intros H. exists ymd. split; [reflexivity|]. revert H.
  destruct (Datetime.before ymd (2021, 11, 25)); cbv beta iota;
    unfold bind at 1; unfold print at 1; unfold bind at 1;
    match goal with |- context [foldM ?f ?dirs ?c w ?s] =>
      destruct (blame_directories_run dirs c w s) as (c1 & st1 & -> & _)
    end;
    destruct check_out; unfold bind, run, ret, raise;
    repeat match goal with
           | |- context [match respond ?w ?t ?a with _ => _ end] =>
               destruct (respond w t a)
           | |- context [if ?b then _ else _] => destruct b
           end;
    intros [=]; subst; reflexivity.
Qed.

(** Whenever the function returns, its label names the date it was asked
    for and the version of that date: [MATLAB] before 25 November 2021,
    [Julia] from that day on. *)
Theorem version_label (w : World) (st st' : State) (d : option string)
  (v : string) (counts : Py.dict string Z) :
  get_code_lines_contributed d w st = (Ok (v, counts), st') ->
  exists ymd,
    Datetime.strptime (default (strftime_Ymd w) d) = Some ymd
    /\ v = code_version_on ymd +:+ "@" +:+ default (strftime_Ymd w) d.
Proof.
  unfold get_code_lines_contributed, bind at 1, now_Y.
  assert (Hd : (match d with Some d0 => ret d0 | None => now_Ymd end) w st
               = (Ok (default (strftime_Ymd w) d), st)) by (destruct d; reflexivity).
  unfold bind at 1. rewrite Hd.
  generalize (default (strftime_Ymd w) d) as date. intros date.
  destruct (check_out_needed (strftime_Y w) date); unfold bind at 1.
  - destruct (checkout_before date w st) as [[[]|e] st1]; [|discriminate].
    apply blame_analysis_label.
  - unfold ret at 1. apply blame_analysis_label.
Qed.

Lemma version_label_witness :
  exists ymd,
    Datetime.strptime (default (strftime_Ymd Scenario.quiet) (Some "2010-12-31"))
    = Some ymd
    /\ "MATLAB@2010-12-31"
       = code_version_on ymd +:+ "@"
         +:+ default (strftime_Ymd Scenario.quiet) (Some "2010-12-31").
Proof.
  apply (version_label Scenario.quiet Scenario.on_main
           {| refs := {| HEAD := "dev"; previous := Some "main" |};
              trace := [status_argv; rev_list_argv "2010-12-31"; checkout_argv "-"];
              printed :=
                ["No commit found before the specified date.";
                 "checking: ('documentation', 'tools', 'model', 'optimization') on 2010-12-31"] |}
           (Some "2010-12-31") "MATLAB@2010-12-31" []).
  reflexivity.
Defined.
